(** * Signal pipeline of the trading bot: a shallow embedding

    The development follows the Python sources under [backend/]:
    - [core/execution_state_manager.py]  ([SignalExecutor])
    - [core/mt5_executor.py]             ([MT5Executor])
    - [core/sync_manager.py]             ([PositionSyncManager])
    - [core/signal_parser.py]            ([SignalParser])
    - [api/websockets.py]                ([ConnectionManager])
    - [api/routes.py]                    ([confirm_execution])

    Conventions of the embedding.
    - Prices, volumes and confidence scores are Python floats or SQL
      numerics in the source; they are rationals ([Q]) here: decimal numbers
      of at most 15 significant digits, which a float holds and gives back
      unchanged, or results of float operations.  A rational in a float
      position stands for the binary64 number nearest to it.  On such
      numbers the order of the rationals is the order of the floats, and
      comparisons are written on the rationals; the arithmetic of the engine
      (the volume of the fan-out, the slippage test) is rounded to binary64
      by [fl].
    - Python truthiness ([if x:], [x or y]) is written out by [truthy_str]
      and [truthy_num]: [None], the empty string and a zero number are falsy.
    - Rows of the [trade_executions] table live in a list; the primary key
      of a row is its index (the source uses opaque UUIDs).
    - The MetaTrader terminal, the credential store and the clock are
      external; they are fields of the record [Env].  The terminal answers
      as the account in use.  Database failures are not modelled: a commit
      succeeds.  The one value of a run that can make a commit fail is a
      ticket beyond the 64-bit range of its column; the statements about
      the outcome of a whole run require [tickets_fit].
    - Every external effect of a run (broadcast, broker call, warning or
      error log) is appended to a trace.  Informational log lines and the
      in-memory dictionary [SignalExecutor.active_executions], which nothing
      reads, are left out. *)

From Stdlib Require Import Ascii String QArith Qabs Qminmax Qround Qpower Lqa.
From stdpp Require Import base option list strings gmap pretty.

Local Open Scope string_scope.
Local Open Scope list_scope.
Local Open Scope stdpp_scope.
Local Open Scope Z_scope.

(** ** Python values *)

Definition truthy_str (o : option string) : bool :=
  match o with
  | Some s => negb (String.eqb s EmptyString)
  | None => false
  end.

Definition truthy_num (o : option Q) : bool :=
  match o with
  | Some q => negb (Qeq_bool q 0)
  | None => false
  end.

Definition truthy_int (o : option Z) : bool :=
  match o with
  | Some z => negb (Z.eqb z 0)
  | None => false
  end.

Definition Qlt_bool (a b : Q) : bool := negb (Qle_bool b a).

(** [x or d] on an optional number. *)
Definition num_or (o : option Q) (d : Q) : Q :=
  match o with
  | Some q => if Qeq_bool q 0 then d else q
  | None => d
  end.

(** [float(x) if x else None] *)
Definition float_if (o : option Q) : option Q :=
  if truthy_num o then o else None.

(** ** Floats

    A Python float is a binary64 number.  A rational in a float position
    stands for the binary64 number nearest to it (ties to even), which is
    what [float(x)] returns for a decimal [x] and what a literal denotes; an
    arithmetic operation returns the binary64 number nearest to its exact
    result.  Python has infinities beyond the range of binary64; they are
    not represented, and the statements about float arithmetic require
    [float_range] of the numbers involved. *)

(** The integer nearest to a rational, ties to even. *)
Definition round_half_even (y : Q) : Z :=
  let f := Qfloor y in
  let r := (y - inject_Z f)%Q in
  if Qlt_bool r (1 # 2) then f
  else if Qlt_bool (1 # 2) r then f + 1
  else if Z.even f then f else f + 1.

(** [2 ^ e] for an integer exponent. *)
Definition pow2 (e : Z) : Q :=
  if 0 <=? e then inject_Z (2 ^ e) else 1 # Z.to_pos (2 ^ (- e)).

(** [floor (log2 a)] for a positive rational. *)
Definition ilog2 (a : Q) : Z :=
  let e := Z.log2 (Qnum a) - Z.log2 (Zpos (Qden a)) in
  if Qlt_bool a (pow2 e) then e - 1 else e.

(** The binary64 number nearest to a rational: 53 significant bits, the
    exponent of the last bit at least -1074 (subnormal numbers). *)
Definition fl (q : Q) : Q :=
  if Qeq_bool q 0 then 0%Q
  else
    let a := Qabs q in
    let ulp := pow2 (Z.max (ilog2 a) (-1022) - 52) in
    let m := inject_Z (round_half_even (a / ulp)) in
    if Qlt_bool q 0 then (- (m * ulp))%Q else (m * ulp)%Q.

(** [x - y], [x * y] and [x / y] on floats. *)
Definition fsub (x y : Q) : Q := fl (fl x - fl y).
Definition fmul (x y : Q) : Q := fl (fl x * fl y).
Definition fdiv (x y : Q) : Q := fl (fl x / fl y).

(** The largest binary64 number, and the rationals that are not beyond it. *)
Definition max_float : Q := inject_Z ((2 ^ 53 - 1) * 2 ^ 971).
Definition float_range (q : Q) : Prop := (Qabs q <= max_float)%Q.

(** ** Data model ([models.py], [ExecutionState]) *)

Inductive ExecutionState : Type :=
  | PENDING | PENDING_APPROVAL | VALIDATED | EXECUTING
  | EXECUTED | FAILED | CANCELLED | CLOSED.

Definition state_eqb (a b : ExecutionState) : bool :=
  match a, b with
  | PENDING, PENDING | PENDING_APPROVAL, PENDING_APPROVAL
  | VALIDATED, VALIDATED | EXECUTING, EXECUTING | EXECUTED, EXECUTED
  | FAILED, FAILED | CANCELLED, CANCELLED | CLOSED, CLOSED => true
  | _, _ => false
  end.

(** The [.value] of the enumeration, as stored in [execution_status]. *)
Definition state_value (s : ExecutionState) : string :=
  match s with
  | PENDING => "pending" | PENDING_APPROVAL => "pending_approval"
  | VALIDATED => "validated" | EXECUTING => "executing"
  | EXECUTED => "executed" | FAILED => "failed"
  | CANCELLED => "cancelled" | CLOSED => "closed"
  end.

(** The dictionary handed to the engine as [parsed_signal].  A key that is
    absent or [None] is [None]; an absent list is the empty list.  The key
    [confidence_score] is read with the default 0, which applies to an
    absent key only: [confidence_score] is the number under the key, and
    when there is none [confidence_is_none] tells a key that holds [None]
    ([true]) from an absent key ([false]). *)
Record ParsedSignal : Type := {
  symbol : option string;
  signal_type : option string;
  entry_price : option Q;
  entry_range : list Q;
  stop_loss : option Q;
  take_profit : option Q;
  take_profits : list Q;
  confidence_score : option Q;
  confidence_is_none : bool;
}.

Record TradeExecution : Type := {
  ex_user_id : N;
  ex_signal_id : N;
  ex_broker_config_id : N;
  ex_symbol : string;
  ex_side : string;
  ex_volume : Q;
  ex_entry_price : option Q;
  ex_stop_loss : option Q;
  ex_take_profit : option Q;
  execution_status : ExecutionState;
  ticket_number : option Z;
  order_id : option string;
  actual_entry_price : option Q;
  actual_entry_time : option Z;
  executed_at : option Z;
  close_price : option Q;
  close_time : option Z;
  profit_loss : option Q;
  execution_error : option string;
}.

Record Signal : Type := {
  sig_user_id : N;
  status : string;
  processed_at : option Z;
}.

Record UserPreferences : Type := {
  manual_approval : bool;
  risk_per_trade : option Q;
  max_slippage : Q;
  use_limit_orders : bool;
}.

Record BrokerConfig : Type := {
  login : Z;
  server : string;
}.

Record DB : Type := {
  executions : list TradeExecution;
  signals : gmap N Signal;
  broker_configs : gmap N BrokerConfig;
  user_preferences : gmap N UserPreferences;
}.

(** ** The MetaTrader terminal as seen through [MT5Executor] *)

Inductive OrderType : Type :=
  | ORDER_TYPE_BUY | ORDER_TYPE_SELL | ORDER_TYPE_BUY_LIMIT | ORDER_TYPE_SELL_LIMIT.
Inductive TradeAction : Type := TRADE_ACTION_DEAL | TRADE_ACTION_PENDING.
Inductive Filling : Type := ORDER_FILLING_FOK | ORDER_FILLING_IOC | ORDER_FILLING_RETURN.
Inductive DealEntry : Type := DEAL_ENTRY_IN | DEAL_ENTRY_OUT | DEAL_ENTRY_OTHER.

Record TradeRequest : Type := {
  req_action : TradeAction;
  req_symbol : string;
  req_volume : Q;
  req_type : OrderType;
  req_price : option Q;
  req_comment : string;
  req_type_filling : Filling;
  req_sl : option Q;
  req_tp : option Q;
}.

Record SymbolInfo : Type := {
  si_ask : Q; si_bid : Q; si_point : Q; si_digits : Z; si_filling_mode : Z;
}.
Record Tick : Type := { tick_bid : Q; tick_ask : Q }.
Record SendResult : Type := { retcode : Z; res_order : Z; res_comment : string }.
Record Position : Type := {
  pos_ticket : Z; pos_profit : Q; pos_price_current : Q;
}.
Record Deal : Type := {
  deal_ticket : Z; deal_entry : DealEntry; deal_price : Q; deal_profit : Q; deal_time : Z;
}.

(** What [order_send] may do: raise, return [None], or return a result. *)
Inductive SendOutcome : Type :=
  | SendRaises (msg : string)
  | SendNone (last_error : string)
  | SendReturns (r : SendResult).

Record MT5 : Type := {
  TRADE_RETCODE_DONE : Z;
  mt5_login_ok : Z -> string -> string -> bool;
  symbol_info : string -> option SymbolInfo;
  symbol_info_tick : string -> option Tick;
  order_send : TradeRequest -> SendOutcome;
  positions_get : list Position;
  history_deals_get : Z -> option (list Deal);
}.

(** External collaborators of one run. *)
Record Env : Type := {
  mt5 : MT5;
  mt5_password : N -> N -> option string;
  utcnow : Z;
}.

(** ** [MT5Executor] ([core/mt5_executor.py]) *)

Definition ascii_lower (c : ascii) : ascii :=
  let n := nat_of_ascii c in
  if (Nat.leb 65 n && Nat.leb n 90)%bool then ascii_of_nat (n + 32) else c.

Definition ascii_upper (c : ascii) : ascii :=
  let n := nat_of_ascii c in
  if (Nat.leb 97 n && Nat.leb n 122)%bool then ascii_of_nat (n - 32) else c.

Fixpoint str_map (f : ascii -> ascii) (s : string) : string :=
  match s with
  | EmptyString => EmptyString
  | String c r => String (f c) (str_map f r)
  end.

Definition lower : string -> string := str_map ascii_lower.
Definition upper : string -> string := str_map ascii_upper.

(** The dictionaries returned by the order functions.  A key the source
    does not put into the dictionary is [None] here, which is what
    [dict.get] returns for it. *)
Record OrderResult : Type := {
  success : bool;
  ticket : option Z;
  res_order_id : option string;
  res_entry_price : option Q;
  res_price : option Q;
  error : option string;
  res_retcode : option Z;
}.

Definition order_failure (msg : string) (rc : option Z) : OrderResult :=
  {| success := false; ticket := None; res_order_id := None;
     res_entry_price := None; res_price := None;
     error := Some msg; res_retcode := rc |}.

Definition is_buy_or_sell (side : string) : bool :=
  (String.eqb (lower side) "buy" || String.eqb (lower side) "sell")%bool.

(** [result.comment or f"Error code {result.retcode}"] *)
Definition comment_or_code (r : SendResult) : string :=
  if String.eqb (res_comment r) EmptyString then "Error code " +:+ pretty (retcode r)
  else res_comment r.

Definition filling_type_of (filling_mode : Z) : Filling :=
  if negb (Z.eqb (Z.land filling_mode 1) 0) then ORDER_FILLING_FOK
  else if negb (Z.eqb (Z.land filling_mode 2) 0) then ORDER_FILLING_IOC
  else ORDER_FILLING_RETURN.

Definition execute_market_order (m : MT5) (is_connected : bool)
    (sym : string) (side : string) (volume : Q)
    (sl tp : option Q) (comment : string) : OrderResult :=
  if negb is_connected then order_failure "Not connected to MT5" None
  else if negb (is_buy_or_sell side) then
    order_failure "Invalid side (must be 'buy' or 'sell')" None
  else
    let order_type :=
      if String.eqb (lower side) "buy" then ORDER_TYPE_BUY else ORDER_TYPE_SELL in
    match symbol_info m sym with
    | None => order_failure ("Symbol " +:+ sym +:+ " not found") None
    | Some info =>
      let current_price :=
        if String.eqb (lower side) "buy" then si_ask info else si_bid info in
      let request :=
        {| req_action := TRADE_ACTION_DEAL; req_symbol := sym;
           req_volume := volume; req_type := order_type; req_price := None;
           req_comment := comment;
           req_type_filling := filling_type_of (si_filling_mode info);
           req_sl := float_if sl; req_tp := float_if tp |} in
      match order_send m request with
      | SendRaises msg => order_failure msg None
      | SendNone last =>
        order_failure ("Order send failed (result is None). Last error: " +:+ last) None
      | SendReturns r =>
        if negb (Z.eqb (retcode r) (TRADE_RETCODE_DONE m)) then
          order_failure (comment_or_code r) (Some (retcode r))
        else
          {| success := true; ticket := Some (res_order r);
             res_order_id := Some (pretty (res_order r));
             res_entry_price := Some current_price; res_price := None;
             error := None; res_retcode := None |}
      end
    end.

Definition execute_limit_order (m : MT5) (is_connected : bool)
    (sym : string) (side : string) (price : Q) (volume : Q)
    (sl tp : option Q) (comment : string) : OrderResult :=
  if negb is_connected then order_failure "Not connected to MT5" None
  else if negb (is_buy_or_sell side) then order_failure "Invalid side" None
  else
    let order_type :=
      if String.eqb (lower side) "buy" then ORDER_TYPE_BUY_LIMIT
      else ORDER_TYPE_SELL_LIMIT in
    let request :=
      {| req_action := TRADE_ACTION_PENDING; req_symbol := sym;
         req_volume := volume; req_type := order_type; req_price := Some price;
         req_comment := comment; req_type_filling := ORDER_FILLING_RETURN;
         req_sl := float_if sl; req_tp := float_if tp |} in
    match order_send m request with
    | SendRaises msg => order_failure msg None
    | SendNone last =>
      order_failure ("Limit order failed (result is None). Last error: " +:+ last) None
    | SendReturns r =>
      if negb (Z.eqb (retcode r) (TRADE_RETCODE_DONE m)) then
        order_failure (comment_or_code r) (Some (retcode r))
      else
        {| success := true; ticket := Some (res_order r);
           res_order_id := Some (pretty (res_order r));
           res_entry_price := None; res_price := Some price;
           error := None; res_retcode := None |}
    end.

Record PriceInfo : Type := {
  pi_bid : Q; pi_ask : Q; pi_point : Q; pi_digits : Z;
}.

Definition get_current_price (m : MT5) (is_connected : bool) (sym : string)
    : option PriceInfo :=
  if negb is_connected then None
  else match symbol_info m sym with
       | None => None
       | Some info =>
         match symbol_info_tick m sym with
         | None => None
         | Some t => Some {| pi_bid := tick_bid t; pi_ask := tick_ask t;
                             pi_point := si_point info; pi_digits := si_digits info |}
         end
       end.

Definition get_positions (m : MT5) (is_connected : bool) : list Position :=
  if negb is_connected then [] else positions_get m.

Definition is_out (d : Deal) : bool :=
  match deal_entry d with DEAL_ENTRY_OUT => true | _ => false end.

(** The closing deal is the last one whose entry is [DEAL_ENTRY_OUT]; when
    there is none the last deal of the position is returned. *)
Definition get_history_deals (m : MT5) (is_connected : bool) (tk : Z) : option Deal :=
  if negb is_connected then None
  else match history_deals_get m tk with
       | None => None
       | Some deals =>
         match List.find is_out (rev deals) with
         | Some d => Some d
         | None => last deals
         end
       end.

(** ** Events and the engine monad *)

(** The JSON messages handed to [manager.broadcast]. *)
Inductive Message : Type :=
  | SignalApprovalRequired (signal_id execution_id : N)
      (sym side : string) (entry sl tp : option Q)
  | ExecutionExecuting (execution_id : N) (sym : string)
  | ExecutionFallingBack (execution_id : N) (entry : option Q)
  | ExecutionExecuted (execution_id : N) (tk : option Z)
  | ErrorMessage (execution_id : N) (message : string)
  | SignalUpdate (signal_id : N) (new_status : string)
  | PositionUpdate (execution_id : N) (pl price_current : Q)
  | PositionClosed (execution_id : N) (pl price : Q).

(** The ["type"] and ["status"] entries of a message. *)
Definition message_type (m : Message) : string :=
  match m with
  | SignalApprovalRequired _ _ _ _ _ _ _ => "signal_approval_required"
  | ExecutionExecuting _ _ | ExecutionFallingBack _ _ | ExecutionExecuted _ _ =>
      "execution_update"
  | ErrorMessage _ _ => "error"
  | SignalUpdate _ _ => "signal_update"
  | PositionUpdate _ _ _ => "position_update"
  | PositionClosed _ _ _ => "position_closed"
  end.

Definition message_status (m : Message) : option string :=
  match m with
  | ExecutionExecuting _ _ => Some "executing"
  | ExecutionFallingBack _ _ => Some "falling_back"
  | ExecutionExecuted _ _ => Some "executed"
  | SignalUpdate _ st => Some st
  | _ => None
  end.

(** Everything a run does to the outside, in order. *)
Inductive Action : Type :=
  | Broadcast (user_id : N) (m : Message)
  | Connect (lg : Z) (srv : string)
  | Quote (sym : string)
  | MarketOrder (sym side : string) (volume : Q) (sl tp : option Q)
  | LimitOrder (sym side : string) (price volume : Q) (sl tp : option Q)
  | GetPositions
  | GetHistoryDeals (tk : Z)
  | LogInfo (msg : string)
  | LogWarning (template : string) (args : list Q)
  | LogError (msg : string).

Definition is_broker_op (a : Action) : bool :=
  match a with
  | Connect _ _ | Quote _ | MarketOrder _ _ _ _ _ | LimitOrder _ _ _ _ _ _
  | GetPositions | GetHistoryDeals _ => true
  | _ => false
  end.

Definition is_order (a : Action) : bool :=
  match a with
  | MarketOrder _ _ _ _ _ | LimitOrder _ _ _ _ _ _ => true
  | _ => false
  end.

Record World : Type := {
  db : DB;
  is_connected : bool;
  trace : list Action;
}.

(** A computation either returns or raises; the exception carries [str(e)]. *)
Definition Eng (A : Type) : Type := World -> World * (string + A).

Definition eng_ret {A} (a : A) : Eng A := fun w => (w, inr a).
Definition eng_bind {A B} (c : Eng A) (k : A -> Eng B) : Eng B :=
  fun w => match c w with
           | (w', inr a) => k a w'
           | (w', inl e) => (w', inl e)
           end.
Definition raise {A} (e : string) : Eng A := fun w => (w, inl e).
Definition try_except {A} (c : Eng A) (h : string -> Eng A) : Eng A :=
  fun w => match c w with
           | (w', inr a) => (w', inr a)
           | (w', inl e) => h e w'
           end.

#[global] Instance eng_mret : MRet Eng := @eng_ret.
#[global] Instance eng_mbind : MBind Eng := fun A B k c => eng_bind c k.

Definition get_world : Eng World := fun w => (w, inr w).
Definition emit (a : Action) : Eng unit :=
  fun w => ({| db := db w; is_connected := is_connected w;
               trace := trace w ++ [a] |}, inr tt).
Definition set_connected (b : bool) : Eng unit :=
  fun w => ({| db := db w; is_connected := b; trace := trace w |}, inr tt).
Definition set_db (d : DB) : Eng unit :=
  fun w => ({| db := d; is_connected := is_connected w; trace := trace w |}, inr tt).

Definition with_executions (d : DB) (l : list TradeExecution) : DB :=
  {| executions := l; signals := signals d;
     broker_configs := broker_configs d; user_preferences := user_preferences d |}.

Definition with_signals (d : DB) (s : gmap N Signal) : DB :=
  {| executions := executions d; signals := s;
     broker_configs := broker_configs d; user_preferences := user_preferences d |}.

(** An ORM object is a reference to its row. *)
Definition read_execution (eid : nat) : Eng TradeExecution :=
  fun w => match executions (db w) !! eid with
           | Some ex => (w, inr ex)
           | None => (w, inl "execution row not found")
           end.

Definition update_execution (eid : nat) (f : TradeExecution -> TradeExecution)
    : Eng unit :=
  w ← get_world;
  set_db (with_executions (db w) (alter f eid (executions (db w)))).

Definition broadcast (user_id : N) (m : Message) : Eng unit :=
  emit (Broadcast user_id m).

(** Attribute assignments on a [TradeExecution] object. *)
Definition set_status (s : ExecutionState) (e : TradeExecution) : TradeExecution :=
  {| ex_user_id := ex_user_id e; ex_signal_id := ex_signal_id e;
     ex_broker_config_id := ex_broker_config_id e; ex_symbol := ex_symbol e;
     ex_side := ex_side e; ex_volume := ex_volume e;
     ex_entry_price := ex_entry_price e; ex_stop_loss := ex_stop_loss e;
     ex_take_profit := ex_take_profit e; execution_status := s;
     ticket_number := ticket_number e; order_id := order_id e;
     actual_entry_price := actual_entry_price e;
     actual_entry_time := actual_entry_time e; executed_at := executed_at e;
     close_price := close_price e; close_time := close_time e;
     profit_loss := profit_loss e; execution_error := execution_error e |}.

Definition set_error (msg : string) (e : TradeExecution) : TradeExecution :=
  {| ex_user_id := ex_user_id e; ex_signal_id := ex_signal_id e;
     ex_broker_config_id := ex_broker_config_id e; ex_symbol := ex_symbol e;
     ex_side := ex_side e; ex_volume := ex_volume e;
     ex_entry_price := ex_entry_price e; ex_stop_loss := ex_stop_loss e;
     ex_take_profit := ex_take_profit e; execution_status := execution_status e;
     ticket_number := ticket_number e; order_id := order_id e;
     actual_entry_price := actual_entry_price e;
     actual_entry_time := actual_entry_time e; executed_at := executed_at e;
     close_price := close_price e; close_time := close_time e;
     profit_loss := profit_loss e; execution_error := Some msg |}.

Definition set_planned (entry sl tp : option Q) (e : TradeExecution) : TradeExecution :=
  {| ex_user_id := ex_user_id e; ex_signal_id := ex_signal_id e;
     ex_broker_config_id := ex_broker_config_id e; ex_symbol := ex_symbol e;
     ex_side := ex_side e; ex_volume := ex_volume e;
     ex_entry_price := entry; ex_stop_loss := sl;
     ex_take_profit := tp; execution_status := execution_status e;
     ticket_number := ticket_number e; order_id := order_id e;
     actual_entry_price := actual_entry_price e;
     actual_entry_time := actual_entry_time e; executed_at := executed_at e;
     close_price := close_price e; close_time := close_time e;
     profit_loss := profit_loss e; execution_error := execution_error e |}.

(** The bookkeeping after a successful order ([_process_single_execution],
    "Update execution record"). *)
Definition record_order (r : OrderResult) (now : Z) (e : TradeExecution)
    : TradeExecution :=
  {| ex_user_id := ex_user_id e; ex_signal_id := ex_signal_id e;
     ex_broker_config_id := ex_broker_config_id e; ex_symbol := ex_symbol e;
     ex_side := ex_side e; ex_volume := ex_volume e;
     ex_entry_price := ex_entry_price e; ex_stop_loss := ex_stop_loss e;
     ex_take_profit := ex_take_profit e; execution_status := EXECUTED;
     ticket_number := ticket r;
     order_id := Some (default "None" (res_order_id r));
     actual_entry_price := res_entry_price r;
     actual_entry_time := Some now; executed_at := Some now;
     close_price := close_price e; close_time := close_time e;
     profit_loss := profit_loss e; execution_error := execution_error e |}.

Definition set_profit_loss (pl : Q) (e : TradeExecution) : TradeExecution :=
  {| ex_user_id := ex_user_id e; ex_signal_id := ex_signal_id e;
     ex_broker_config_id := ex_broker_config_id e; ex_symbol := ex_symbol e;
     ex_side := ex_side e; ex_volume := ex_volume e;
     ex_entry_price := ex_entry_price e; ex_stop_loss := ex_stop_loss e;
     ex_take_profit := ex_take_profit e; execution_status := execution_status e;
     ticket_number := ticket_number e; order_id := order_id e;
     actual_entry_price := actual_entry_price e;
     actual_entry_time := actual_entry_time e; executed_at := executed_at e;
     close_price := close_price e; close_time := close_time e;
     profit_loss := Some pl; execution_error := execution_error e |}.

(** The closure bookkeeping of the synchronizer. *)
Definition record_closure (d : Deal) (e : TradeExecution) : TradeExecution :=
  {| ex_user_id := ex_user_id e; ex_signal_id := ex_signal_id e;
     ex_broker_config_id := ex_broker_config_id e; ex_symbol := ex_symbol e;
     ex_side := ex_side e; ex_volume := ex_volume e;
     ex_entry_price := ex_entry_price e; ex_stop_loss := ex_stop_loss e;
     ex_take_profit := ex_take_profit e; execution_status := CLOSED;
     ticket_number := ticket_number e; order_id := order_id e;
     actual_entry_price := actual_entry_price e;
     actual_entry_time := actual_entry_time e; executed_at := executed_at e;
     close_price := Some (deal_price d); close_time := Some (deal_time d);
     profit_loss := Some (deal_profit d); execution_error := execution_error e |}.

(** ** [SignalExecutor._validate_signal] *)

(** [a < b < c] on the values of three keys known to be present. *)
Definition chain_lt (a b c : option Q) : bool :=
  match a, b, c with
  | Some x, Some y, Some z => (Qlt_bool x y && Qlt_bool y z)%bool
  | _, _, _ => false
  end.

Definition orientation_ok (p : ParsedSignal) : bool :=
  let entry := entry_price p in
  let sl := stop_loss p in
  let tp := take_profit p in
  if (truthy_num entry && truthy_num sl && truthy_num tp)%bool then
    if bool_decide (signal_type p = Some "buy") then chain_lt sl entry tp
    else if bool_decide (signal_type p = Some "sell") then chain_lt tp entry sl
    else true
  else true.

(** [not (parsed_signal.get("confidence_score", 0) < 0.5)], for a key that
    is absent or holds a number. *)
Definition confidence_ok (p : ParsedSignal) : bool :=
  negb (Qlt_bool (default 0%Q (confidence_score p)) 0.5%Q).

Definition orientation_warning (p : ParsedSignal) : Action :=
  let args := [default 0%Q (stop_loss p); default 0%Q (entry_price p);
               default 0%Q (take_profit p)] in
  if bool_decide (signal_type p = Some "buy") then
    LogWarning
      "Buy signal: invalid price levels (SL:{0} should be below entry:{1}, TP:{2} above)"
      args
  else
    LogWarning
      "Sell signal: invalid price levels (TP:{2} should be below entry:{1}, SL:{0} above)"
      args.

(** The verdict together with the warning the function logs, for a call
    that returns; [validation_exception] tells when it does not. *)
Definition _validate_signal (p : ParsedSignal) : bool * list Action :=
  if negb (truthy_str (symbol p)) then
    (false, [LogWarning "Signal missing symbol" []])
  else if negb (truthy_str (signal_type p)) then
    (false, [LogWarning "Signal missing signal_type" []])
  else if negb (confidence_ok p) then
    (false, [LogWarning "Low confidence signal: {0}"
               [default 0%Q (confidence_score p)]])
  else if negb (orientation_ok p) then (false, [orientation_warning p])
  else (true, []).

(** [parsed_signal.get("confidence_score", 0) < 0.5] compares [None] with a
    float when the key holds [None]: Python raises TypeError.  The checks of
    symbol and side come first. *)
Definition none_lt_float : string :=
  "'<' not supported between instances of 'NoneType' and 'float'".

Definition validation_exception (p : ParsedSignal) : option string :=
  if (truthy_str (symbol p) && truthy_str (signal_type p))%bool then
    match confidence_score p with
    | Some _ => None
    | None => if confidence_is_none p then Some none_lt_float else None
    end
  else None.

(** ** [SignalExecutor._update_signal_status] *)

Definition resolved (e : TradeExecution) : bool :=
  match execution_status e with
  | CANCELLED | FAILED | EXECUTED | CLOSED => true
  | _ => false
  end.

Definition cancelled (e : TradeExecution) : bool :=
  state_eqb (execution_status e) CANCELLED.

Definition executions_of (sid : N) (d : DB) : list TradeExecution :=
  List.filter (fun e => N.eqb (ex_signal_id e) sid) (executions d).

Definition _update_signal_status (env : Env) (sid : N) : Eng unit :=
  w ← get_world;
  match signals (db w) !! sid with
  | None => mret tt
  | Some sg =>
    let all_executions := executions_of sid (db w) in
    match all_executions with
    | [] => mret tt
    | _ :: _ =>
      if forallb resolved all_executions then
        let new_status :=
          if forallb cancelled all_executions then "rejected" else "processed" in
        set_db (with_signals (db w)
                  (<[sid := {| sig_user_id := sig_user_id sg; status := new_status;
                               processed_at := Some (utcnow env) |}]> (signals (db w))));;
        broadcast (sig_user_id sg) (SignalUpdate sid new_status)
      else mret tt
    end
  end.

(** ** [SignalExecutor._process_single_execution] *)

Record ProcessResult : Type := {
  pr_success : bool;
  pr_error : option string;
  pr_execution_id : nat;
  pr_ticket : option Z;
  pr_entry_price : option Q;
}.

Definition process_failure (eid : nat) (msg : string) : ProcessResult :=
  {| pr_success := false; pr_error := Some msg; pr_execution_id := eid;
     pr_ticket := None; pr_entry_price := None |}.

Definition emit_all (l : list Action) : Eng unit :=
  fun w => ({| db := db w; is_connected := is_connected w;
               trace := trace w ++ l |}, inr tt).

(** [MT5Executor.connect]: a successful login marks the executor connected;
    a failed one leaves the flag as it was. *)
Definition connect (env : Env) (lg : Z) (password srv : string) : Eng bool :=
  emit (Connect lg srv);;
  if mt5_login_ok (mt5 env) lg password srv then set_connected true;; mret true
  else mret false.

Definition current_price (side : string) (info : PriceInfo) : Q :=
  if String.eqb side "buy" then pi_ask info else pi_bid info.

(** "Entry Range & Limit Order Logic": the pair [(use_limit, execution_price)].
    The difference and the products of the slippage test are float
    operations. *)
Definition entry_policy (ex : TradeExecution) (p : ParsedSignal)
    (prefs : option UserPreferences) (price_info : option PriceInfo) : bool * Q :=
  let execution_price := num_or (ex_entry_price ex) 0%Q in
  match price_info with
  | None => (false, execution_price)
  | Some info =>
    let cur := current_price (ex_side ex) info in
    match entry_range p with
    | [low; high] =>
      if String.eqb (ex_side ex) "buy" then
        if Qle_bool cur high then (false, execution_price) else (true, high)
      else
        if Qle_bool low cur then (false, execution_price) else (true, low)
    | _ =>
      match prefs with
      | Some up =>
        if (use_limit_orders up && truthy_num (ex_entry_price ex))%bool then
          let target_price := num_or (ex_entry_price ex) 0%Q in
          let price_diff := Qabs (fsub cur target_price) in
          let pips_to_price :=
            if (Z.eqb (pi_digits info) 3 || Z.eqb (pi_digits info) 5)%bool
            then fmul (fmul (max_slippage up) 10) (pi_point info)
            else fmul (max_slippage up) (pi_point info) in
          if Qlt_bool pips_to_price price_diff then (true, target_price)
          else (false, execution_price)
        else (false, execution_price)
      | None => (false, execution_price)
      end
    end
  end.

Definition signal_comment (ex : TradeExecution) : string :=
  "Signal " +:+ pretty (ex_signal_id ex).

(** The two order calls of the engine; each is recorded in the trace. *)
Definition call_limit_order (env : Env) (ex : TradeExecution) (price : Q)
    (comment : string) : Eng OrderResult :=
  emit (LimitOrder (ex_symbol ex) (ex_side ex) price (ex_volume ex)
          (float_if (ex_stop_loss ex)) (float_if (ex_take_profit ex)));;
  w ← get_world;
  mret (execute_limit_order (mt5 env) (is_connected w) (ex_symbol ex) (ex_side ex)
          price (ex_volume ex) (float_if (ex_stop_loss ex))
          (float_if (ex_take_profit ex)) comment).

Definition call_market_order (env : Env) (ex : TradeExecution)
    (comment : string) : Eng OrderResult :=
  emit (MarketOrder (ex_symbol ex) (ex_side ex) (ex_volume ex)
          (float_if (ex_stop_loss ex)) (float_if (ex_take_profit ex)));;
  w ← get_world;
  mret (execute_market_order (mt5 env) (is_connected w) (ex_symbol ex) (ex_side ex)
          (ex_volume ex) (float_if (ex_stop_loss ex))
          (float_if (ex_take_profit ex)) comment).

Definition call_get_current_price (env : Env) (sym : string)
    : Eng (option PriceInfo) :=
  emit (Quote sym);;
  w ← get_world;
  mret (get_current_price (mt5 env) (is_connected w) sym).

(** "Execute order", with the market-to-limit fallback. *)
Definition place_order (env : Env) (eid : nat) (ex : TradeExecution)
    (use_limit : bool) (execution_price : Q) : Eng OrderResult :=
  if use_limit then
    call_limit_order env ex execution_price (signal_comment ex)
  else
    order_result ← call_market_order env ex (signal_comment ex);
    if (negb (success order_result) && truthy_num (ex_entry_price ex))%bool then
      emit (LogWarning "Market order failed. Falling back to LIMIT order at {0}"
              [num_or (ex_entry_price ex) 0%Q]);;
      broadcast (ex_user_id ex)
        (ExecutionFallingBack (N.of_nat eid) (ex_entry_price ex));;
      call_limit_order env ex (num_or (ex_entry_price ex) 0%Q)
        (signal_comment ex +:+ " (Fallback)")
    else mret order_result.

(** [if not cond: raise ...] *)
Definition require (cond : bool) (msg : string) : Eng unit :=
  if cond then mret tt else raise msg.

Definition query_broker_config (bid : N) : Eng BrokerConfig :=
  w ← get_world;
  match broker_configs (db w) !! bid with
  | Some bc => mret bc
  | None => raise "'NoneType' object has no attribute 'login'"
  end.

(** A call of [_validate_signal]: it raises, or logs its warning and
    returns its verdict. *)
Definition call_validate_signal (p : ParsedSignal) : Eng bool :=
  match validation_exception p with
  | Some e => raise e
  | None => emit_all (snd (_validate_signal p));; mret (fst (_validate_signal p))
  end.

(** The body of the [try] block. *)
Definition process_body (env : Env) (eid : nat) (p : ParsedSignal)
    (prefs : option UserPreferences) : Eng ProcessResult :=
  ex ← read_execution eid;
  valid ← call_validate_signal p;
  if negb valid then
    update_execution eid (fun e => set_error "Signal validation failed"
                                     (set_status FAILED e));;
    mret (process_failure eid "Signal validation failed")
  else
    update_execution eid (set_status VALIDATED);;
    require (truthy_str (mt5_password env (ex_user_id ex) (ex_broker_config_id ex)))
      "MT5 password not configured";;
    broker_config ← query_broker_config (ex_broker_config_id ex);
    connection_result ←
      connect env (login broker_config)
        (default EmptyString (mt5_password env (ex_user_id ex) (ex_broker_config_id ex)))
        (server broker_config);
    require connection_result "Failed to connect to MT5";;
    price_info ← call_get_current_price env (ex_symbol ex);
    let '(use_limit, execution_price) := entry_policy ex p prefs price_info in
    update_execution eid (set_status EXECUTING);;
    broadcast (ex_user_id ex) (ExecutionExecuting (N.of_nat eid) (ex_symbol ex));;
    order_result ← place_order env eid ex use_limit execution_price;
    require (success order_result)
      (default "Order execution failed" (error order_result));;
    update_execution eid (record_order order_result (utcnow env));;
    broadcast (ex_user_id ex) (ExecutionExecuted (N.of_nat eid) (ticket order_result));;
    _update_signal_status env (ex_signal_id ex);;
    mret {| pr_success := true; pr_error := None; pr_execution_id := eid;
            pr_ticket := ticket order_result;
            pr_entry_price := float_if (res_entry_price order_result) |}.

(** The [except Exception] handler. *)
Definition process_handler (env : Env) (eid : nat) (e : string) : Eng ProcessResult :=
  emit (LogError ("Error executing position: " +:+ e));;
  ex ← read_execution eid;
  update_execution eid (fun x => set_error e (set_status FAILED x));;
  _update_signal_status env (ex_signal_id ex);;
  broadcast (ex_user_id ex) (ErrorMessage (N.of_nat eid) e);;
  mret (process_failure eid e).

Definition _process_single_execution (env : Env) (eid : nat) (p : ParsedSignal)
    (prefs : option UserPreferences) : Eng ProcessResult :=
  try_except (process_body env eid p prefs) (process_handler env eid).

(** ** [SignalExecutor.execute_signal] *)

(** [round(x, 2)] on the float whose exact value is [x]: Python converts the
    float to the nearest number with two decimals, deciding ties to even on
    the exact value, and returns the float nearest to that number. *)
Definition py_round2 (x : Q) : Q := Qmake (round_half_even (x * 100)%Q) 100.

(** "Determine Take Profits list" *)
Definition tp_list (p : ParsedSignal) : list (option Q) :=
  match take_profits p with
  | _ :: _ => map Some (take_profits p)
  | [] => if truthy_num (take_profit p) then [take_profit p] else [None]
  end.

(** [float(user_prefs.risk_per_trade) if user_prefs and user_prefs.risk_per_trade
    else 1.0] *)
Definition total_volume (prefs : option UserPreferences) : Q :=
  match prefs with
  | Some up => fl (num_or (risk_per_trade up) 1%Q)
  | None => 1%Q
  end.

(** [round(total_volume / len(tps), 2)], raised to 0.01 when it is less. *)
Definition pos_volume (prefs : option UserPreferences) (tps : list (option Q)) : Q :=
  let v := py_round2 (fdiv (total_volume prefs) (inject_Z (Z.of_nat (length tps)))) in
  if Qlt_bool v 0.01%Q then 0.01%Q else v.

(** [TradeExecution(...)] as both branches of [execute_signal] build it. *)
Definition new_execution (uid sid bid : N) (sym side : string) (p : ParsedSignal)
    (volume : Q) (tp : option Q) (st : ExecutionState) : TradeExecution :=
  {| ex_user_id := uid; ex_signal_id := sid; ex_broker_config_id := bid;
     ex_symbol := sym; ex_side := side; ex_volume := volume;
     ex_entry_price := entry_price p; ex_stop_loss := stop_loss p;
     ex_take_profit := tp; execution_status := st;
     ticket_number := None; order_id := None;
     actual_entry_price := None; actual_entry_time := None;
     executed_at := None; close_price := None; close_time := None;
     profit_loss := None; execution_error := None |}.

(** [db_session.add] followed by [flush] or [commit].  The columns [symbol]
    and [side] are declared [nullable=False]; a missing value makes the flush
    raise and no row is written. *)
Definition add_execution (uid sid bid : N) (p : ParsedSignal) (volume : Q)
    (tp : option Q) (st : ExecutionState) : Eng nat :=
  match symbol p, signal_type p with
  | Some sym, Some side =>
    w ← get_world;
    set_db (with_executions (db w)
              (executions (db w) ++ [new_execution uid sid bid sym side p volume tp st]));;
    mret (length (executions (db w)))
  | _, _ => raise "IntegrityError: null value violates not-null constraint"
  end.

Inductive ExecuteResult : Type :=
  | ExecFailure (err : string)
  | ExecPendingApproval (execution_ids : list nat)
  | ExecResumed (r : ProcessResult)
  | ExecResults (results : list ProcessResult).

(** The loop of the manual-approval branch. *)
Fixpoint approval_loop (uid sid bid : N) (p : ParsedSignal) (volume : Q)
    (tps : list (option Q)) : Eng (list nat) :=
  match tps with
  | [] => mret []
  | tp :: rest =>
    eid ← add_execution uid sid bid p volume tp PENDING_APPROVAL;
    broadcast uid
      (SignalApprovalRequired sid (N.of_nat eid)
         (default EmptyString (symbol p)) (default EmptyString (signal_type p))
         (float_if (entry_price p)) (float_if (stop_loss p)) (float_if tp));;
    ids ← approval_loop uid sid bid p volume rest;
    mret (eid :: ids)
  end.

(** The loop of the auto-execute branch. *)
Fixpoint auto_loop (env : Env) (uid sid bid : N) (p : ParsedSignal)
    (prefs : option UserPreferences) (volume : Q) (tps : list (option Q))
    : Eng (list ProcessResult) :=
  match tps with
  | [] => mret []
  | tp :: rest =>
    eid ← add_execution uid sid bid p volume tp PENDING;
    res ← _process_single_execution env eid p prefs;
    results ← auto_loop env uid sid bid p prefs volume rest;
    mret (res :: results)
  end.

Definition execute_signal_body (env : Env) (sid bid uid : N) (p : ParsedSignal)
    (execution_id : option nat) : Eng ExecuteResult :=
  w ← get_world;
  let user_prefs := user_preferences (db w) !! uid in
  match signals (db w) !! sid, broker_configs (db w) !! bid with
  | Some _, Some _ =>
    let tps := tp_list p in
    let volume := pos_volume user_prefs tps in
    match execution_id, user_prefs with
    | None, Some up =>
      if manual_approval up then
        valid ← call_validate_signal p;
        if negb valid then mret (ExecFailure "Validation failed")
        else
          ids ← approval_loop uid sid bid p volume tps;
          mret (ExecPendingApproval ids)
      else
        results ← auto_loop env uid sid bid p user_prefs volume tps;
        mret (ExecResults results)
    | None, None =>
      results ← auto_loop env uid sid bid p user_prefs volume tps;
      mret (ExecResults results)
    | Some eid, _ =>
      match executions (db w) !! eid with
      | None => raise ("Execution " +:+ pretty eid +:+ " not found")
      | Some _ =>
        update_execution eid (set_planned (entry_price p) (stop_loss p) (take_profit p));;
        r ← _process_single_execution env eid p user_prefs;
        mret (ExecResumed r)
      end
    end
  | _, _ => mret (ExecFailure "Signal or broker config not found")
  end.

Definition execute_signal (env : Env) (sid bid uid : N) (p : ParsedSignal)
    (execution_id : option nat) : Eng ExecuteResult :=
  try_except (execute_signal_body env sid bid uid p execution_id)
    (fun e => emit (LogError ("Critical error in signal execution: " +:+ e));;
              mret (ExecFailure e)).

(** ** [SignalExecutor.reject_execution] *)

Definition reject_execution (env : Env) (eid : nat) : Eng (bool * option string) :=
  w ← get_world;
  match executions (db w) !! eid with
  | None => mret (false, Some "Execution not found")
  | Some ex =>
    if negb (state_eqb (execution_status ex) PENDING_APPROVAL) then
      mret (false, Some "Only pending approvals can be rejected")
    else
      update_execution eid (set_status CANCELLED);;
      _update_signal_status env (ex_signal_id ex);;
      mret (true, None)
  end.

(** ** [confirm_execution] ([api/routes.py]) *)

Record TradeModifyRequest : Type := {
  rq_stop_loss : option Q;
  rq_take_profit : option Q;
}.

Definition apply_overrides (rq : TradeModifyRequest) (e : TradeExecution)
    : TradeExecution :=
  set_planned (ex_entry_price e)
    (match rq_stop_loss rq with Some v => Some v | None => ex_stop_loss e end)
    (match rq_take_profit rq with Some v => Some v | None => ex_take_profit e end)
    e.

(** "Build signal-like dict for overrides" *)
Definition signal_data (e : TradeExecution) : ParsedSignal :=
  {| symbol := Some (ex_symbol e); signal_type := Some (ex_side e);
     entry_price := ex_entry_price e; entry_range := [];
     stop_loss := ex_stop_loss e; take_profit := ex_take_profit e;
     take_profits := []; confidence_score := Some 1.0%Q;
     confidence_is_none := false |}.

Inductive HttpResult (A : Type) : Type :=
  | HttpOk (a : A)
  | HttpError (code : Z) (detail : string).
Arguments HttpOk {A} a.
Arguments HttpError {A} code detail.

(** [if not result.get("success"): raise HTTPException(400, ...)] *)
Definition confirm_response (result : ExecuteResult)
    : Eng (HttpResult ExecuteResult) :=
  match result with
  | ExecFailure err => mret (HttpError 400 ("400: " +:+ err))
  | ExecResumed r =>
    if pr_success r then mret (HttpOk result)
    else mret (HttpError 400 ("400: " +:+ default "None" (pr_error r)))
  | _ => mret (HttpOk result)
  end.

Definition confirm_execution (env : Env) (eid : nat) (rq : TradeModifyRequest)
    (uid : N) : Eng (HttpResult ExecuteResult) :=
  w ← get_world;
  match executions (db w) !! eid with
  | None => mret (HttpError 400 "404: Execution not found")
  | Some ex =>
    if negb (N.eqb (ex_user_id ex) uid) then
      mret (HttpError 400 "404: Execution not found")
    else if negb (state_eqb (execution_status ex) PENDING_APPROVAL
                  || state_eqb (execution_status ex) FAILED)%bool then
      mret (HttpError 400 ("400: Execution is in " +:+ state_value (execution_status ex)
                             +:+ " state, not pending_approval or failed"))
    else
      update_execution eid (apply_overrides rq);;
      result ← execute_signal env (ex_signal_id ex) (ex_broker_config_id ex) uid
                 (signal_data (apply_overrides rq ex)) (Some eid);
      confirm_response result
  end.

(** ** [PositionSyncManager] ([core/sync_manager.py]) *)

Definition is_executed (e : TradeExecution) : bool :=
  state_eqb (execution_status e) EXECUTED.

(** The query of [sync_all_active_positions]: the rows whose status is
    [EXECUTED], as references (row indices) paired with the loaded row. *)
Definition active_executions (d : DB) : list (nat * TradeExecution) :=
  List.filter (fun ir => is_executed (snd ir)) (imap (fun i e => (i, e)) (executions d)).

(** [by_broker]: a dictionary in insertion order. *)
Fixpoint group_insert (bid : N) (item : nat)
    (groups : list (N * list nat)) : list (N * list nat) :=
  match groups with
  | [] => [(bid, [item])]
  | (b, items) :: rest =>
    if N.eqb b bid then (b, items ++ [item]) :: rest
    else (b, items) :: group_insert bid item rest
  end.

Definition by_broker (active : list (nat * TradeExecution)) : list (N * list nat) :=
  fold_left (fun g ir => group_insert (ex_broker_config_id (snd ir)) (fst ir) g)
    active [].

(** [{p["ticket"]: p for p in mt5_positions}]: a later position with the same
    ticket replaces an earlier one. *)
Definition tickets_of (positions : list Position) : gmap Z Position :=
  fold_left (fun m p => <[pos_ticket p := p]> m) positions ∅.

(** The body of the loop over the executions of one broker account. *)
Definition sync_execution (env : Env) (uid : N) (mt5_tickets : gmap Z Position)
    (eid : nat) : Eng unit :=
  ex ← read_execution eid;
  if negb (truthy_int (ticket_number ex)) then mret tt
  else
    let tk := default 0 (ticket_number ex) in
    match mt5_tickets !! tk with
    | Some p =>
      update_execution eid (set_profit_loss (pos_profit p));;
      broadcast uid (PositionUpdate (N.of_nat eid) (pos_profit p) (pos_price_current p))
    | None =>
      emit (LogInfo ("Position " +:+ pretty tk +:+ " not found in MT5, checking history..."));;
      emit (GetHistoryDeals tk);;
      w ← get_world;
      match get_history_deals (mt5 env) (is_connected w) tk with
      | Some deal =>
        update_execution eid (record_closure deal);;
        broadcast uid (PositionClosed (N.of_nat eid) (deal_profit deal) (deal_price deal))
      | None => mret tt
      end
    end.

Fixpoint sync_each (env : Env) (uid : N) (mt5_tickets : gmap Z Position)
    (items : list nat) : Eng unit :=
  match items with
  | [] => mret tt
  | eid :: rest =>
    sync_execution env uid mt5_tickets eid;; sync_each env uid mt5_tickets rest
  end.

Definition sync_broker_body (env : Env) (bid : N) (items : list nat) : Eng unit :=
  match items with
  | [] => raise "list index out of range"
  | first :: _ =>
    ex0 ← read_execution first;
    let uid := ex_user_id ex0 in
    w ← get_world;
    match broker_configs (db w) !! bid with
    | None => mret tt
    | Some broker_config =>
      if negb (truthy_str (mt5_password env uid bid)) then mret tt
      else
        connected ← connect env (login broker_config)
                      (default EmptyString (mt5_password env uid bid)) (server broker_config);
        if negb connected then mret tt
        else
          emit GetPositions;;
          w' ← get_world;
          let mt5_positions := get_positions (mt5 env) (is_connected w') in
          sync_each env uid (tickets_of mt5_positions) items
    end
  end.

Definition _sync_broker_positions (env : Env) (bid : N) (items : list nat) : Eng unit :=
  try_except (sync_broker_body env bid items)
    (fun e => emit (LogError ("Error syncing broker: " +:+ e))).

Fixpoint sync_groups (env : Env) (groups : list (N * list nat)) : Eng unit :=
  match groups with
  | [] => mret tt
  | (bid, items) :: rest =>
    _sync_broker_positions env bid items;; sync_groups env rest
  end.

Definition sync_all_active_positions (env : Env) : Eng unit :=
  w ← get_world;
  sync_groups env (by_broker (active_executions (db w))).

(** ** [ConnectionManager] ([api/websockets.py]) *)

Module ConnectionManager.

(** A WebSocket object is identified by a number; [send_text] either
    succeeds or raises with a message. *)
Definition WebSocket : Type := N.

Inductive HubEvent : Type :=
  | Sent (ws : WebSocket) (json_message : string)
  | HubLogError (msg : string).

Definition connect (ws : WebSocket) (uid : N)
    (active : gmap N (list WebSocket)) : gmap N (list WebSocket) :=
  <[uid := default [] (active !! uid) ++ [ws]]> active.

Fixpoint remove_first (ws : WebSocket) (l : list WebSocket) : list WebSocket :=
  match l with
  | [] => []
  | x :: r => if N.eqb x ws then r else x :: remove_first ws r
  end.

Definition disconnect (ws : WebSocket) (uid : N)
    (active : gmap N (list WebSocket)) : gmap N (list WebSocket) :=
  match active !! uid with
  | None => active
  | Some l =>
    match remove_first ws l with
    | [] => delete uid active
    | l' => <[uid := l']> active
    end
  end.

Definition send_to (send_text : WebSocket -> string -> option string)
    (prefix json_message : string) (ws : WebSocket) : list HubEvent :=
  match send_text ws json_message with
  | None => [Sent ws json_message]
  | Some e => [HubLogError (prefix +:+ e)]
  end.

(** [broadcast] returns the registry as it leaves it, and what it did. *)
Definition broadcast (send_text : WebSocket -> string -> option string)
    (active : gmap N (list WebSocket)) (json_message : string)
    (user_id : option N) : gmap N (list WebSocket) * list HubEvent :=
  match user_id with
  | Some uid =>
    match active !! uid with
    | Some conns =>
      (active,
       concat (map (send_to send_text "Error sending WS message: " json_message) conns))
    | None => (active, [])
    end
  | None =>
    (active,
     concat (map (fun kv => concat (map (send_to send_text
                                           "Error broadcasting WS message: "
                                           json_message) (snd kv)))
               (map_to_list active)))
  end.

End ConnectionManager.

(** ** Regular expressions as [re] runs them

    [SignalParser] works with Python's backtracking matcher: alternatives
    are tried left to right, repetitions are greedy, [re.search] returns the
    leftmost match.  Text is a string of bytes; the classes [\d], [\s], [\w]
    and the case mappings are those of the ASCII range, and the three
    non-ASCII characters of the patterns are matched as their UTF-8 bytes. *)

Inductive regex : Type :=
  | Void
  | Eps
  | Cls (p : ascii -> bool)
  | Cat (a b : regex)
  | Alt (a b : regex)
  | Star (a : regex)
  | Group (n : nat) (a : regex)
  | WordB.

Record MState : Type := {
  pos : nat;
  prev : option ascii;
  rest : list ascii;
  caps : list (nat * list ascii);
}.

Definition in_range (lo hi : nat) (c : ascii) : bool :=
  (Nat.leb lo (nat_of_ascii c) && Nat.leb (nat_of_ascii c) hi)%bool.

Definition is_digit (c : ascii) : bool := in_range 48 57 c.
Definition is_space (c : ascii) : bool :=
  (in_range 9 13 c || in_range 28 32 c)%bool.
Definition is_word (c : ascii) : bool :=
  (in_range 48 57 c || in_range 65 90 c || in_range 97 122 c
   || Nat.eqb (nat_of_ascii c) 95)%bool.
Definition is_upper_letter (c : ascii) : bool := in_range 65 90 c.
Definition not_newline (c : ascii) : bool := negb (Nat.eqb (nat_of_ascii c) 10).

Definition word_before (st : MState) : bool :=
  match prev st with Some c => is_word c | None => false end.
Definition word_after (st : MState) : bool :=
  match rest st with c :: _ => is_word c | [] => false end.

Definition advance (c : ascii) (cs : list ascii) (st : MState) : MState :=
  {| pos := S (pos st); prev := Some c; rest := cs; caps := caps st |}.

Definition set_capture (n : nat) (start : MState) (st : MState) : MState :=
  {| pos := pos st; prev := prev st; rest := rest st;
     caps := (n, take (pos st - pos start) (rest start)) :: caps st |}.

(** [rmatch r st k]: match [r] at [st] and continue with [k]; the first
    success in priority order is returned. *)
Fixpoint rmatch (r : regex) (st : MState) (k : MState -> option MState)
    : option MState :=
  match r with
  | Void => None
  | Eps => k st
  | Cls p =>
    match rest st with
    | c :: cs => if p c then k (advance c cs st) else None
    | [] => None
    end
  | Cat a b => rmatch a st (fun st' => rmatch b st' k)
  | Alt a b =>
    match rmatch a st k with
    | Some x => Some x
    | None => rmatch b st k
    end
  | Star a =>
    (fix loop (fuel : nat) (s : MState) {struct fuel} : option MState :=
       match fuel with
       | O => k s
       | S f =>
         match rmatch a s (fun s' => if Nat.ltb (pos s) (pos s') then loop f s'
                                     else None) with
         | Some x => Some x
         | None => k s
         end
       end) (length (rest st)) st
  | Group n a => rmatch a st (fun st' => k (set_capture n st st'))
  | WordB => if xorb (word_before st) (word_after st) then k st else None
  end.

(** [re.search]: the leftmost start at which the pattern matches. *)
Fixpoint search_from (r : regex) (p : nat) (pv : option ascii) (l : list ascii)
    : option (MState * MState) :=
  let st := {| pos := p; prev := pv; rest := l; caps := [] |} in
  match rmatch r st Some with
  | Some st' => Some (st, st')
  | None =>
    match l with
    | [] => None
    | c :: cs => search_from r (S p) (Some c) cs
    end
  end.

Definition re_search (r : regex) (text : string) : option (MState * MState) :=
  search_from r 0 None (list_ascii_of_string text).

Definition re_test (r : regex) (text : string) : bool :=
  match re_search r text with Some _ => true | None => false end.

(** [match.group(n)] *)
Definition group_of (n : nat) (m : MState * MState) : option string :=
  match List.find (fun c => Nat.eqb (fst c) n) (caps (snd m)) with
  | Some c => Some (string_of_list_ascii (snd c))
  | None => None
  end.

(** [match.group(0)] *)
Definition whole_match (m : MState * MState) : string :=
  string_of_list_ascii (take (pos (snd m) - pos (fst m)) (rest (fst m))).

(** [re.finditer]: successive non-overlapping matches, left to right. *)
Fixpoint finditer_from (r : regex) (fuel : nat) (p : nat) (pv : option ascii)
    (l : list ascii) : list (MState * MState) :=
  match fuel with
  | O => []
  | S f =>
    match search_from r p pv l with
    | None => []
    | Some (s, e) =>
      if Nat.ltb (pos s) (pos e) then
        (s, e) :: finditer_from r f (pos e) (prev e) (rest e)
      else
        match rest e with
        | [] => [(s, e)]
        | c :: cs => (s, e) :: finditer_from r f (S (pos e)) (Some c) cs
        end
    end
  end.

Definition re_finditer (r : regex) (text : string) : list (MState * MState) :=
  finditer_from r (S (String.length text)) 0 None (list_ascii_of_string text).

(** [re.findall] for a pattern without groups. *)
Definition re_findall (r : regex) (text : string) : list string :=
  map whole_match (re_finditer r text).

(** Pattern builders. *)
Fixpoint seq (rs : list regex) : regex :=
  match rs with
  | [] => Eps
  | r :: rest => Cat r (seq rest)
  end.

Fixpoint alt (rs : list regex) : regex :=
  match rs with
  | [] => Void
  | [r] => r
  | r :: rest => Alt r (alt rest)
  end.

Fixpoint lit_chars (l : list ascii) : regex :=
  match l with
  | [] => Eps
  | c :: cs => Cat (Cls (Ascii.eqb c)) (lit_chars cs)
  end.

Definition lit (s : string) : regex := lit_chars (list_ascii_of_string s).
Definition opt (r : regex) : regex := Alt r Eps.
Definition plus (r : regex) : regex := Cat r (Star r).

(** [r{0,n}], greedy. *)
Fixpoint upto (n : nat) (r : regex) : regex :=
  match n with
  | O => Eps
  | S k => Alt (Cat r (upto k r)) Eps
  end.

(** [r{1,n}] *)
Definition rep1 (n : nat) (r : regex) : regex := Cat r (upto (n - 1) r).

Definition one_of (s : string) : regex :=
  Cls (fun c => existsb (Ascii.eqb c) (list_ascii_of_string s)).

Definition digit : regex := Cls is_digit.
Definition spaces : regex := Star (Cls is_space).

(** ** [SignalParser] ([core/signal_parser.py])

    Each pattern is preceded by its source text; where the source has a star
    directly before a closing parenthesis, a blank is inserted between them
    in the quotation. *)

Inductive MessageCategory : Type := ACTIONABLE_SIGNAL | MODIFICATION | COMMENTARY.

Inductive ModificationType : Type :=
  | BREAKEVEN_MOVE | CANCELLATION | PARTIAL_CLOSE | STOP_ADJUSTMENT
  | TARGET_ADJUSTMENT | OTHER.

Definition category_value (c : MessageCategory) : string :=
  match c with
  | ACTIONABLE_SIGNAL => "actionable_signal"
  | MODIFICATION => "modification"
  | COMMENTARY => "commentary"
  end.

(** Python's [needle in haystack] on strings. *)
Fixpoint contains (needle hay : string) : bool :=
  if String.prefix needle hay then true
  else match hay with
       | EmptyString => false
       | String _ r => contains needle r
       end.

Definition commentary_patterns : list regex := [
  (* "tp\d+\s*(hit|✅|reached)" *)
  seq [lit "tp"; plus digit; spaces; alt [lit "hit"; lit "✅"; lit "reached"]];
  (* "\d+\+?\s*pips" *)
  seq [plus digit; opt (lit "+"); spaces; lit "pips"];
  (* "(nfp|cpi|fomc|news)\s*(in|alert)" *)
  seq [alt [lit "nfp"; lit "cpi"; lit "fomc"; lit "news"]; spaces;
       alt [lit "in"; lit "alert"]];
  lit "my analysis";
  (* "i (hope|wish|expect)" *)
  seq [lit "i "; alt [lit "hope"; lit "wish"; lit "expect"]];
  (* "(managing|manage)\s*risk" *)
  seq [alt [lit "managing"; lit "manage"]; spaces; lit "risk"];
  lit "patience is key";
  lit "you guys know";
  (* "(worst|best)\s*positions" *)
  seq [alt [lit "worst"; lit "best"]; spaces; lit "positions"];
  (* "signal\s*(get ready|coming)" *)
  seq [lit "signal"; spaces; alt [lit "get ready"; lit "coming"]];
  lit "this is not financial advice"
].

Definition modification_patterns : list (ModificationType * list regex) := [
  (BREAKEVEN_MOVE, [
     (* "\b(be|breakeven|break\s*even)\b" *)
     seq [WordB; alt [lit "be"; lit "breakeven"; seq [lit "break"; spaces; lit "even"]];
          WordB];
     (* "moving\s*(stops|sl|stop\s*loss).*\b(to\s* )?(be|breakeven)" *)
     seq [lit "moving"; spaces;
          alt [lit "stops"; lit "sl"; seq [lit "stop"; spaces; lit "loss"]];
          Star (Cls not_newline); WordB; opt (seq [lit "to"; spaces]);
          alt [lit "be"; lit "breakeven"]];
     (* "stops?\s*(from|to)\s*(top\s* )?be" *)
     seq [lit "stop"; opt (lit "s"); spaces; alt [lit "from"; lit "to"]; spaces;
          opt (seq [lit "top"; spaces]); lit "be"];
     (* "positions?\s*at\s*be" *)
     seq [lit "position"; opt (lit "s"); spaces; lit "at"; spaces; lit "be"]]);
  (CANCELLATION, [
     (* "cancel(l)?ing" *)
     seq [lit "cancel"; opt (lit "l"); lit "ing"];
     (* "cancel\s*(sell|buy)\s*(limit|stop)" *)
     seq [lit "cancel"; spaces; alt [lit "sell"; lit "buy"]; spaces;
          alt [lit "limit"; lit "stop"]];
     (* "delete\s*(order|pending)" *)
     seq [lit "delete"; spaces; alt [lit "order"; lit "pending"]]]);
  (PARTIAL_CLOSE, [
     (* "partial(ly)?\s*(close|exit)" *)
     seq [lit "partial"; opt (lit "ly"); spaces; alt [lit "close"; lit "exit"]];
     (* "close\s*half" *)
     seq [lit "close"; spaces; lit "half"];
     (* "(some|few)\s*positions?\s*closed" *)
     seq [alt [lit "some"; lit "few"]; spaces; lit "position"; opt (lit "s"); spaces;
          lit "closed"];
     (* "filled\s*the\s*zone" *)
     seq [lit "filled"; spaces; lit "the"; spaces; lit "zone"]]);
  (STOP_ADJUSTMENT, [
     (* "(adjust|move|moving|trail)\s*(stop|sl)" *)
     seq [alt [lit "adjust"; lit "move"; lit "moving"; lit "trail"]; spaces;
          alt [lit "stop"; lit "sl"]];
     (* "new\s*stop" *)
     seq [lit "new"; spaces; lit "stop"]])
].

(** [\d+\.?\d*] and [\d+\.?\d+] *)
Definition loose_number : regex := seq [plus digit; opt (lit "."); Star digit].
Definition loose_number1 : regex := seq [plus digit; opt (lit "."); plus digit].

(** [\s*[@:at]?\s*\d+\.?\d+] *)
Definition labelled_number : regex :=
  seq [spaces; opt (one_of "@:at"); spaces; loose_number1].

Definition _has_price_structure (message_text : string) : bool :=
  let normalized := lower message_text in
  let has_entry :=
    (* "\d+\.?\d*\s*[-–—]\s*\d+\.?\d*" *)
    re_test (seq [loose_number; spaces; alt [lit "-"; lit "–"; lit "—"]; spaces;
                  loose_number]) message_text in
  let has_entry :=
    (has_entry
     || re_test (seq [alt [lit "entry"; lit "buy"; lit "sell"]; labelled_number])
          normalized)%bool in
  let has_sl :=
    re_test (seq [alt [lit "sl"; seq [lit "stop"; spaces; lit "loss"]; lit "stoploss"];
                  labelled_number]) normalized in
  let has_tp :=
    re_test (seq [alt [seq [lit "tp"; Star digit]; seq [lit "take"; spaces; lit "profit"];
                       lit "target"]; labelled_number]) normalized in
  (has_entry && (has_sl || has_tp))%bool.

(** [common_symbols] is a Python set, iterated in an unspecified order; the
    order of the source text is used here. *)
Definition common_symbols : list string := [
  "EURUSD"; "GBPUSD"; "USDJPY"; "USDCHF"; "AUDUSD"; "NZDUSD";
  "EURJPY"; "EURGBP"; "GBPJPY"; "AUDNZD"; "CADCHF"; "AUDCAD";
  "BTC"; "ETH"; "XRP"; "ADA"; "DOT"; "SOL"; "AAPL"; "GOOGL"; "MSFT";
  "XAUUSD"; "GOLD"; "XAGUSD"; "SILVER"; "USOIL"; "UKOIL"; "XTIUSD"; "XBRUSD";
  "US30"; "NAS100"; "GER30"; "DE30"; "DE40"; "SPX500"; "US500"; "HK30"; "JPN225"
].

Definition symbol_map : list (string * string) := [
  ("GOLD", "XAUUSD"); ("SILVER", "XAGUSD"); ("OIL", "USOIL"); ("US30", "DJI");
  ("NAS100", "NAS100"); ("NASDAQ", "NAS100"); ("DOW", "US30")
].

Definition mapped_symbol (s : string) : string :=
  match List.find (fun kv => String.eqb (fst kv) s) symbol_map with
  | Some kv => snd kv
  | None => s
  end.

Definition upper_letters (n : nat) : regex :=
  seq (replicate n (Cls is_upper_letter)).

Definition _extract_symbol (message_text : string) : option string :=
  let message_upper := upper message_text in
  match List.find (fun s => contains s message_upper) common_symbols with
  | Some s => Some (mapped_symbol s)
  | None =>
    (* "\b([A-Z]{3})[/\s]?([A-Z]{3})\b" *)
    match re_search (seq [WordB; Group 1 (upper_letters 3);
                          opt (Cls (fun c => (Ascii.eqb c "/" || is_space c)%bool));
                          Group 2 (upper_letters 3); WordB]) message_upper with
    | Some m => Some (default EmptyString (group_of 1 m) +:+ default EmptyString (group_of 2 m))
    | None =>
      (* "\b(BTC|ETH|XRP|ADA|SOL)\b" *)
      match re_search (seq [WordB; Group 1 (alt [lit "BTC"; lit "ETH"; lit "XRP";
                                                 lit "ADA"; lit "SOL"]); WordB])
              message_upper with
      | Some m => group_of 1 m
      | None =>
        (* "\b([A-Z]{1,5})\b\s*(stock|share)" *)
        match re_search (seq [WordB; Group 1 (rep1 5 (Cls is_upper_letter)); WordB;
                              spaces; alt [lit "stock"; lit "share"]])
                message_upper with
        | Some m => group_of 1 m
        | None => None
        end
      end
    end
  end.

Definition first_modification (normalized : string) : option ModificationType :=
  match List.find (fun entry => existsb (fun r => re_test r normalized) (snd entry))
          modification_patterns with
  | Some entry => Some (fst entry)
  | None => None
  end.

Definition classify_message (message_text : string)
    : MessageCategory * option ModificationType :=
  let normalized := lower message_text in
  if existsb (fun r => re_test r normalized) commentary_patterns then (COMMENTARY, None)
  else
    match first_modification normalized with
    | Some mod_type => (MODIFICATION, Some mod_type)
    | None =>
      let has_symbol := bool_decide (_extract_symbol message_text <> None) in
      let has_prices := _has_price_structure message_text in
      if (has_symbol && has_prices)%bool then (ACTIONABLE_SIGNAL, None)
      else (COMMENTARY, None)
    end.

(** [float(s)] for a price token: digits with an optional fraction. *)
Fixpoint float_digits (l : list ascii) (num : Z) (den : positive) (frac : bool)
    : Q :=
  match l with
  | [] => Qmake num den
  | c :: cs =>
    if is_digit c then
      float_digits cs (10 * num + Z.of_nat (nat_of_ascii c - 48))
        (if frac then (10 * den)%positive else den) frac
    else float_digits cs num den true
  end.

Definition float_of (s : string) : Q :=
  float_digits (list_ascii_of_string s) 0 1 false.

(** [x in l] and [l.remove(x)] on lists of floats. *)
Definition num_in (x : Q) (l : list Q) : bool := existsb (Qeq_bool x) l.

Fixpoint num_remove (x : Q) (l : list Q) : list Q :=
  match l with
  | [] => []
  | y :: r => if Qeq_bool y x then r else y :: num_remove x r
  end.

(** [for v in vs: if v not in acc: acc.append(v)] *)
Definition append_new (acc vs : list Q) : list Q :=
  fold_left (fun a v => if num_in v a then a else a ++ [v]) vs acc.

Definition ratio_ok (a b : Q) : bool :=
  (Qlt_bool 0.5 (a / b) && Qlt_bool (a / b) 2.0)%Q%bool.

(** "\b\d{1,7}(?:\.\d{1,5})?\b" *)
Definition price_pattern : regex :=
  seq [WordB; rep1 7 digit; opt (seq [lit "."; rep1 5 digit]); WordB].

(** "[:\s]*" *)
Definition colon_spaces : regex :=
  Star (Cls (fun c => (Ascii.eqb c ":" || is_space c)%bool)).

(** "(?:entry|enter|entrada|@|at|price|buy|sell)?[:\s]*(P)\s*(?:-|–|—|to|/)\s*(P)" *)
Definition range_pattern : regex :=
  seq [opt (alt [lit "entry"; lit "enter"; lit "entrada"; lit "@"; lit "at";
                 lit "price"; lit "buy"; lit "sell"]);
       colon_spaces; Group 1 price_pattern; spaces;
       alt [lit "-"; lit "–"; lit "—"; lit "to"; lit "/"]; spaces;
       Group 2 price_pattern].

Definition entry_patterns : list regex := [
  (* "(?:entry|enter|entrada|open|initial|@|at|price)[:\s]*(P)" *)
  seq [alt [lit "entry"; lit "enter"; lit "entrada"; lit "open"; lit "initial";
            lit "@"; lit "at"; lit "price"];
       colon_spaces; Group 1 price_pattern];
  (* "(?:buy|sell)\s+(?:gold|silver|oil|us30|nas100|eurusd|gbpusd|[\w/]+)?\s*(P)" *)
  seq [alt [lit "buy"; lit "sell"]; plus (Cls is_space);
       opt (alt [lit "gold"; lit "silver"; lit "oil"; lit "us30"; lit "nas100";
                 lit "eurusd"; lit "gbpusd";
                 plus (Cls (fun c => (is_word c || Ascii.eqb c "/")%bool))]);
       spaces; Group 1 price_pattern]
].

(** "(?:sl|stop loss|stoploss|stop|risk)[:\s]*(P)" *)
Definition sl_pattern : regex :=
  seq [alt [lit "sl"; lit "stop loss"; lit "stoploss"; lit "stop"; lit "risk"];
       colon_spaces; Group 1 price_pattern].

Definition tp_label : regex := alt [lit "tp"; lit "take profit"; lit "target"].

(** "(?:tp|take profit|target)\s*(?:\d+)?\s*(?:open|at|target)?[:\s]*(P)" *)
Definition tp_label_pattern : regex :=
  seq [tp_label; spaces; opt (plus digit); spaces;
       opt (alt [lit "open"; lit "at"; lit "target"]); colon_spaces;
       Group 1 price_pattern].

(** "P(?:\s*[/|]\s*P)*" *)
Definition price_list : regex :=
  seq [price_pattern; Star (seq [spaces; one_of "/|"; spaces; price_pattern])].

Definition list_patterns : list regex := [
  (* "(?:tp|take profit|target)s?[:\s]*(P(?:\s*[/|]\s*P)* )" *)
  seq [tp_label; opt (lit "s"); colon_spaces; Group 1 price_list];
  (* "\(\s*(P(?:\s*[/|]\s*P)* )\s*\)" *)
  seq [lit "("; spaces; Group 1 price_list; spaces; lit ")"]
].

(** "(?:tp|take profit|target)[:\s]*(P)" *)
Definition tp_fallback_pattern : regex :=
  seq [tp_label; colon_spaces; Group 1 price_pattern].

Record Prices : Type := {
  entry : option Q;
  p_entry_range : list Q;
  p_stop_loss : option Q;
  p_take_profit : option Q;
  p_take_profits : list Q;
}.

Definition group1_float (m : MState * MState) : Q :=
  float_of (default EmptyString (group_of 1 m)).

(** The first pattern of the list that matches gives the value. *)
Fixpoint first_group1 (patterns : list regex) (text : string) : option Q :=
  match patterns with
  | [] => None
  | r :: others =>
    match re_search r text with
    | Some m => Some (group1_float m)
    | None => first_group1 others text
    end
  end.

Inductive Raised (A : Type) : Type :=
  | Returned (a : A)
  | ZeroDivisionError.
Arguments Returned {A} a.
Arguments ZeroDivisionError {A}.

(** Step 1 of [_extract_prices]: the entry range.  The quotient [p1 / p2]
    is computed before the test, so a second price of zero raises. *)
Definition extract_range (message_lower : string) : Raised (list Q) :=
  match re_search range_pattern message_lower with
  | Some m =>
    let p1 := float_of (default EmptyString (group_of 1 m)) in
    let p2 := float_of (default EmptyString (group_of 2 m)) in
    if Qeq_bool p2 0 then ZeroDivisionError
    else if ratio_ok p1 p2 then Returned [Qmin p1 p2; Qmax p1 p2]
    else Returned []
  | None => Returned []
  end.

(** Step 3: every price that follows a TP label, then the price lists. *)
Definition labelled_take_profits (message_lower : string) : list Q :=
  let tps := append_new [] (map group1_float (re_finditer tp_label_pattern message_lower)) in
  fold_left
    (fun acc r =>
       match re_search r message_lower with
       | Some m =>
         append_new acc
           (map float_of (re_findall price_pattern (default EmptyString (group_of 1 m))))
       | None => acc
       end)
    list_patterns tps.

Definition significant_numbers (entry0 : option Q) (all_numbers : list Q) : list Q :=
  List.filter
    (fun n => if Qlt_bool 10 n then true
              else if truthy_num entry0 then ratio_ok n (default 0%Q entry0)
              else false)
    all_numbers.

Definition _extract_prices (message_text : string) : Raised Prices :=
  let message_lower := lower message_text in
  match extract_range message_lower with
  | ZeroDivisionError => ZeroDivisionError
  | Returned range =>
    let entry1 := head range in
    let entry2 :=
      if truthy_num entry1 then entry1
      else match first_group1 entry_patterns message_lower with
           | Some v => Some v
           | None => entry1
           end in
    let sl1 := first_group1 [sl_pattern] message_lower in
    let tps1 := labelled_take_profits message_lower in
    let tp1 := head tps1 in
    let '(tp2, tps2) :=
      if truthy_num tp1 then (tp1, tps1)
      else match first_group1 [tp_fallback_pattern] message_lower with
           | Some v => (Some v, append_new tps1 [v])
           | None => (tp1, tps1)
           end in
    let all_numbers := map float_of (re_findall price_pattern message_text) in
    let significant := significant_numbers entry2 all_numbers in
    let found_values :=
      option_list entry2 ++ option_list sl1 ++ range ++ tps2 in
    let remaining := List.filter (fun n => negb (num_in n found_values)) significant in
    let '(entry3, remaining1) :=
      match significant with
      | first :: _ =>
        if truthy_num entry2 then (entry2, remaining)
        else (Some first, if num_in first remaining then num_remove first remaining
                          else remaining)
      | [] => (entry2, remaining)
      end in
    let '(sl2, remaining2) :=
      match remaining1 with
      | first :: others =>
        if truthy_num sl1 then (sl1, remaining1) else (Some first, others)
      | [] => (sl1, remaining1)
      end in
    let tps3 := append_new tps2 remaining2 in
    let tp3 := if truthy_num tp2 then tp2
               else match tps3 with v :: _ => Some v | [] => tp2 end in
    Returned {| entry := entry3; p_entry_range := range; p_stop_loss := sl2;
                p_take_profit := tp3; p_take_profits := tps3 |}
  end.

Definition any_in (words : list string) (text : string) : bool :=
  existsb (fun w => contains w text) words.

Definition _determine_signal_type (normalized : string) : option string :=
  if any_in ["buy"; "long"; "entrada"; "compra"; "go long"; "bullish"; "upside";
             "buy stop"; "buy limit"] normalized then Some "buy"
  else if any_in ["sell"; "short"; "salida"; "venta"; "go short"; "bearish";
                  "downside"; "sell stop"; "sell limit"] normalized then Some "sell"
  else if any_in ["close"; "cierre"; "cancelar"; "exit"; "liquidate"] normalized
  then Some "close"
  else if any_in ["tp update"; "take profit update"; "target update"; "nuevo tp"]
            normalized then Some "tp_update"
  else if any_in ["sl update"; "stop loss update"; "nuevo sl"; "stoploss update"]
            normalized then Some "sl_update"
  else if any_in ["modify"; "update"; "change"; "adjust"; "modify position"]
            normalized then Some "modify"
  else None.

(** [len(message_text)]: the bytes that start a character. *)
Definition py_len (s : string) : nat :=
  length (List.filter (fun c => negb (in_range 128 191 c)) (list_ascii_of_string s)).

Definition _calculate_confidence (stype sym : option string)
    (entry0 sl tp : option Q) (message_text : string) : Q :=
  let c0 := 0.5%Q in
  let c1 := if truthy_str stype then (c0 + 0.15)%Q else c0 in
  let c2 := if truthy_str sym then (c1 + 0.15)%Q else c1 in
  let c3 := if truthy_num entry0 then (c2 + 0.10)%Q else c2 in
  let c4 := if truthy_num sl then (c3 + 0.10)%Q else c3 in
  let c5 := if truthy_num tp then (c4 + 0.10)%Q else c4 in
  let c6 := if Nat.ltb 50 (py_len message_text) then (c5 + 0.05)%Q else c5 in
  let c7 := if Nat.ltb (py_len message_text) 10 then (c6 - 0.2)%Q else c6 in
  let c8 := if (negb (truthy_str sym) || negb (truthy_str stype))%bool
            then (c7 * 0.7)%Q else c7 in
  Qmin 1.0 (Qmax 0.0 c8).

Definition _parse_with_heuristics (message_text : string) : Raised ParsedSignal :=
  let normalized := lower message_text in
  let stype := _determine_signal_type normalized in
  let sym := _extract_symbol message_text in
  match _extract_prices message_text with
  | ZeroDivisionError => ZeroDivisionError
  | Returned prices =>
    Returned
      {| symbol := sym; signal_type := stype; entry_price := entry prices;
         entry_range := p_entry_range prices; stop_loss := p_stop_loss prices;
         take_profit := p_take_profit prices; take_profits := p_take_profits prices;
         confidence_score :=
           Some (_calculate_confidence stype sym (entry prices) (p_stop_loss prices)
                   (p_take_profit prices) message_text);
         confidence_is_none := false |}
  end.

(** The dictionary returned by [parse_signal].  The error response carries
    neither [message_category] nor [is_actionable]. *)
Record ParseRecord : Type := {
  parsed : ParsedSignal;
  parsing_method : string;
  message_category : option MessageCategory;
  modification_type : option ModificationType;
  is_actionable : option bool;
}.

Definition _error_response : ParseRecord :=
  {| parsed := {| symbol := None; signal_type := None; entry_price := None;
                  entry_range := []; stop_loss := None; take_profit := None;
                  take_profits := []; confidence_score := Some 0.0%Q;
                  confidence_is_none := false |};
     parsing_method := "error"; message_category := None;
     modification_type := None; is_actionable := None |}.

Definition is_actionable_category (c : MessageCategory) : bool :=
  match c with ACTIONABLE_SIGNAL => true | _ => false end.

(** [parse_signal].  The language model is external: [llm] is [None] when no
    API key is configured; otherwise it maps a message to the record built
    from the model's JSON answer, or to [None] when the request or the
    decoding fails and the heuristic path takes over. *)
Definition parse_signal (llm : option (string -> option ParsedSignal))
    (message_text : string) : ParseRecord :=
  let classification := classify_message message_text in
  let from_llm :=
    match llm with
    | Some ask => ask message_text
    | None => None
    end in
  let finish (method : string) (r : ParsedSignal) :=
    {| parsed := r; parsing_method := method;
       message_category := Some (fst classification);
       modification_type := snd classification;
       is_actionable := Some (is_actionable_category (fst classification)) |} in
  match from_llm with
  | Some r => finish "llm" r
  | None =>
    match _parse_with_heuristics message_text with
    | Returned r => finish "heuristic" r
    | ZeroDivisionError => _error_response
    end
  end.

(** ** Vocabulary of the statements *)

Definition is_falling_back (a : Action) : bool :=
  match a with
  | Broadcast _ (ExecutionFallingBack _ _) => true
  | _ => false
  end.

(** Order placements and the fallback announcement. *)
Definition key_action (a : Action) : bool := (is_order a || is_falling_back a)%bool.

(** Neither a broker operation nor a fallback announcement. *)
Definition quiet (a : Action) : bool :=
  (negb (is_broker_op a) && negb (is_falling_back a))%bool.

Definition market_action (ex : TradeExecution) : Action :=
  MarketOrder (ex_symbol ex) (ex_side ex) (ex_volume ex)
    (float_if (ex_stop_loss ex)) (float_if (ex_take_profit ex)).

Definition limit_action (ex : TradeExecution) (price : Q) : Action :=
  LimitOrder (ex_symbol ex) (ex_side ex) price (ex_volume ex)
    (float_if (ex_stop_loss ex)) (float_if (ex_take_profit ex)).

Definition market_result (env : Env) (ex : TradeExecution) : OrderResult :=
  execute_market_order (mt5 env) true (ex_symbol ex) (ex_side ex) (ex_volume ex)
    (float_if (ex_stop_loss ex)) (float_if (ex_take_profit ex)) (signal_comment ex).

Definition limit_result (env : Env) (ex : TradeExecution) (price : Q)
    (comment : string) : OrderResult :=
  execute_limit_order (mt5 env) true (ex_symbol ex) (ex_side ex) price (ex_volume ex)
    (float_if (ex_stop_loss ex)) (float_if (ex_take_profit ex)) comment.

(** What [place_order] does on a connected executor: the actions it adds to
    the trace and the order result it returns. *)
Definition order_plan (env : Env) (eid : nat) (ex : TradeExecution)
    (use_limit : bool) (execution_price : Q) : list Action * OrderResult :=
  if use_limit then
    ([limit_action ex execution_price],
     limit_result env ex execution_price (signal_comment ex))
  else if (negb (success (market_result env ex))
           && truthy_num (ex_entry_price ex))%bool then
    ([market_action ex;
      LogWarning "Market order failed. Falling back to LIMIT order at {0}"
        [num_or (ex_entry_price ex) 0%Q];
      Broadcast (ex_user_id ex) (ExecutionFallingBack (N.of_nat eid) (ex_entry_price ex));
      limit_action ex (num_or (ex_entry_price ex) 0%Q)],
     limit_result env ex (num_or (ex_entry_price ex) 0%Q)
       (signal_comment ex +:+ " (Fallback)"))
  else ([market_action ex], market_result env ex).

(** The row an execution ends in once an order result is known. *)
Definition settled_row (env : Env) (ex : TradeExecution) (r : OrderResult)
    : TradeExecution :=
  if success r then record_order r (utcnow env) ex
  else set_error (default "Order execution failed" (error r)) (set_status FAILED ex).

(** The actions a run adds to the trace. *)
Definition new_actions (before after : World) : list Action :=
  drop (length (trace before)) (trace after).

Definition terminal (s : ExecutionState) : bool :=
  match s with
  | EXECUTED | CLOSED | FAILED | CANCELLED => true
  | _ => false
  end.

Definition is_sent_to (ws : ConnectionManager.WebSocket)
    (ev : ConnectionManager.HubEvent) : bool :=
  match ev with
  | ConnectionManager.Sent x _ => N.eqb x ws
  | ConnectionManager.HubLogError _ => false
  end.

(** How many times a session received a message during a broadcast. *)
Definition deliveries (ws : ConnectionManager.WebSocket)
    (events : list ConnectionManager.HubEvent) : nat :=
  length (List.filter (is_sent_to ws) events).

(** What the fan-out fixes for a row: its signal, volume and take profit. *)
Definition fan_view (e : TradeExecution) : N * Q * option Q :=
  (ex_signal_id e, ex_volume e, ex_take_profit e).


(** The risk setting is within the range of floats. *)
Definition risk_in_range (prefs : option UserPreferences) : Prop :=
  match prefs with
  | Some up => float_range (num_or (risk_per_trade up) 1%Q)
  | None => True
  end.

(** The rows a run appended to the table. *)
Definition created (before after : World) : list TradeExecution :=
  drop (length (executions (db before))) (executions (db after)).

(** What one step of the synchronizer loop makes of a row, on a connected
    executor, and what it adds to the trace. *)
Definition synced_row (env : Env) (mt5_tickets : gmap Z Position)
    (e : TradeExecution) : TradeExecution :=
  if negb (truthy_int (ticket_number e)) then e
  else
    match mt5_tickets !! default 0 (ticket_number e) with
    | Some p => set_profit_loss (pos_profit p) e
    | None =>
      match get_history_deals (mt5 env) true (default 0 (ticket_number e)) with
      | Some deal => record_closure deal e
      | None => e
      end
    end.

Definition sync_actions (env : Env) (uid : N) (mt5_tickets : gmap Z Position)
    (eid : nat) (e : TradeExecution) : list Action :=
  if negb (truthy_int (ticket_number e)) then []
  else
    let tk := default 0 (ticket_number e) in
    match mt5_tickets !! tk with
    | Some p =>
      [Broadcast uid (PositionUpdate (N.of_nat eid) (pos_profit p) (pos_price_current p))]
    | None =>
      [LogInfo ("Position " +:+ pretty tk +:+ " not found in MT5, checking history...");
       GetHistoryDeals tk]
      ++ match get_history_deals (mt5 env) true tk with
         | Some deal =>
           [Broadcast uid (PositionClosed (N.of_nat eid) (deal_profit deal)
                             (deal_price deal))]
         | None => []
         end
    end.

(** The execution a position event is about. *)
Definition position_event_of (a : Action) : option N :=
  match a with
  | Broadcast _ (PositionUpdate i _ _) | Broadcast _ (PositionClosed i _ _) => Some i
  | _ => None
  end.

(** The user whose credentials a pass uses for a broker account:
    [executions[0].user_id], the owner of the first EXECUTED row of the
    account. *)
Definition sync_user (d : DB) (bid : N) : option N :=
  match List.find (fun ir => N.eqb (ex_broker_config_id (snd ir)) bid)
          (active_executions d) with
  | Some ir => Some (ex_user_id (snd ir))
  | None => None
  end.

(** A session can be opened for a broker account with the credentials of a
    user: a password is stored and the terminal accepts the login. *)
Definition session_available (env : Env) (uid bid : N) (bc : BrokerConfig) : Prop :=
  truthy_str (mt5_password env uid bid) = true
  /\ mt5_login_ok (mt5 env) (login bc) (default EmptyString (mt5_password env uid bid))
       (server bc) = true.

(** The items of a group of [by_broker]. *)
Definition group_items (bid : N) (groups : list (N * list nat)) : list nat :=
  match List.find (fun g => N.eqb (fst g) bid) groups with
  | Some g => snd g
  | None => []
  end.

(** The tickets the terminal issues fit the BIGINT column [ticket_number]. *)
Definition tickets_fit (m : MT5) : Prop :=
  forall request r,
    order_send m request = SendReturns r -> - 2 ^ 63 <= res_order r < 2 ^ 63.

Arguments execute_market_order : simpl never.
Arguments execute_limit_order : simpl never.
Arguments get_current_price : simpl never.
Arguments entry_policy : simpl never.
Arguments _validate_signal : simpl never.
Arguments _update_signal_status : simpl never.

(** ** Concrete inputs used by the examples *)

Definition fx_info : SymbolInfo :=
  {| si_ask := 1.1010%Q; si_bid := 1.1008%Q; si_point := 0.00001%Q;
     si_digits := 5; si_filling_mode := 1 |}.

(** A terminal that accepts every login and fills every order with ticket 555. *)
Definition fx_mt5 : MT5 :=
  {| TRADE_RETCODE_DONE := 10009;
     mt5_login_ok := fun _ _ _ => true;
     symbol_info := fun _ => Some fx_info;
     symbol_info_tick := fun _ => Some {| tick_bid := 1.1008%Q; tick_ask := 1.1010%Q |};
     order_send := fun _ => SendReturns {| retcode := 10009; res_order := 555;
                                           res_comment := "Request executed" |};
     positions_get := [];
     history_deals_get := fun _ => None |}.

(** The same terminal, rejecting every order with retcode 10006. *)
Definition fx_mt5_rejecting : MT5 :=
  {| TRADE_RETCODE_DONE := 10009;
     mt5_login_ok := fun _ _ _ => true;
     symbol_info := fun _ => Some fx_info;
     symbol_info_tick := fun _ => Some {| tick_bid := 1.1008%Q; tick_ask := 1.1010%Q |};
     order_send := fun _ => SendReturns {| retcode := 10006; res_order := 0;
                                           res_comment := "Request rejected" |};
     positions_get := [];
     history_deals_get := fun _ => None |}.

Definition fx_env : Env :=
  {| mt5 := fx_mt5; mt5_password := fun _ _ => Some "secret"; utcnow := 1700000000 |}.

Definition fx_env_rejecting : Env :=
  {| mt5 := fx_mt5_rejecting; mt5_password := fun _ _ => Some "secret";
     utcnow := 1700000000 |}.

Definition fx_row (st : ExecutionState) (entry sl tp : option Q) : TradeExecution :=
  {| ex_user_id := 1; ex_signal_id := 7; ex_broker_config_id := 3;
     ex_symbol := "EURUSD"; ex_side := "buy"; ex_volume := 1%Q;
     ex_entry_price := entry; ex_stop_loss := sl; ex_take_profit := tp;
     execution_status := st; ticket_number := None; order_id := None;
     actual_entry_price := None; actual_entry_time := None; executed_at := None;
     close_price := None; close_time := None; profit_loss := None;
     execution_error := None |}.

Definition fx_db (rows : list TradeExecution) (prefs : gmap N UserPreferences) : DB :=
  {| executions := rows;
     signals := {[ 7%N := {| sig_user_id := 1; status := "pending";
                            processed_at := None |} ]};
     broker_configs := {[ 3%N := {| login := 4242; server := "Demo-Server" |} ]};
     user_preferences := prefs |}.

Definition fx_world (rows : list TradeExecution) (prefs : gmap N UserPreferences)
    : World :=
  {| db := fx_db rows prefs; is_connected := false; trace := [] |}.

(** A well-oriented buy of EURUSD with an entry range below the quoted ask. *)
Definition fx_buy_range : ParsedSignal :=
  {| symbol := Some "EURUSD"; signal_type := Some "buy";
     entry_price := Some 1.0990%Q; entry_range := [1.0990%Q; 1.1000%Q];
     stop_loss := Some 1.0950%Q; take_profit := Some 1.1100%Q;
     take_profits := [1.1100%Q]; confidence_score := Some 0.9%Q;
     confidence_is_none := false |}.

(** Scenario 4 of the specification: buy at 1.1000, SL 1.1100, TP 1.0900. *)
Definition fx_bad_orientation : ParsedSignal :=
  {| symbol := Some "EURUSD"; signal_type := Some "buy";
     entry_price := Some 1.1000%Q; entry_range := [];
     stop_loss := Some 1.1100%Q; take_profit := Some 1.0900%Q;
     take_profits := [1.0900%Q]; confidence_score := Some 0.9%Q;
     confidence_is_none := false |}.

(** A buy at a single planned entry, without range. *)
Definition fx_buy_single : ParsedSignal :=
  {| symbol := Some "EURUSD"; signal_type := Some "buy";
     entry_price := Some 1.1000%Q; entry_range := [];
     stop_loss := Some 1.0950%Q; take_profit := Some 1.1100%Q;
     take_profits := [1.1100%Q]; confidence_score := Some 0.9%Q;
     confidence_is_none := false |}.

(** Session 10 is broken; every other session accepts the message. *)
Definition fx_send_text (ws : ConnectionManager.WebSocket) (json_message : string)
    : option string :=
  if N.eqb ws 10%N then Some "connection closed" else None.

Definition fx_registry : gmap N (list ConnectionManager.WebSocket) :=
  {[ 1%N := [10%N; 11%N] ]}.

(** Scenario 1 of the specification, as the parser extracts it. *)
Definition fx_gold : ParsedSignal :=
  {| symbol := Some "XAUUSD"; signal_type := Some "sell";
     entry_price := Some 4601.5%Q; entry_range := [4601.5%Q; 4605.5%Q];
     stop_loss := Some 4609.5%Q; take_profit := Some 4600%Q;
     take_profits := [4600%Q; 4598%Q; 4596%Q; 4594%Q; 4592%Q; 4588%Q; 4583%Q];
     confidence_score := Some 1.0%Q; confidence_is_none := false |}.

(** A terminal quoting 1.0005 / 1.0007 for a symbol with four digits. *)
Definition fx_mt5_four_digits : MT5 :=
  {| TRADE_RETCODE_DONE := 10009;
     mt5_login_ok := fun _ _ _ => true;
     symbol_info := fun _ =>
       Some {| si_ask := 1.0007%Q; si_bid := 1.0005%Q; si_point := 0.0001%Q;
               si_digits := 4; si_filling_mode := 1 |};
     symbol_info_tick := fun _ => Some {| tick_bid := 1.0005%Q; tick_ask := 1.0007%Q |};
     order_send := fun _ => SendReturns {| retcode := 10009; res_order := 555;
                                           res_comment := "Request executed" |};
     positions_get := [];
     history_deals_get := fun _ => None |}.

(** A buy planned at 1.0012, five pips above the quoted ask. *)
Definition fx_buy_five_pips : ParsedSignal :=
  {| symbol := Some "EURUSD"; signal_type := Some "buy";
     entry_price := Some 1.0012%Q; entry_range := [];
     stop_loss := Some 0.9950%Q; take_profit := Some 1.0100%Q;
     take_profits := [1.0100%Q]; confidence_score := Some 0.9%Q;
     confidence_is_none := false |}.

(** A buy with four take-profit levels. *)
Definition fx_buy_four : ParsedSignal :=
  {| symbol := Some "EURUSD"; signal_type := Some "buy";
     entry_price := Some 1.1000%Q; entry_range := [];
     stop_loss := Some 1.0950%Q; take_profit := Some 1.1100%Q;
     take_profits := [1.1100%Q; 1.1150%Q; 1.1200%Q; 1.1250%Q];
     confidence_score := Some 0.9%Q; confidence_is_none := false |}.

Definition fx_prefs (manual : bool) (risk : Q) : gmap N UserPreferences :=
  {[ 1%N := {| manual_approval := manual; risk_per_trade := Some risk;
               max_slippage := 5.0%Q; use_limit_orders := true |} ]}.

(** Scenario 6 of the specification: ticket 9001 is no longer open and its
    history ends with a closing deal at 1.1230 with profit 42.5. *)
Definition fx_mt5_closed : MT5 :=
  {| TRADE_RETCODE_DONE := 10009;
     mt5_login_ok := fun _ _ _ => true;
     symbol_info := fun _ => Some fx_info;
     symbol_info_tick := fun _ => Some {| tick_bid := 1.1008%Q; tick_ask := 1.1010%Q |};
     order_send := fun _ => SendNone "no connection";
     positions_get := [];
     history_deals_get := fun tk =>
       if Z.eqb tk 9001 then
         Some [ {| deal_ticket := 1; deal_entry := DEAL_ENTRY_IN;
                   deal_price := 1.1000%Q; deal_profit := 0%Q;
                   deal_time := 1700000000 |};
                {| deal_ticket := 2; deal_entry := DEAL_ENTRY_OUT;
                   deal_price := 1.1230%Q; deal_profit := 42.5%Q;
                   deal_time := 1700003600 |} ]
       else None |}.

(** Only user 1 has stored a password, for broker account 3. *)
Definition fx_env_closed : Env :=
  {| mt5 := fx_mt5_closed;
     mt5_password := fun uid bid =>
       if (N.eqb uid 1 && N.eqb bid 3)%bool then Some "secret" else None;
     utcnow := 1700007200 |}.

Definition fx_open_row : TradeExecution :=
  {| ex_user_id := 1; ex_signal_id := 7; ex_broker_config_id := 3;
     ex_symbol := "EURUSD"; ex_side := "buy"; ex_volume := 1%Q;
     ex_entry_price := Some 1.1000%Q; ex_stop_loss := Some 1.0950%Q;
     ex_take_profit := Some 1.1250%Q; execution_status := EXECUTED;
     ticket_number := Some 9001; order_id := Some "9001";
     actual_entry_price := Some 1.1001%Q; actual_entry_time := Some 1700000000;
     executed_at := Some 1700000000; close_price := None; close_time := None;
     profit_loss := None; execution_error := None |}.

(** ** Vocabulary of the further properties *)

(** The fields of a row that describe the planned trade. *)
Definition plan_of (e : TradeExecution)
    : N * N * N * string * string * Q * option Q * option Q * option Q :=
  (ex_user_id e, ex_signal_id e, ex_broker_config_id e, ex_symbol e, ex_side e,
   ex_volume e, ex_entry_price e, ex_stop_loss e, ex_take_profit e).

(** "pips_to_price": the tolerated distance between quote and planned entry. *)
Definition slippage_tolerance (up : UserPreferences) (info : PriceInfo) : Q :=
  if (Z.eqb (pi_digits info) 3 || Z.eqb (pi_digits info) 5)%bool
  then fmul (fmul (max_slippage up) 10) (pi_point info)
  else fmul (max_slippage up) (pi_point info).

(** The numbers of the slippage test and its intermediate results are
    within the range of floats. *)
Definition slippage_in_range (up : UserPreferences) (info : PriceInfo)
    (cur entry : Q) : Prop :=
  float_range cur /\ float_range entry /\ float_range (max_slippage up)
  /\ float_range (pi_point info) /\ float_range (fmul (max_slippage up) 10)
  /\ float_range (slippage_tolerance up info) /\ float_range (fsub cur entry).

(** A result of [_process_single_execution] and the row it is about agree. *)
Definition settled_as (r : ProcessResult) (e : TradeExecution) : Prop :=
  if pr_success r
  then execution_status e = EXECUTED /\ ticket_number e = pr_ticket r
  else execution_status e = FAILED /\ execution_error e = pr_error r.

(** The approval request announced for row [i] with take profit [tp]. *)
Definition approval_request (uid sid : N) (p : ParsedSignal) (sym side : string)
    (i : nat) (tp : option Q) : Action :=
  Broadcast uid
    (SignalApprovalRequired sid (N.of_nat i) sym side
       (float_if (entry_price p)) (float_if (stop_loss p)) (float_if tp)).

(** What a caller may rely on in the dictionary of an order function. *)
Definition well_formed_result (connected : bool) (side : string) (r : OrderResult)
    : Prop :=
  if success r
  then connected = true /\ is_buy_or_sell side = true
       /\ is_Some (ticket r) /\ error r = None
       /\ res_order_id r = pretty <$> ticket r
  else ticket r = None /\ is_Some (error r).

(** No user of the registry is left with an empty list of sessions. *)
Definition no_empty_entry (active : gmap N (list ConnectionManager.WebSocket)) : Prop :=
  forall uid conns, active !! uid = Some conns -> conns <> [].

(** How often a session is registered for a user. *)
Definition registrations (ws : ConnectionManager.WebSocket) (uid : N)
    (active : gmap N (list ConnectionManager.WebSocket)) : nat :=
  length (List.filter (N.eqb ws) (default [] (active !! uid))).

(** A login at the terminal. *)
Definition is_connect (a : Action) : bool :=
  match a with
  | Connect _ _ => true
  | _ => false
  end.

(** [SignalParser.validate_signal], the validator of the parser module. *)
Definition validate_signal (p : ParsedSignal) : bool :=
  if (negb (truthy_str (symbol p)) || negb (truthy_str (signal_type p)))%bool then false
  else if Qlt_bool (default 0%Q (confidence_score p)) 0.5%Q then false
  else
    let entry := entry_price p in
    let sl := stop_loss p in
    let tp := take_profit p in
    if (truthy_num entry && truthy_num sl && truthy_num tp)%bool then
      if bool_decide (signal_type p = Some "buy") then
        if negb (chain_lt sl entry tp) then false else true
      else if bool_decide (signal_type p = Some "sell") then
        if negb (chain_lt tp entry sl) then false else true
      else true
    else true.

(** No two elements of the list are equal as numbers. *)
Definition distinct_numbers (l : list Q) : Prop :=
  forall i j x y, l !! i = Some x -> l !! j = Some y -> i <> j -> ~ (x == y)%Q.

(** * Properties *)

(** [fl] on numbers whose binary64 value is known: 0.1, the quotient 0.1 / 4
    of the fan-out, which lies above 0.025, the two numbers of a slippage
    test, ties between neighbours, and the smallest subnormal number. *)
Lemma fl_binary64_values :
  (fl 0.1 == 3602879701896397 # 36028797018963968)%Q
  /\ (fdiv 0.1 4 == 3602879701896397 # 144115188075855872)%Q
  /\ (0.025 < fdiv 0.1 4)%Q
  /\ (fsub 1.0007 1.0012 == - (1125899906843 # 2251799813685248))%Q
  /\ (fmul 5.0 0.0001 == 1152921504606847 # 2305843009213693952)%Q
  /\ (fl (inject_Z (2 ^ 53 + 1)) == inject_Z (2 ^ 53))%Q
  /\ (fl (inject_Z (2 ^ 53 + 3)) == inject_Z (2 ^ 53 + 4))%Q
  /\ (fl (pow2 (-1075)) == 0)%Q
  /\ (fl (3 * pow2 (-1076)) == pow2 (-1074))%Q
  /\ (fl max_float == max_float)%Q.
Proof.
  repeat split; vm_compute; reflexivity.
Qed.

Lemma Qlt_bool_false (a b : Q) : Qlt_bool a b = false -> (b <= a)%Q.
Proof.
  unfold Qlt_bool. intros H. apply Qle_bool_iff.
  by destruct (Qle_bool b a).
Qed.

Lemma Qlt_bool_true (a b : Q) : Qlt_bool a b = true -> (a < b)%Q.
Proof.
  unfold Qlt_bool. intros H. apply Qnot_le_lt. intros Hle.
  apply Qle_bool_iff in Hle. rewrite Hle in H. discriminate.
Qed.

(** [round_half_even] returns an integer nearest to its argument, and the
    even one of the two when the argument lies half way. *)
Lemma round_half_even_spec (y : Q) :
  (Qabs (inject_Z (round_half_even y) - y) <= 1 # 2)%Q
  /\ ((Qabs (inject_Z (round_half_even y) - y) == 1 # 2)%Q ->
      Z.even (round_half_even y) = true).
Proof.
  unfold round_half_even.
  pose proof (Qfloor_le y) as Hlo. pose proof (Qlt_floor y) as Hhi.
  rewrite inject_Z_plus in Hhi. change (inject_Z 1) with 1%Q in Hhi.
  set (f := Qfloor y) in *.
  destruct (Qlt_bool (y - inject_Z f) (1 # 2)) eqn:H1.
  { apply Qlt_bool_true in H1. split.
    - apply Qabs_Qle_condition. split; lra.
    - intros Ht. exfalso. revert Ht. apply Qabs_case; intros ? Ht; lra. }
  apply Qlt_bool_false in H1.
  destruct (Qlt_bool (1 # 2) (y - inject_Z f)) eqn:H2.
  { apply Qlt_bool_true in H2. rewrite inject_Z_plus.
    change (inject_Z 1) with 1%Q. split.
    - apply Qabs_Qle_condition. split; lra.
    - intros Ht. exfalso. revert Ht. apply Qabs_case; intros ? Ht; lra. }
  apply Qlt_bool_false in H2.
  destruct (Z.even f) eqn:He.
  - split; [|by intros _]. apply Qabs_Qle_condition. split; lra.
  - rewrite inject_Z_plus. change (inject_Z 1) with 1%Q. split.
    + apply Qabs_Qle_condition. split; lra.
    + intros _. rewrite Z.even_add, He. reflexivity.
Qed.

Lemma pow2_Qpower (e : Z) : (pow2 e == 2 ^ e)%Q.
Proof.
  unfold pow2. destruct (0 <=? e) eqn:E.
  - apply Z.leb_le in E. by rewrite (Zpower_Qpower 2 e E).
  - apply Z.leb_gt in E.
    assert (Hp : 0 < 2 ^ (- e)) by (apply Z.pow_pos_nonneg; lia).
    rewrite <- (Z.opp_involutive e) at 2. rewrite Qpower_opp.
    rewrite <- (Zpower_Qpower 2 (- e)) by lia.
    destruct (2 ^ (- e)) as [|p|p] eqn:Hz; try lia. reflexivity.
Qed.

Lemma pow2_pos (e : Z) : (0 < pow2 e)%Q.
Proof. rewrite pow2_Qpower. by apply Qpower_0_lt. Qed.

Lemma pow2_plus (a b : Z) : (pow2 (a + b) == pow2 a * pow2 b)%Q.
Proof. rewrite !pow2_Qpower. by apply Qpower_plus. Qed.

Lemma pow2_le (a b : Z) : a <= b -> (pow2 a <= pow2 b)%Q.
Proof. intros H. rewrite !pow2_Qpower. by apply Qpower_le_compat_l. Qed.

Lemma pow2_1 : (pow2 1 == 2)%Q.
Proof. reflexivity. Qed.

(** [ilog2 a] is the exponent of the binade of [a]. *)
Lemma ilog2_spec (a : Q) :
  (0 < a)%Q -> (pow2 (ilog2 a) <= a < pow2 (ilog2 a + 1))%Q.
Proof.
  intros Ha. destruct a as [n d].
  assert (Hn : 0 < n) by (unfold Qlt in Ha; cbn in Ha; lia).
  unfold ilog2. cbn [Qnum Qden].
  destruct (Z.log2_spec n Hn) as [Hn1 Hn2].
  destruct (Z.log2_spec (Z.pos d) ltac:(lia)) as [Hd1 Hd2].
  pose proof (Z.log2_nonneg n) as Hln. pose proof (Z.log2_nonneg (Z.pos d)) as Hld.
  set (ln := Z.log2 n) in *. set (ld := Z.log2 (Z.pos d)) in *.
  assert (HA : (0 < pow2 ln)%Q) by apply pow2_pos.
  assert (HB : (0 < pow2 ld)%Q) by apply pow2_pos.
  assert (HnA : (pow2 ln <= inject_Z n)%Q).
  { unfold pow2. replace (0 <=? ln) with true by (symmetry; apply Z.leb_le; lia).
    rewrite <- Zle_Qle. exact Hn1. }
  assert (HnA2 : (inject_Z n < 2 * pow2 ln)%Q).
  { rewrite <- pow2_1, <- pow2_plus. unfold pow2.
    replace (0 <=? 1 + ln) with true by (symmetry; apply Z.leb_le; lia).
    rewrite <- Zlt_Qlt. replace (1 + ln) with (Z.succ ln) by lia. exact Hn2. }
  assert (HdB : (pow2 ld <= inject_Z (Z.pos d))%Q).
  { unfold pow2. replace (0 <=? ld) with true by (symmetry; apply Z.leb_le; lia).
    rewrite <- Zle_Qle. exact Hd1. }
  assert (HdB2 : (inject_Z (Z.pos d) < 2 * pow2 ld)%Q).
  { rewrite <- pow2_1, <- pow2_plus. unfold pow2.
    replace (0 <=? 1 + ld) with true by (symmetry; apply Z.leb_le; lia).
    rewrite <- Zlt_Qlt. replace (1 + ld) with (Z.succ ld) by lia. exact Hd2. }
  assert (Hq : (n # d == inject_Z n / inject_Z (Z.pos d))%Q) by apply Qmake_Qdiv.
  assert (HD : (0 < inject_Z (Z.pos d))%Q) by (rewrite <- (Zlt_Qlt 0); lia).
  assert (He0 : (pow2 ln == pow2 (ln - ld) * pow2 ld)%Q).
  { rewrite <- pow2_plus. by replace (ln - ld + ld) with ln by lia. }
  set (e0 := ln - ld) in *.
  assert (Hup : (n # d < pow2 (e0 + 1))%Q).
  { rewrite Hq. apply Qlt_shift_div_r; [exact HD|].
    rewrite pow2_plus, pow2_1.
    assert (0 < pow2 e0)%Q by apply pow2_pos. nra. }
  assert (Hlo : (pow2 (e0 - 1) < n # d)%Q).
  { rewrite Hq. apply Qlt_shift_div_l; [exact HD|].
    assert (Hh : (pow2 e0 == pow2 (e0 - 1) * 2)%Q).
    { rewrite <- pow2_1, <- pow2_plus. by replace (e0 - 1 + 1) with e0 by lia. }
    assert (0 < pow2 (e0 - 1))%Q by apply pow2_pos. nra. }
  destruct (Qlt_bool (n # d) (pow2 e0)) eqn:Hb.
  - apply Qlt_bool_true in Hb. replace (e0 - 1 + 1) with e0 by lia.
    split; [by apply Qlt_le_weak | exact Hb].
  - apply Qlt_bool_false in Hb. split; [exact Hb | exact Hup].
Qed.

(** [fl q] is a binary64 number nearest to [q]: an integer of at most 53
    bits times the spacing [2 ^ s] of the binary64 numbers around [q], at
    most half a spacing away from [q], with an even integer when [q] lies
    half way between two neighbours. *)
Lemma fl_nearest (q : Q) :
  exists m s : Z,
    (fl q == inject_Z m * pow2 s)%Q
    /\ -1074 <= s
    /\ Z.abs m <= 2 ^ 53
    /\ (s = -1074 \/ 2 ^ 52 <= Z.abs m)
    /\ (Qabs (fl q - q) <= pow2 s / 2)%Q
    /\ ((Qabs (fl q - q) == pow2 s / 2)%Q -> Z.even m = true).
Proof.
  assert (Hhalf : forall x : Q, (x / 2 == x * (1 # 2))%Q) by (intros; field).
  setoid_rewrite Hhalf.
  unfold fl. destruct (Qeq_bool q 0) eqn:Hz.
  { apply Qeq_bool_iff in Hz. exists 0, (-1074).
    pose proof (pow2_pos (-1074)) as Hp.
    split; [ring|]. split; [lia|]. split; [done|]. split; [by left|].
    assert (Hab : (Qabs (0 - q) == 0)%Q) by (rewrite Hz; reflexivity).
    split; [rewrite Hab; lra|]. rewrite Hab. intros Ht. lra. }
  assert (Hq0 : ~ (q == 0)%Q).
  { intros H. apply Qeq_bool_iff in H. congruence. }
  assert (Ha : (0 < Qabs q)%Q).
  { destruct (Q_dec q 0) as [[Hlt|Hgt]|Heq]; [| |contradiction].
    - rewrite Qabs_neg by lra. lra.
    - rewrite Qabs_pos by lra. lra. }
  destruct (ilog2_spec (Qabs q) Ha) as [Hlo Hup].
  set (e := ilog2 (Qabs q)) in *.
  set (s := Z.max e (-1022) - 52).
  pose proof (pow2_pos s) as Hulp.
  set (y := (Qabs q / pow2 s)%Q).
  destruct (round_half_even_spec y) as [Hnear Htie].
  set (k := round_half_even y) in *.
  assert (Hy : (y * pow2 s == Qabs q)%Q).
  { unfold y. field. lra. }
  assert (Hy53 : (y < inject_Z (2 ^ 53))%Q).
  { unfold y. apply Qlt_shift_div_r; [exact Hulp|].
    change (inject_Z (2 ^ 53)) with (pow2 53). rewrite <- pow2_plus.
    eapply Qlt_le_trans; [exact Hup|]. apply pow2_le. lia. }
  assert (Hypos : (0 < y)%Q).
  { unfold y. apply Qlt_shift_div_l; [exact Hulp|]. lra. }
  assert (Hk : (inject_Z k - y <= 1 # 2)%Q /\ (y - inject_Z k <= 1 # 2)%Q).
  { apply Qabs_Qle_condition in Hnear. split; lra. }
  assert (Hk0 : 0 <= k).
  { apply Z.lt_succ_r. rewrite Zlt_Qlt. unfold Z.succ. rewrite inject_Z_plus.
    change (inject_Z 0) with 0%Q. change (inject_Z 1) with 1%Q. lra. }
  assert (Hk53 : k <= 2 ^ 53).
  { apply Z.lt_succ_r. rewrite Zlt_Qlt. unfold Z.succ. rewrite inject_Z_plus.
    change (inject_Z 1) with 1%Q. lra. }
  assert (Hnorm : s = -1074 \/ 2 ^ 52 <= k).
  { destruct (Z_lt_le_dec e (-1022)) as [Hsub|Hn]; [left; subst s; lia|].
    right. assert (Hs : s = e - 52) by (subst s; lia).
    assert (Hy52 : (inject_Z (2 ^ 52) <= y)%Q).
    { unfold y. apply Qle_shift_div_l; [exact Hulp|].
      change (inject_Z (2 ^ 52)) with (pow2 52). rewrite <- pow2_plus.
      replace (52 + s) with e by lia. exact Hlo. }
    apply Z.lt_pred_le. rewrite Zlt_Qlt. unfold Z.pred. rewrite inject_Z_plus.
    change (inject_Z (-1)) with (-1)%Q. lra. }
  assert (Hdist : forall d : Q, (d == inject_Z k * pow2 s - Qabs q)%Q ->
            (Qabs d == Qabs (inject_Z k - y) * pow2 s)%Q).
  { intros d Hd. rewrite Hd, <- Hy.
    setoid_replace (inject_Z k * pow2 s - y * pow2 s)%Q
      with ((inject_Z k - y) * pow2 s)%Q using relation Qeq by ring.
    rewrite Qabs_Qmult. rewrite (Qabs_pos (pow2 s)) by lra. reflexivity. }
  assert (Hfin : forall d : Q, (d == inject_Z k * pow2 s - Qabs q)%Q ->
            (Qabs d <= pow2 s * (1 # 2))%Q
            /\ ((Qabs d == pow2 s * (1 # 2))%Q -> Z.even k = true)).
  { intros d Hd. rewrite (Hdist d Hd). split.
    - assert (Qabs (inject_Z k - y) * pow2 s <= (1 # 2) * pow2 s)%Q
        by (apply Qmult_le_compat_r; lra).
      lra.
    - intros Ht. apply Htie.
      assert (Hm : (Qabs (inject_Z k - y) * pow2 s == (1 # 2) * pow2 s)%Q) by lra.
      apply Qmult_inj_r in Hm; [exact Hm | lra]. }
  destruct (Qlt_bool q 0) eqn:Hneg.
  - apply Qlt_bool_true in Hneg. exists (- k), s.
    split; [rewrite inject_Z_opp; ring|]. split; [subst s; lia|].
    rewrite Z.abs_opp, (Z.abs_eq k Hk0). split; [exact Hk53|]. split; [exact Hnorm|].
    rewrite Z.even_opp.
    assert (Hd : (- (- (inject_Z k * pow2 s) - q) == inject_Z k * pow2 s - Qabs q)%Q).
    { rewrite (Qabs_neg q) by lra. ring. }
    destruct (Hfin _ Hd) as [H1 H2]. rewrite Qabs_opp in H1, H2. by split.
  - apply Qlt_bool_false in Hneg. exists k, s.
    split; [reflexivity|]. split; [subst s; lia|].
    rewrite (Z.abs_eq k Hk0). split; [exact Hk53|]. split; [exact Hnorm|].
    assert (Hd : (inject_Z k * pow2 s - q == inject_Z k * pow2 s - Qabs q)%Q).
    { rewrite (Qabs_pos q) by lra. reflexivity. }
    exact (Hfin _ Hd).
Qed.

Ltac eng_unfold :=
  unfold _process_single_execution, process_body, process_handler, place_order,
    call_get_current_price, call_market_order, call_limit_order, try_except,
    update_execution, read_execution, emit_all, emit, broadcast, set_db, get_world,
    require, raise, query_broker_config, connect, set_connected,
    call_validate_signal, mbind, eng_mbind, eng_bind, mret, eng_mret, eng_ret in *.

Lemma filter_quiet_key (l : list Action) :
  Forall (fun a => quiet a = true) l -> List.filter key_action l = [].
Proof.
  induction 1 as [|a l Ha _ IH]; [done|].
  cbn. rewrite IH. destruct a as [? []| | | | | | | | |]; cbn in *; done.
Qed.

Lemma filter_quiet_order (l : list Action) :
  Forall (fun a => quiet a = true) l -> List.filter is_order l = [].
Proof.
  induction 1 as [|a l Ha _ IH]; [done|].
  cbn. rewrite IH. destruct a as [? []| | | | | | | | |]; cbn in *; done.
Qed.

Lemma validate_true_no_warnings (p : ParsedSignal) :
  fst (_validate_signal p) = true -> snd (_validate_signal p) = [].
Proof.
  unfold _validate_signal.
  repeat match goal with |- context [if ?b then _ else _] => destruct b end; cbn; done.
Qed.

(** A call that returns [True] did not raise. *)
Lemma validation_exception_valid (p : ParsedSignal) :
  fst (_validate_signal p) = true -> validation_exception p = None.
Proof.
  unfold _validate_signal, validation_exception, confidence_ok.
  destruct (truthy_str (symbol p)); cbn; [|done].
  destruct (truthy_str (signal_type p)); cbn; [|done].
  destruct (confidence_score p) as [c|]; [done|].
  destruct (confidence_is_none p); [|done]. cbn. discriminate.
Qed.

(** [_update_signal_status] touches the signal table only and announces at
    most a [signal_update]. *)
Lemma update_signal_status_frame (env : Env) (sid : N) (w : World) :
  exists sigs acts,
    _update_signal_status env sid w =
      ({| db := with_signals (db w) sigs; is_connected := is_connected w;
          trace := trace w ++ acts |}, inr tt)
    /\ Forall (fun a => quiet a = true) acts.
Proof.
  unfold _update_signal_status. eng_unfold. cbn.
  destruct (signals (db w) !! sid) as [sg|] eqn:Hs.
  2:{ exists (signals (db w)), []. rewrite app_nil_r. destruct w as [[] ? ?]; cbn. done. }
  destruct (executions_of sid (db w)) as [|e l] eqn:He.
  { exists (signals (db w)), []. rewrite app_nil_r. destruct w as [[] ? ?]; cbn. done. }
  destruct (forallb resolved (e :: l)).
  - eexists _, [_]. cbn. split; [reflexivity|]. repeat constructor.
  - exists (signals (db w)), []. rewrite app_nil_r. destruct w as [[] ? ?]; cbn. done.
Qed.

Ltac step_signal_update :=
  match goal with
  | |- context [_update_signal_status ?e ?s ?w0] =>
    let sigs := fresh "sigs" in
    let acts := fresh "acts" in
    let Heq := fresh "Heq" in
    let Hq := fresh "Hquiet" in
    destruct (update_signal_status_frame e s w0) as (sigs & acts & Heq & Hq);
    rewrite Heq; clear Heq
  end.

Lemma map_alter_view (g : TradeExecution -> TradeExecution) (i : nat)
    (l : list TradeExecution) :
  (forall e, fan_view (g e) = fan_view e) ->
  map fan_view (alter g i l) = map fan_view l.
Proof.
  intros Hg. revert i. induction l as [|x l IH]; intros [|i]; cbn; try reflexivity.
  - by rewrite Hg.
  - by rewrite IH.
Qed.

Ltac view_done :=
  cbn; rewrite ?map_alter_view by (intros; reflexivity); reflexivity.

Ltac close_run Hrow :=
  rewrite ?list_lookup_alter_eq, ?Hrow; cbn;
  repeat step_signal_update; cbn;
  eexists _, _, _; split; [reflexivity|]; cbn;
  rewrite <- !app_assoc; cbn; split; [reflexivity|]; split;
  [ repeat first [ assumption | apply List.Forall_nil
                 | apply List.Forall_cons; [reflexivity|]
                 | apply Forall_app; split ]
  | split; [rewrite !list_lookup_alter_eq, Hrow; reflexivity | view_done] ].

Section OrderPlacement.
Variables (env : Env) (eid : nat) (p : ParsedSignal)
          (prefs : option UserPreferences) (w : World)
          (ex : TradeExecution) (bc : BrokerConfig).
Hypothesis Hrow : executions (db w) !! eid = Some ex.
Hypothesis Hvalid : fst (_validate_signal p) = true.
Hypothesis Hpw :
  truthy_str (mt5_password env (ex_user_id ex) (ex_broker_config_id ex)) = true.
Hypothesis Hbc : broker_configs (db w) !! ex_broker_config_id ex = Some bc.
Hypothesis Hlogin :
  mt5_login_ok (mt5 env) (login bc)
    (default EmptyString (mt5_password env (ex_user_id ex) (ex_broker_config_id ex)))
    (server bc) = true.

Let policy := entry_policy ex p prefs (get_current_price (mt5 env) true (ex_symbol ex)).
Let plan := order_plan env eid ex (fst policy) (snd policy).

(** A run that passes validation and connects: its trace and the row it
    leaves behind. *)
Lemma process_single_execution_run :
  exists w' r tail,
    _process_single_execution env eid p prefs w = (w', inr r)
    /\ trace w' = trace w ++
         [Connect (login bc) (server bc); Quote (ex_symbol ex);
          Broadcast (ex_user_id ex) (ExecutionExecuting (N.of_nat eid) (ex_symbol ex))]
         ++ fst plan ++ tail
    /\ Forall (fun a => quiet a = true) tail
    /\ executions (db w') !! eid = Some (settled_row env ex (snd plan))
    /\ map fan_view (executions (db w')) = map fan_view (executions (db w)).
Proof.
  pose proof (validate_true_no_warnings p Hvalid) as Hw.
  pose proof (validation_exception_valid p Hvalid) as Hne.
  subst plan policy. unfold settled_row, order_plan, market_result, limit_result.
  eng_unfold. cbn. rewrite Hrow, Hne. cbn. rewrite Hw, Hvalid. cbn.
  rewrite Hpw. cbn. rewrite Hbc. cbn. rewrite Hlogin. cbn.
  destruct (entry_policy _ _ _ _) as [use_limit price]. cbn.
  destruct use_limit; cbn.
  - destruct (success (execute_limit_order _ _ _ _ _ _ _ _ _)) eqn:Hs; cbn.
    + close_run Hrow.
    + close_run Hrow.
  - destruct (success (execute_market_order _ _ _ _ _ _ _ _)) eqn:Hm; cbn.
    + rewrite ?Hm. close_run Hrow.
    + destruct (truthy_num (ex_entry_price ex)) eqn:He; cbn.
      * destruct (success (execute_limit_order _ _ _ _ _ _ _ _ _)) eqn:Hs; cbn;
          close_run Hrow.
      * rewrite ?Hm. cbn. close_run Hrow.
Qed.

Lemma process_single_execution_keys :
let w' := fst (_process_single_execution env eid p prefs w) in
List.filter key_action (new_actions w w') = List.filter key_action (fst plan)
/\ List.filter is_order (new_actions w w') = List.filter is_order (fst plan)
/\ executions (db w') !! eid = Some (settled_row env ex (snd plan)).
Proof.
destruct process_single_execution_run as (w' & r & tail & Hrun & Htr & Hq & Hfin & _).
rewrite Hrun. cbn [fst]. unfold new_actions. rewrite Htr, drop_app_length.
split; [|split; [|exact Hfin]].
- cbn. rewrite List.filter_app, (filter_quiet_key tail Hq), app_nil_r. reflexivity.
- cbn. rewrite List.filter_app, (filter_quiet_order tail Hq), app_nil_r. reflexivity.
Qed.
End OrderPlacement.

(** C1.  An execution can be EXECUTED with a ticket and yet without an actual
    entry price.  A buy whose entry range lies below the quoted ask is placed
    as a limit order; the terminal accepts it, the execution becomes
    [EXECUTED] with ticket 555, and its actual entry price stays null: the
    result of [execute_limit_order] carries ["price"], not ["entry_price"]. *)
Lemma C1_limit_order_leaves_actual_entry_null :
  let w' := fst (_process_single_execution fx_env 0 fx_buy_range None
                   (fx_world [fx_row PENDING (Some 1.0990%Q) (Some 1.0950%Q)
                                (Some 1.1100%Q)] ∅)) in
  List.filter is_order (trace w')
    = [LimitOrder "EURUSD" "buy" 1.1000%Q 1%Q (Some 1.0950%Q) (Some 1.1100%Q)]
  /\ (execution_status <$> executions (db w') !! 0%nat) = Some EXECUTED
  /\ (ticket_number <$> executions (db w') !! 0%nat) = Some (Some 555)
  /\ (actual_entry_price <$> executions (db w') !! 0%nat) = Some None.
Proof. vm_compute. repeat split. Qed.

(** ** Signal status (C2) *)

Lemma forallb_resolved_terminal (l : list TradeExecution) :
  forallb resolved l = true <->
  Forall (fun e => terminal (execution_status e) = true) l.
Proof.
  rewrite forallb_forall, List.Forall_forall. split; intros H e He.
  - specialize (H e He). unfold resolved in H. destruct (execution_status e); done.
  - specialize (H e He). unfold resolved. destruct (execution_status e); done.
Qed.

Lemma forallb_cancelled (l : list TradeExecution) :
  forallb cancelled l = true <->
  Forall (fun e => execution_status e = CANCELLED) l.
Proof.
  rewrite forallb_forall, List.Forall_forall. split; intros H e He.
  - specialize (H e He). unfold cancelled in H. destruct (execution_status e); done.
  - unfold cancelled. rewrite (H e He). done.
Qed.

(** C2 (counterexample).  The only execution of signal 7 fails because the
    terminal rejects its limit order and, with it, the fallback is not open;
    the signal becomes 'processed' although none of its executions is
    EXECUTED or CLOSED. *)
Lemma C2_all_failed_is_processed :
  let w' := fst (_process_single_execution fx_env_rejecting 0 fx_buy_range None
                   (fx_world [fx_row PENDING (Some 1.0990%Q) (Some 1.0950%Q)
                                (Some 1.1100%Q)] ∅)) in
  (status <$> signals (db w') !! 7%N) = Some "processed"
  /\ map execution_status (executions_of 7 (db w')) = [FAILED]
  /\ ~ (Forall (fun e => terminal (execution_status e) = true) (executions_of 7 (db w'))
        /\ Exists (fun e => execution_status e = EXECUTED \/ execution_status e = CLOSED)
             (executions_of 7 (db w'))).
Proof.
  vm_compute. split; [reflexivity|]. split; [reflexivity|].
  intros [_ H]. inversion H as [? ? [Hx|Hx]|? ? Hx]; subst; try discriminate.
  inversion Hx.
Qed.

(** C2 (amended).  When the status recomputation runs on a signal that has
    executions: if all of them are terminal the status becomes 'rejected'
    exactly when all are CANCELLED and 'processed' exactly when at least one
    is not CANCELLED (FAILED counts); otherwise nothing changes. *)
Theorem C2_signal_status_after_update (env : Env) (sid : N) (w : World) (sg : Signal) :
  signals (db w) !! sid = Some sg ->
  executions_of sid (db w) <> [] ->
  let exs := executions_of sid (db w) in
  let w' := fst (_update_signal_status env sid w) in
  (Forall (fun e => terminal (execution_status e) = true) exs ->
   exists sg', signals (db w') !! sid = Some sg'
     /\ (status sg' = "rejected" <-> Forall (fun e => execution_status e = CANCELLED) exs)
     /\ (status sg' = "processed" <-> Exists (fun e => execution_status e <> CANCELLED) exs))
  /\ (~ Forall (fun e => terminal (execution_status e) = true) exs -> w' = w).
Proof.
  intros Hsg Hne exs w'. subst exs w'. unfold _update_signal_status.
  eng_unfold. cbn. rewrite Hsg.
  destruct (executions_of sid (db w)) as [|e l] eqn:He; [done|].
  destruct (forallb resolved (e :: l)) eqn:Hres.
  - split; [|intros Hn; exfalso; apply Hn; by apply forallb_resolved_terminal].
    intros _. cbn -[forallb]. rewrite lookup_insert_eq. eexists.
    split; [reflexivity|]. cbn -[forallb].
    destruct (forallb cancelled (e :: l)) eqn:Hc.
    + apply forallb_cancelled in Hc. split; [split; [intros _; exact Hc | reflexivity]|].
      split; [discriminate|].
      intros Hex. apply List.Exists_exists in Hex as (x & Hx & Hnc).
      rewrite List.Forall_forall in Hc. exfalso. apply Hnc, Hc, Hx.
    + assert (Hnc : ~ Forall (fun e0 => execution_status e0 = CANCELLED) (e :: l)).
      { intros Hf. apply forallb_cancelled in Hf. congruence. }
      split; [split; [discriminate | intros Hf; contradiction]|].
      split; [|reflexivity]. intros _.
      apply not_Forall_Exists in Hnc; [exact Hnc|]. intros x.
      destruct (execution_status x); (by left) || (right; done).
  - split.
    + intros Hf. apply forallb_resolved_terminal in Hf. congruence.
    + intros _. cbn. reflexivity.
Qed.

Lemma C2_signal_status_after_update_witness :
  exists sg', signals (db (fst (_update_signal_status fx_env 7
                     (fx_world [fx_row CANCELLED None None None] ∅)))) !! 7%N = Some sg'
    /\ (status sg' = "rejected" <->
        Forall (fun e => execution_status e = CANCELLED)
          (executions_of 7 (fx_db [fx_row CANCELLED None None None] ∅))).
Proof.
  destruct (C2_signal_status_after_update fx_env 7
              (fx_world [fx_row CANCELLED None None None] ∅)
              {| sig_user_id := 1; status := "pending"; processed_at := None |})
    as [H _]; [reflexivity | discriminate |].
  destruct H as (sg' & Hl & Hr & _); [repeat constructor|].
  exists sg'. split; [exact Hl | exact Hr].
Defined.

(** ** Pre-trade validation (C3) *)

Lemma validation_warnings_not_broker (p : ParsedSignal) :
  Forall (fun a => is_broker_op a = false) (snd (_validate_signal p)).
Proof.
  unfold _validate_signal, orientation_warning.
  repeat match goal with |- context [if ?b then _ else _] => destruct b end;
    cbn; repeat constructor.
Qed.

(** C3 (counterexample).  Scenario 4 (buy at 1.1000, SL 1.1100, TP 1.0900)
    fails validation and the execution becomes FAILED, but the recorded error
    string does not contain "invalid price levels". *)
Lemma C3_recorded_error_lacks_reason :
  let w' := fst (_process_single_execution fx_env 0 fx_bad_orientation None
                   (fx_world [fx_row PENDING (Some 1.1000%Q) (Some 1.1100%Q)
                                (Some 1.0900%Q)] ∅)) in
  orientation_ok fx_bad_orientation = false
  /\ (execution_status <$> executions (db w') !! 0%nat) = Some FAILED
  /\ ~ (exists e msg, executions (db w') !! 0%nat = Some e
          /\ execution_error e = Some msg
          /\ contains "invalid price levels" msg = true).
Proof.
  vm_compute. split; [reflexivity|]. split; [reflexivity|].
  intros (e & msg & He & Hm & Hc). inversion He; subst e. cbn in Hm.
  inversion Hm; subst msg. vm_compute in Hc. discriminate.
Qed.

(** C3 (amended).  A call of the validator either returns or, when the
    confidence entry holds None, raises.  An execution whose signal is
    turned down by a call that returns becomes FAILED with the fixed error
    string "Signal validation failed"; the run adds to the trace only the
    warning of the validator, so no broker operation is invoked; for an
    orientation violation that warning, not the recorded error, carries the
    text "invalid price levels".  When the call raises, the execution
    becomes FAILED with the text of the exception, which is also broadcast
    as an error, and no broker operation is invoked either. *)
Theorem C3_validation_failure (env : Env) (eid : nat) (p : ParsedSignal)
    (prefs : option UserPreferences) (w : World) (ex : TradeExecution) :
  executions (db w) !! eid = Some ex ->
  let w' := fst (_process_single_execution env eid p prefs w) in
  (validation_exception p = None -> fst (_validate_signal p) = false ->
   executions (db w') !! eid
     = Some (set_error "Signal validation failed" (set_status FAILED ex))
   /\ trace w' = trace w ++ snd (_validate_signal p)
   /\ Forall (fun a => is_broker_op a = false) (snd (_validate_signal p))
   /\ (truthy_str (symbol p) = true -> truthy_str (signal_type p) = true ->
       confidence_ok p = true ->
       exists template args,
         snd (_validate_signal p) = [LogWarning template args]
         /\ contains "invalid price levels" template = true))
  /\ (forall e, validation_exception p = Some e ->
      e = none_lt_float
      /\ executions (db w') !! eid = Some (set_error e (set_status FAILED ex))
      /\ Forall (fun a => is_broker_op a = false) (new_actions w w')
      /\ Broadcast (ex_user_id ex) (ErrorMessage (N.of_nat eid) e) ∈ new_actions w w').
Proof.
  intros Hex w'. subst w'. split.
  - intros Hne Hv. split; [|split; [|split]].
    + eng_unfold. cbn. rewrite Hex, Hne. cbn. rewrite Hv. cbn.
      rewrite list_lookup_alter_eq, Hex. reflexivity.
    + eng_unfold. cbn. rewrite Hex, Hne. cbn. rewrite Hv. cbn. reflexivity.
    + apply validation_warnings_not_broker.
    + intros Hs Ht Hc. revert Hv. unfold _validate_signal. rewrite Hs, Ht, Hc. cbn.
      destruct (orientation_ok p); cbn; [discriminate|]. intros _.
      unfold orientation_warning.
      destruct (bool_decide (signal_type p = Some "buy")); eexists _, _;
        (split; [reflexivity|]); vm_compute; reflexivity.
  - intros e Hne. split.
    { revert Hne. unfold validation_exception.
      destruct (_ && _)%bool; [|discriminate].
      destruct (confidence_score p); [discriminate|].
      destruct (confidence_is_none p); [|discriminate]. by intros [= <-]. }
    unfold new_actions. eng_unfold. cbn. rewrite Hex, Hne. cbn. rewrite Hex. cbn.
    step_signal_update. cbn.
    split; [by rewrite !list_lookup_alter_eq, Hex|].
    rewrite <- !app_assoc, drop_app_length. split.
    + apply Forall_cons. split; [reflexivity|].
      apply Forall_app. split; [|by repeat constructor].
      eapply Forall_impl; [exact Hquiet|]. intros a Ha. unfold quiet in Ha.
      by destruct (is_broker_op a).
    + apply elem_of_cons. right. apply elem_of_app. right. by left.
Qed.

Lemma C3_validation_failure_witness :
  (execution_status <$>
     executions (db (fst (_process_single_execution fx_env 0 fx_bad_orientation None
                            (fx_world [fx_row PENDING (Some 1.1000%Q) (Some 1.1100%Q)
                                         (Some 1.0900%Q)] ∅)))) !! 0%nat)
  = Some FAILED.
Proof.
  destruct (C3_validation_failure fx_env 0 fx_bad_orientation None
              (fx_world [fx_row PENDING (Some 1.1000%Q) (Some 1.1100%Q)
                           (Some 1.0900%Q)] ∅)
              (fx_row PENDING (Some 1.1000%Q) (Some 1.1100%Q) (Some 1.0900%Q)))
    as [H _]; [reflexivity|].
  destruct H as [H _]; [reflexivity | reflexivity |].
  rewrite H. reflexivity.
Defined.

(** ** Entry pricing and fallback (C4, C5) *)

Lemma num_or_truthy (entry : Q) :
  truthy_num (Some entry) = true -> num_or (Some entry) 0%Q = entry.
Proof. cbn. destruct (Qeq_bool entry 0); [discriminate | reflexivity]. Qed.




(** C5.  When the engine places a market order, that order fails and the
    execution has a planned entry, the only further order is one limit order
    at the planned entry, announced by a 'falling_back' broadcast placed
    between the two; when that limit order fails the execution ends FAILED.
    When the engine places a limit order directly it is the only order, and
    when it fails the execution ends FAILED. *)
Theorem C5_market_to_limit_fallback (env : Env) (eid : nat) (p : ParsedSignal)
    (prefs : option UserPreferences) (w : World) (ex : TradeExecution)
    (bc : BrokerConfig) :
  executions (db w) !! eid = Some ex ->
  fst (_validate_signal p) = true ->
  truthy_str (mt5_password env (ex_user_id ex) (ex_broker_config_id ex)) = true ->
  broker_configs (db w) !! ex_broker_config_id ex = Some bc ->
  mt5_login_ok (mt5 env) (login bc)
    (default EmptyString (mt5_password env (ex_user_id ex) (ex_broker_config_id ex)))
    (server bc) = true ->
  let policy :=
    entry_policy ex p prefs (get_current_price (mt5 env) true (ex_symbol ex)) in
  let w' := fst (_process_single_execution env eid p prefs w) in
  let keys := List.filter key_action (new_actions w w') in
  (fst policy = false -> success (market_result env ex) = false ->
   forall entry, ex_entry_price ex = Some entry -> truthy_num (Some entry) = true ->
     keys = [market_action ex;
             Broadcast (ex_user_id ex)
               (ExecutionFallingBack (N.of_nat eid) (Some entry));
             limit_action ex entry]
     /\ (success (limit_result env ex entry (signal_comment ex +:+ " (Fallback)"))
           = false ->
         (execution_status <$> executions (db w') !! eid) = Some FAILED))
  /\ (fst policy = true ->
      keys = [limit_action ex (snd policy)]
      /\ (success (limit_result env ex (snd policy) (signal_comment ex)) = false ->
          (execution_status <$> executions (db w') !! eid) = Some FAILED)).
Proof.
  intros Hrow Hvalid Hpw Hbc Hlogin policy w' keys. subst keys w'.
  destruct (process_single_execution_keys env eid p prefs w ex bc
              Hrow Hvalid Hpw Hbc Hlogin) as (-> & _ & ->).
  fold policy. destruct policy as [use_limit price]. cbn [fst snd].
  unfold order_plan, settled_row. split.
  - intros -> Hm entry He Ht. rewrite Hm, He, Ht. cbn [negb andb fst snd].
    rewrite (num_or_truthy entry Ht). split; [reflexivity|].
    intros ->. reflexivity.
  - intros ->. cbn [fst snd]. split; [reflexivity|].
    intros ->. reflexivity.
Qed.

Lemma C5_market_to_limit_fallback_witness :
  List.filter key_action
    (new_actions
       (fx_world [fx_row PENDING (Some 1.1000%Q) (Some 1.0950%Q) (Some 1.1100%Q)] ∅)
       (fst (_process_single_execution fx_env_rejecting 0 fx_buy_single None
               (fx_world [fx_row PENDING (Some 1.1000%Q) (Some 1.0950%Q)
                            (Some 1.1100%Q)] ∅))))
  = [market_action (fx_row PENDING (Some 1.1000%Q) (Some 1.0950%Q) (Some 1.1100%Q));
     Broadcast 1 (ExecutionFallingBack 0 (Some 1.1000%Q));
     limit_action (fx_row PENDING (Some 1.1000%Q) (Some 1.0950%Q) (Some 1.1100%Q))
       1.1000%Q].
Proof.
  destruct (C5_market_to_limit_fallback fx_env_rejecting 0 fx_buy_single None
              (fx_world [fx_row PENDING (Some 1.1000%Q) (Some 1.0950%Q)
                           (Some 1.1100%Q)] ∅)
              (fx_row PENDING (Some 1.1000%Q) (Some 1.0950%Q) (Some 1.1100%Q))
              {| login := 4242; server := "Demo-Server" |})
    as [Hfallback _]; [reflexivity .. |].
  destruct (Hfallback eq_refl eq_refl 1.1000%Q eq_refl eq_refl) as [Hkeys _].
  exact Hkeys.
Defined.

(** ** Confirmation (C10) *)





(** ** Notification hub (C9) *)

Lemma deliveries_app (ws : ConnectionManager.WebSocket)
    (a b : list ConnectionManager.HubEvent) :
  deliveries ws (a ++ b) = (deliveries ws a + deliveries ws b)%nat.
Proof. unfold deliveries. rewrite List.filter_app, length_app. reflexivity. Qed.

Lemma deliveries_send_to send prefix msg (ws x : ConnectionManager.WebSocket) :
  deliveries ws (ConnectionManager.send_to send prefix msg x)
  = match send x msg with
    | None => if N.eqb x ws then 1%nat else 0%nat
    | Some _ => 0%nat
    end.
Proof.
  unfold ConnectionManager.send_to, deliveries. destruct (send x msg); cbn; [reflexivity|].
  destruct (N.eqb x ws); reflexivity.
Qed.

Lemma deliveries_bound send prefix msg (ws : ConnectionManager.WebSocket)
    (conns : list ConnectionManager.WebSocket) :
  (deliveries ws (concat (map (ConnectionManager.send_to send prefix msg) conns))
   <= length (List.filter (N.eqb ws) conns))%nat.
Proof.
  induction conns as [|x conns IH]; [cbn; lia|].
  cbn [map concat List.filter]. rewrite deliveries_app, deliveries_send_to.
  rewrite (N.eqb_sym ws x).
  destruct (send x msg), (N.eqb x ws); cbn [length]; lia.
Qed.

Lemma filter_eqb_NoDup (ws : ConnectionManager.WebSocket)
    (conns : list ConnectionManager.WebSocket) :
  NoDup conns -> (length (List.filter (N.eqb ws) conns) <= 1)%nat.
Proof.
  induction 1 as [|x l Hx _ IH]; [cbn; lia|].
  cbn. destruct (N.eqb ws x) eqn:E; [|exact IH].
  apply N.eqb_eq in E. subst x. cbn.
  assert (List.filter (N.eqb ws) l = []) as ->; [|cbn; lia].
  clear IH. induction l as [|y l IH]; [reflexivity|].
  cbn. destruct (N.eqb ws y) eqn:E.
  - apply N.eqb_eq in E. subst y. exfalso. apply Hx. left.
  - apply IH. intros Hin. apply Hx. right. exact Hin.
Qed.

(** C9 (counterexample).  Sending to session 10 raises; the hub logs the
    error, yet session 10 is still registered for user 1 after the
    broadcast. *)
Lemma C9_failed_session_stays_registered :
  fx_send_text 10%N "{}" = Some "connection closed"
  /\ snd (ConnectionManager.broadcast fx_send_text fx_registry "{}" (Some 1%N))
     = [ConnectionManager.HubLogError "Error sending WS message: connection closed";
        ConnectionManager.Sent 11%N "{}"]
  /\ fst (ConnectionManager.broadcast fx_send_text fx_registry "{}" (Some 1%N)) !! 1%N
     = Some [10%N; 11%N].
Proof. vm_compute. repeat split. Qed.

(** C9 (amended).  A broadcast to a user sends to each registered session
    entry of that user once: a session receives the message at most as often
    as it is registered, hence at most once when no session is registered
    twice; a send error is logged and the remaining sessions are still
    served; the registry is left as it was. *)
Theorem C9_broadcast_to_user (send_text : ConnectionManager.WebSocket -> string -> option string)
    (active : gmap N (list ConnectionManager.WebSocket)) (json_message : string) (uid : N)
    (conns : list ConnectionManager.WebSocket) :
  active !! uid = Some conns ->
  let result := ConnectionManager.broadcast send_text active json_message (Some uid) in
  fst result = active
  /\ (forall ws, (deliveries ws (snd result)
                  <= length (List.filter (N.eqb ws) conns))%nat)
  /\ (NoDup conns -> forall ws, (deliveries ws (snd result) <= 1)%nat)
  /\ (forall ws, ws ∈ conns ->
      match send_text ws json_message with
      | None => ConnectionManager.Sent ws json_message ∈ snd result
      | Some e => ConnectionManager.HubLogError ("Error sending WS message: " +:+ e) ∈ snd result
      end)
  /\ (forall ws m, ConnectionManager.Sent ws m ∈ snd result -> ws ∈ conns /\ m = json_message).
Proof.
  intros Hconns result. subst result. unfold ConnectionManager.broadcast. rewrite Hconns.
  cbn [fst snd]. split; [reflexivity|]. split; [|split; [|split]].
  - intros ws. apply deliveries_bound.
  - intros Hnd ws. etrans; [apply deliveries_bound | by apply filter_eqb_NoDup].
  - intros ws Hin.
    assert (Hsub : forall ev,
              ev ∈ ConnectionManager.send_to send_text "Error sending WS message: "
                     json_message ws ->
              ev ∈ concat (map (ConnectionManager.send_to send_text
                                  "Error sending WS message: " json_message) conns)).
    { intros ev Hev. apply list_elem_of_In, in_concat. eexists. split.
      - apply in_map, list_elem_of_In, Hin.
      - apply list_elem_of_In, Hev. }
    unfold ConnectionManager.send_to in Hsub.
    destruct (send_text ws json_message); apply Hsub; left.
  - intros ws m Hin. apply list_elem_of_In, in_concat in Hin as (evs & Hevs & Hin).
    apply in_map_iff in Hevs as (x & <- & Hx). unfold ConnectionManager.send_to in Hin.
    destruct (send_text x json_message); cbn in Hin.
    + destruct Hin as [Hin|[]]. discriminate.
    + destruct Hin as [Hin|[]]. inversion Hin; subst.
      split; [apply list_elem_of_In, Hx | reflexivity].
Qed.

Lemma C9_broadcast_to_user_witness :
  (deliveries 11%N
     (snd (ConnectionManager.broadcast fx_send_text fx_registry "{}" (Some 1%N)))
   <= 1)%nat.
Proof.
  destruct (C9_broadcast_to_user fx_send_text fx_registry "{}" 1%N [10%N; 11%N])
    as (_ & _ & Hn & _); [reflexivity|].
  apply Hn. apply (bool_decide_unpack _). vm_compute. exact I.
Defined.

(** ** Classifier and extractor (C8) *)

(** C8 (counterexample).  Both texts name EURUSD and pass the price-structure
    test, so they are classified actionable.  For the first the parser finds
    a stop loss but neither an entry price nor an entry range (the range
    "1-3" fails the ratio test and no number is significant); for the second
    it finds no stop loss and no take profit either. *)
Lemma C8_actionable_without_prices :
  (fst (classify_message "EURUSD 1-3 sl 1.5") = ACTIONABLE_SIGNAL
   /\ message_category (parse_signal None "EURUSD 1-3 sl 1.5") = Some ACTIONABLE_SIGNAL
   /\ entry_price (parsed (parse_signal None "EURUSD 1-3 sl 1.5")) = None
   /\ entry_range (parsed (parse_signal None "EURUSD 1-3 sl 1.5")) = [])
  /\ (fst (classify_message "EURUSD 1-3 sla1.5") = ACTIONABLE_SIGNAL
      /\ message_category (parse_signal None "EURUSD 1-3 sla1.5") = Some ACTIONABLE_SIGNAL
      /\ stop_loss (parsed (parse_signal None "EURUSD 1-3 sla1.5")) = None
      /\ take_profits (parsed (parse_signal None "EURUSD 1-3 sla1.5")) = []).
Proof. vm_compute. repeat split. Qed.

(** C8 (amended).  The category of every text is one of the three values.
    When it is actionable_signal, a symbol is resolved for the text and the
    price-structure test holds, and the record the heuristic parser returns,
    when price extraction does not raise, is marked actionable and carries
    that symbol. *)
Theorem C8_classifier_categories (message_text : string) :
  let category := fst (classify_message message_text) in
  (category = ACTIONABLE_SIGNAL \/ category = MODIFICATION \/ category = COMMENTARY)
  /\ (category = ACTIONABLE_SIGNAL ->
      _extract_symbol message_text <> None
      /\ _has_price_structure message_text = true
      /\ forall r, _parse_with_heuristics message_text = Returned r ->
           symbol r = _extract_symbol message_text
           /\ parse_signal None message_text
              = {| parsed := r; parsing_method := "heuristic";
                   message_category := Some ACTIONABLE_SIGNAL;
                   modification_type := None; is_actionable := Some true |}).
Proof.
  intros category. subst category. split.
  - destruct (fst (classify_message message_text)); auto.
  - intros Hact.
    assert (Hcls : classify_message message_text = (ACTIONABLE_SIGNAL, None)
                   /\ _extract_symbol message_text <> None
                   /\ _has_price_structure message_text = true).
    { revert Hact. unfold classify_message.
      destruct (existsb _ commentary_patterns); [discriminate|].
      destruct (first_modification _); [discriminate|].
      destruct (bool_decide (_extract_symbol message_text <> None)) eqn:Hs;
        [|discriminate].
      destruct (_has_price_structure message_text); [|discriminate].
      intros _. apply bool_decide_eq_true in Hs. auto. }
    destruct Hcls as (Hcls & Hsym & Hprices).
    split; [exact Hsym|]. split; [exact Hprices|].
    intros r Hr. split.
    + revert Hr. unfold _parse_with_heuristics.
      destruct (_extract_prices message_text); [|discriminate].
      intros [= <-]. reflexivity.
    + unfold parse_signal. rewrite Hr, Hcls. reflexivity.
Qed.

Lemma C8_classifier_categories_witness :
  symbol (parsed (parse_signal None "EURUSD buy 1.1000 sl 1.0950 tp 1.1100"))
  = _extract_symbol "EURUSD buy 1.1000 sl 1.0950 tp 1.1100".
Proof.
  destruct (C8_classifier_categories "EURUSD buy 1.1000 sl 1.0950 tp 1.1100")
    as [_ H].
  destruct H as (_ & _ & H); [vm_compute; reflexivity|].
  destruct (_parse_with_heuristics "EURUSD buy 1.1000 sl 1.0950 tp 1.1100")
    as [r|] eqn:Hr; [|vm_compute in Hr; discriminate].
  destruct (H r eq_refl) as [Hs Hp]. rewrite Hp. exact Hs.
Defined.

(** ** Fan-out (C6) *)


Arguments _process_single_execution : simpl never.



Section FanOut.
Variables (env : Env) (uid sid bid : N) (p : ParsedSignal) (volume : Q)
          (sym side : string).
Hypothesis Hsym : symbol p = Some sym.
Hypothesis Hside : signal_type p = Some side.


End FanOut.





(** ** Position synchronizer (C7) *)

Lemma alter_fixed (f : TradeExecution -> TradeExecution) (i : nat)
    (l : list TradeExecution) (e : TradeExecution) :
  l !! i = Some e -> f e = e -> alter f i l = l.
Proof.
  revert i. induction l as [|x l IH]; intros [|i] H Hf; cbn in *; try done.
  - inversion H; subst. by rewrite Hf.
  - by rewrite (IH i).
Qed.

Lemma alter_at (f g : TradeExecution -> TradeExecution) (i : nat)
    (l : list TradeExecution) (e : TradeExecution) :
  l !! i = Some e -> f e = g e -> alter f i l = alter g i l.
Proof.
  revert i. induction l as [|x l IH]; intros [|i] H Hf; cbn in *; try done.
  - inversion H; subst. by rewrite Hf.
  - by rewrite (IH i).
Qed.

Arguments get_history_deals : simpl never.

(** One step of the loop on a connected executor. *)
Lemma sync_execution_step (env : Env) (uid : N) (tks : gmap Z Position)
    (eid : nat) (w : World) (e : TradeExecution) :
  is_connected w = true ->
  executions (db w) !! eid = Some e ->
  sync_execution env uid tks eid w
  = ({| db := with_executions (db w)
                (alter (synced_row env tks) eid (executions (db w)));
        is_connected := true;
        trace := trace w ++ sync_actions env uid tks eid e |}, inr tt).
Proof.
  intros Hc Hrow. unfold sync_execution, sync_actions.
  unfold update_execution, read_execution, broadcast, emit, set_db, get_world.
  unfold mbind, eng_mbind, eng_bind, mret, eng_mret, eng_ret.
  destruct w as [d c t]. cbn in *. subst c. rewrite Hrow.
  destruct (truthy_int (ticket_number e)) eqn:Htk; cbn.
  2:{ rewrite (alter_fixed (synced_row env tks) eid _ e Hrow), app_nil_r.
      - by destruct d.
      - unfold synced_row. by rewrite Htk. }
  destruct (tks !! default 0 (ticket_number e)) as [pos|] eqn:Hp; cbn.
  - rewrite (alter_at (synced_row env tks) (set_profit_loss (pos_profit pos))
               eid _ e Hrow); [reflexivity|].
    unfold synced_row. by rewrite Htk, Hp.
  - destruct (get_history_deals (mt5 env) true (default 0 (ticket_number e)))
      as [deal|] eqn:Hd; cbn.
    + rewrite <- !app_assoc. cbn.
      rewrite (alter_at (synced_row env tks) (record_closure deal) eid _ e Hrow);
        [reflexivity|].
      unfold synced_row. by rewrite Htk, Hp, Hd.
    + rewrite <- !app_assoc. cbn.
      rewrite (alter_fixed (synced_row env tks) eid _ e Hrow).
      * by destruct d.
      * unfold synced_row. by rewrite Htk, Hp, Hd.
Qed.

Lemma sync_actions_events (env : Env) (uid : N) (tks : gmap Z Position)
    (eid : nat) (e : TradeExecution) (a : Action) (i : N) :
  a ∈ sync_actions env uid tks eid e -> position_event_of a = Some i ->
  i = N.of_nat eid.
Proof.
  unfold sync_actions. intros Hin Hev.
  destruct (negb _); [by apply elem_of_nil in Hin|].
  destruct (tks !! _).
  - apply list_elem_of_singleton in Hin. subst a. cbn in Hev. congruence.
  - destruct (get_history_deals _ _ _); cbn in Hin;
      repeat (apply elem_of_cons in Hin as [Hin|Hin];
              [subst a; cbn in Hev; congruence|]);
      by apply elem_of_nil in Hin.
Qed.

Section SyncLoop.
Variables (env : Env) (uid : N) (tks : gmap Z Position).

Lemma sync_loop_spec (items : list nat) :
  forall w,
    is_connected w = true ->
    Forall (fun i => is_Some (executions (db w) !! i)) items ->
    NoDup items ->
    exists w' acts,
      sync_each env uid tks items w = (w', inr tt)
      /\ broker_configs (db w') = broker_configs (db w)
      /\ length (executions (db w')) = length (executions (db w))
      /\ trace w' = trace w ++ acts
      /\ (forall j, j ∉ items -> executions (db w') !! j = executions (db w) !! j)
      /\ (forall j e, j ∈ items -> executions (db w) !! j = Some e ->
            executions (db w') !! j = Some (synced_row env tks e)
            /\ forall a, a ∈ sync_actions env uid tks j e -> a ∈ acts)
      /\ (forall a i, a ∈ acts -> position_event_of a = Some i ->
            exists j, i = N.of_nat j /\ j ∈ items).
Proof.
  induction items as [|i rest IH]; intros w Hc Hvalid Hnd.
  - exists w, []. cbn. rewrite app_nil_r.
    do 5 (split; [done|]). split.
    + intros j e Hj. by apply elem_of_nil in Hj.
    + intros a i Ha. by apply elem_of_nil in Ha.
  - apply Forall_cons in Hvalid as [[e He] Hvalid].
    apply NoDup_cons in Hnd as [Hi Hnd].
    cbn [sync_each]. unfold mbind, eng_mbind, eng_bind.
    rewrite (sync_execution_step env uid tks i w e Hc He).
    set (w1 := {| db := _; is_connected := true; trace := _ |}).
    destruct (IH w1) as (w' & acts & Hrun & Hbc & Hlen & Htr & Hout & Hin & Hev).
    { reflexivity. }
    { eapply Forall_impl; [exact Hvalid|]. intros j Hj. cbn.
      apply lookup_lt_is_Some. rewrite length_alter. by apply lookup_lt_is_Some. }
    { exact Hnd. }
    exists w', (sync_actions env uid tks i e ++ acts).
    rewrite Hrun. split; [reflexivity|]. split; [by rewrite Hbc|].
    split; [by rewrite Hlen; cbn; rewrite length_alter|].
    split; [by rewrite Htr; cbn; rewrite app_assoc|].
    split; [|split].
    + intros j Hj. apply not_elem_of_cons in Hj as [Hji Hj].
      rewrite (Hout j Hj). cbn. by apply list_lookup_alter_ne.
    + intros j e' Hj He'. apply elem_of_cons in Hj as [->|Hj].
      * rewrite He in He'. inversion He'; subst e'.
        rewrite (Hout i Hi). cbn. rewrite list_lookup_alter_eq, He.
        split; [reflexivity|]. intros a Ha. apply elem_of_app. by left.
      * assert (Hji : i <> j) by (intros ->; contradiction).
        destruct (Hin j e' Hj) as [Hrow Hacts].
        { cbn. rewrite list_lookup_alter_ne by done. exact He'. }
        split; [exact Hrow|]. intros a Ha. apply elem_of_app. right. by apply Hacts.
    + intros a k Ha Hk. apply elem_of_app in Ha as [Ha|Ha].
      * exists i. split; [|by left]. eapply sync_actions_events; eauto.
      * destruct (Hev a k Ha Hk) as (j & -> & Hj). exists j. split; [done|by right].
Qed.
End SyncLoop.

Arguments sync_each : simpl never.

(** One broker account: rows outside the group are untouched, position
    events concern rows of the group, and with an available session every
    row of the group is brought up to date. *)
Lemma sync_broker_positions_spec (env : Env) (bid : N) (items : list nat) (w : World) :
  Forall (fun i => is_Some (executions (db w) !! i)) items ->
  NoDup items ->
  exists w' acts,
    _sync_broker_positions env bid items w = (w', inr tt)
    /\ broker_configs (db w') = broker_configs (db w)
    /\ length (executions (db w')) = length (executions (db w))
    /\ trace w' = trace w ++ acts
    /\ (forall j, j ∉ items -> executions (db w') !! j = executions (db w) !! j)
    /\ (forall a i, a ∈ acts -> position_event_of a = Some i ->
          exists j, i = N.of_nat j /\ j ∈ items)
    /\ (forall bc first rest ex0, items = first :: rest ->
        executions (db w) !! first = Some ex0 ->
        broker_configs (db w) !! bid = Some bc ->
        session_available env (ex_user_id ex0) bid bc ->
        forall j e, j ∈ items -> executions (db w) !! j = Some e ->
          executions (db w') !! j
            = Some (synced_row env (tickets_of (positions_get (mt5 env))) e)
          /\ forall a,
               a ∈ sync_actions env (ex_user_id ex0)
                     (tickets_of (positions_get (mt5 env))) j e ->
               a ∈ acts).
Proof.
  intros Hvalid Hnd.
  unfold _sync_broker_positions, sync_broker_body, try_except.
  destruct items as [|first rest].
  { unfold raise, emit. cbn. eexists _, _. split; [reflexivity|]. cbn.
    do 4 (split; [done|]). split.
    - intros a i Ha. apply list_elem_of_singleton in Ha. by subst a.
    - intros bc f r e0 Heq. discriminate. }
  pose proof Hvalid as Hvalid'.
  apply Forall_cons in Hvalid' as [[ex0 Hex0] _].
  unfold read_execution, connect, emit, set_connected, get_world.
  unfold mbind, eng_mbind, eng_bind, mret, eng_mret, eng_ret.
  rewrite Hex0.
  destruct (broker_configs (db w) !! bid) as [bc|] eqn:Hbc.
  2:{ exists w, []. rewrite app_nil_r. do 5 (split; [done|]). split.
      - intros a i Ha. by apply elem_of_nil in Ha.
      - intros bc f r e0 _ _ Hbc'. discriminate. }
  destruct (truthy_str (mt5_password env (ex_user_id ex0) bid)) eqn:Hpw; cbn [negb].
  2:{ exists w, []. rewrite app_nil_r. do 5 (split; [done|]). split.
      - intros a i Ha. by apply elem_of_nil in Ha.
      - intros bc' f r e0 [= <- <-] He0 _ [Hp _].
        rewrite Hex0 in He0. inversion He0; subst e0. congruence. }
  destruct (mt5_login_ok (mt5 env) (login bc)
              (default EmptyString (mt5_password env (ex_user_id ex0) bid)) (server bc))
    eqn:Hlogin; cbn.
  2:{ eexists _, _. split; [reflexivity|]. cbn. do 4 (split; [done|]). split.
      - intros a i Ha. apply list_elem_of_singleton in Ha. by subst a.
      - intros bc' f r e0 [= <- <-] He0 [= <-] [_ Hl].
        rewrite Hex0 in He0. inversion He0; subst e0. congruence. }
  match goal with
  | |- context [sync_each ?e ?u ?t ?it ?w0] =>
    destruct (sync_loop_spec e u t it w0)
      as (w' & acts & Hrun & Hbc' & Hlen & Htr & Hout & Hin & Hev);
      [reflexivity | exact Hvalid | exact Hnd | rewrite Hrun]
  end.
  eexists w', (_ :: _ :: acts). split; [reflexivity|].
  split; [exact Hbc'|]. split; [exact Hlen|].
  split; [rewrite Htr; cbn; by rewrite <- !app_assoc|].
  split; [exact Hout|]. split.
  - intros a i Ha Hi.
    apply elem_of_cons in Ha as [->|Ha]; [discriminate|].
    apply elem_of_cons in Ha as [->|Ha]; [discriminate|].
    eauto.
  - intros bc' f r e0 [= <- <-] He0 _ _ j e Hj He.
    rewrite Hex0 in He0. inversion He0; subst e0.
    destruct (Hin j e Hj He) as [Hrow Hacts].
    split; [exact Hrow|]. intros a Ha.
    apply elem_of_cons; right. apply elem_of_cons; right. by apply Hacts.
Qed.

Arguments _sync_broker_positions : simpl never.

Lemma sync_groups_spec (env : Env) (groups : list (N * list nat)) :
  forall w,
    Forall (fun i => is_Some (executions (db w) !! i)) (concat (map snd groups)) ->
    NoDup (concat (map snd groups)) ->
    exists w' acts,
      sync_groups env groups w = (w', inr tt)
      /\ broker_configs (db w') = broker_configs (db w)
      /\ length (executions (db w')) = length (executions (db w))
      /\ trace w' = trace w ++ acts
      /\ (forall j, j ∉ concat (map snd groups) ->
            executions (db w') !! j = executions (db w) !! j)
      /\ (forall a i, a ∈ acts -> position_event_of a = Some i ->
            exists j, i = N.of_nat j /\ j ∈ concat (map snd groups))
      /\ (forall bid items bc first rest ex0, (bid, items) ∈ groups ->
          items = first :: rest ->
          executions (db w) !! first = Some ex0 ->
          broker_configs (db w) !! bid = Some bc ->
          session_available env (ex_user_id ex0) bid bc ->
          forall j e, j ∈ items -> executions (db w) !! j = Some e ->
            executions (db w') !! j
              = Some (synced_row env (tickets_of (positions_get (mt5 env))) e)
            /\ forall a,
                 a ∈ sync_actions env (ex_user_id ex0)
                       (tickets_of (positions_get (mt5 env))) j e ->
                 a ∈ acts).
Proof.
  induction groups as [|[b0 items0] rest IH]; intros w Hvalid Hnd.
  - exists w, []. cbn. rewrite app_nil_r. do 5 (split; [done|]). split.
    + intros a i Ha. by apply elem_of_nil in Ha.
    + intros bid items bc f r e0 Hg. by apply elem_of_nil in Hg.
  - cbn [map concat snd] in Hvalid, Hnd.
    apply Forall_app in Hvalid as [Hv0 Hvr].
    apply NoDup_app in Hnd as (Hnd0 & Hdisj & Hndr).
    cbn [sync_groups]. unfold mbind, eng_mbind, eng_bind.
    destruct (sync_broker_positions_spec env b0 items0 w Hv0 Hnd0)
      as (w1 & acts1 & Hrun1 & Hbc1 & Hlen1 & Htr1 & Hout1 & Hev1 & Heff1).
    rewrite Hrun1.
    destruct (IH w1) as (w' & acts & Hrun & Hbc & Hlen & Htr & Hout & Hev & Heff).
    { eapply Forall_impl; [exact Hvr|]. intros j Hj. cbn in Hj.
      apply lookup_lt_is_Some. rewrite Hlen1. by apply lookup_lt_is_Some. }
    { exact Hndr. }
    exists w', (acts1 ++ acts). rewrite Hrun. split; [reflexivity|].
    split; [by rewrite Hbc, Hbc1|]. split; [by rewrite Hlen, Hlen1|].
    split; [by rewrite Htr, Htr1, app_assoc|].
    cbn [map concat snd]. split; [|split].
    + intros j Hj. apply not_elem_of_app in Hj as [Hj0 Hjr].
      by rewrite (Hout j Hjr), (Hout1 j Hj0).
    + intros a i Ha Hi. apply elem_of_app in Ha as [Ha|Ha].
      * destruct (Hev1 a i Ha Hi) as (j & -> & Hj). exists j.
        split; [done|]. apply elem_of_app. by left.
      * destruct (Hev a i Ha Hi) as (j & -> & Hj). exists j.
        split; [done|]. apply elem_of_app. by right.
    + intros bid items bc f r e0 Hg Hit Hf Hb Hs j e Hj He.
      apply elem_of_cons in Hg as [[= -> ->]|Hg].
      * destruct (Heff1 bc f r e0 Hit Hf Hb Hs j e Hj He) as [Hrow Hacts].
        split.
        -- rewrite (Hout j); [exact Hrow|]. by apply Hdisj.
        -- intros a Ha. apply elem_of_app. left. by apply Hacts.
      * assert (Hin_rest : forall k, k ∈ items -> k ∈ concat (map snd rest)).
        { intros k Hk. apply list_elem_of_In, in_concat. exists items. split.
          - apply list_elem_of_In in Hg. apply (in_map snd) in Hg. exact Hg.
          - by apply list_elem_of_In. }
        assert (Hnot0 : forall k, k ∈ items -> k ∉ items0).
        { intros k Hk Hin. by apply (Hdisj k Hin), Hin_rest. }
        assert (Hfin : f ∈ items) by (rewrite Hit; by left).
        destruct (Heff bid items bc f r e0 Hg Hit) with (j := j) (e := e)
          as [Hrow Hacts]; try done.
        { by rewrite (Hout1 f (Hnot0 f Hfin)). }
        { by rewrite Hbc1. }
        { by rewrite (Hout1 j (Hnot0 j Hj)). }
        split; [exact Hrow|]. intros a Ha.
        apply elem_of_app. right. by apply Hacts.
Qed.

(** *** The groups of a pass *)

Lemma active_executions_spec (d : DB) (i : nat) (e : TradeExecution) :
  (i, e) ∈ active_executions d <->
  executions d !! i = Some e /\ is_executed e = true.
Proof.
  unfold active_executions.
  rewrite list_elem_of_In, filter_In, <- list_elem_of_In, elem_of_lookup_imap.
  cbn. split.
  - intros [(k & y & [= -> ->] & Hl) He]. done.
  - intros [Hl He]. split; [|done]. by exists i, e.
Qed.

Lemma filter_fst_NoDup {T : Type} (P : nat * T -> bool) (l : list (nat * T)) :
  NoDup (map fst l) -> NoDup (map fst (List.filter P l)).
Proof.
  induction l as [|x l IH]; cbn; [done|].
  intros [Hx Hnd]%NoDup_cons. destruct (P x); cbn; [|by apply IH].
  apply NoDup_cons. split; [|by apply IH].
  intros Hin. apply Hx. apply list_elem_of_In, in_map_iff in Hin as (y & Hy & Hin).
  apply filter_In in Hin as [Hin _].
  apply list_elem_of_In, in_map_iff. by exists y.
Qed.

Lemma active_executions_NoDup (d : DB) : NoDup (map fst (active_executions d)).
Proof.
  unfold active_executions. apply filter_fst_NoDup.
  change (NoDup (fst <$> imap (fun i e => (i, e)) (executions d))).
  rewrite fmap_imap, (imap_ext _ (fun j _ => j)) by done.
  rewrite (imap_seq_0 (executions d) (fun j => j)), list_fmap_id.
  apply NoDup_seq.
Qed.

Lemma group_insert_perm (b : N) (i : nat) (g : list (N * list nat)) :
  concat (map snd (group_insert b i g)) ≡ₚ i :: concat (map snd g).
Proof.
  induction g as [|[b' items] g IH]; cbn; [done|].
  destruct (N.eqb b' b); cbn.
  - rewrite <- app_assoc. cbn. by rewrite Permutation_middle.
  - rewrite IH. by rewrite Permutation_middle.
Qed.

Lemma group_insert_elem (b : N) (i : nat) (g : list (N * list nat))
    (b' : N) (items : list nat) (k : nat) :
  (b', items) ∈ group_insert b i g -> k ∈ items ->
  (k = i /\ b' = b) \/ exists items0, (b', items0) ∈ g /\ k ∈ items0.
Proof.
  induction g as [|[b0 items0] g IH]; cbn.
  - intros [= -> ->]%list_elem_of_singleton Hk%list_elem_of_singleton. by left.
  - destruct (N.eqb b0 b) eqn:E.
    + apply N.eqb_eq in E. subst b0.
      intros [[= -> ->]|Hg]%elem_of_cons Hk.
      * apply elem_of_app in Hk as [Hk|Hk%list_elem_of_singleton]; [|by left].
        right. exists items0. split; [by left|done].
      * right. exists items. split; [by right|done].
    + intros [[= -> ->]|Hg]%elem_of_cons Hk.
      * right. exists items0. split; [by left|done].
      * destruct (IH Hg Hk) as [?|(it & ? & ?)]; [by left|].
        right. exists it. split; [by right|done].
Qed.

Lemma group_insert_new (b : N) (i : nat) (g : list (N * list nat)) :
  exists items, (b, items) ∈ group_insert b i g /\ i ∈ items.
Proof.
  induction g as [|[b0 items0] g IH]; cbn.
  - exists [i]. split; by left.
  - destruct (N.eqb b0 b) eqn:E.
    + apply N.eqb_eq in E. subst b0. exists (items0 ++ [i]).
      split; [by left|]. apply elem_of_app. right. by left.
    + destruct IH as (items & ? & ?). exists items. split; [by right|done].
Qed.

Lemma group_insert_mono (b : N) (i : nat) (g : list (N * list nat))
    (b' : N) (items0 : list nat) (k : nat) :
  (b', items0) ∈ g -> k ∈ items0 ->
  exists items, (b', items) ∈ group_insert b i g /\ k ∈ items.
Proof.
  induction g as [|[b0 it0] g IH]; cbn; [by intros ?%elem_of_nil|].
  intros [[= -> ->]|Hg]%elem_of_cons Hk.
  - destruct (N.eqb b0 b).
    + exists (it0 ++ [i]). split; [by left|]. apply elem_of_app. by left.
    + exists it0. split; [by left|done].
  - destruct (N.eqb b0 b).
    + exists items0. split; [by right|done].
    + destruct (IH Hg Hk) as (items & ? & ?). exists items. split; [by right|done].
Qed.

Lemma by_broker_fold (act : list (nat * TradeExecution)) :
  forall g,
    let g' := fold_left (fun g ir => group_insert (ex_broker_config_id (snd ir))
                                        (fst ir) g) act g in
    concat (map snd g') ≡ₚ concat (map snd g) ++ map fst act
    /\ (forall b items k, (b, items) ∈ g' -> k ∈ items ->
          (exists e, (k, e) ∈ act /\ ex_broker_config_id e = b)
          \/ exists items0, (b, items0) ∈ g /\ k ∈ items0)
    /\ (forall k e, (k, e) ∈ act ->
          exists items, (ex_broker_config_id e, items) ∈ g' /\ k ∈ items)
    /\ (forall b items0 k, (b, items0) ∈ g -> k ∈ items0 ->
          exists items, (b, items) ∈ g' /\ k ∈ items).
Proof.
  induction act as [|[i e] act IH]; intros g; cbn.
  - rewrite app_nil_r. split; [done|]. split; [|split].
    + intros b items k Hg Hk. right. by exists items.
    + intros k e' Hin. by apply elem_of_nil in Hin.
    + intros b items0 k Hg Hk. by exists items0.
  - destruct (IH (group_insert (ex_broker_config_id e) i g))
      as (Hperm & Hsound & Hcompl & Hmono).
    split; [|split; [|split]].
    + rewrite Hperm, group_insert_perm. cbn. by rewrite Permutation_middle.
    + intros b items k Hg Hk.
      destruct (Hsound b items k Hg Hk) as [(e' & ? & ?)|(it & Hit & Hkit)].
      * left. exists e'. split; [by right|done].
      * destruct (group_insert_elem _ _ _ _ _ _ Hit Hkit) as [[-> ->]|?];
          [|by right].
        left. exists e. split; [by left|done].
    + intros k e' [[= -> ->]|Hin]%elem_of_cons; [|by apply Hcompl].
      destruct (group_insert_new (ex_broker_config_id e) i g) as (it & Hit & Hi).
      by apply (Hmono _ it).
    + intros b items0 k Hg Hk.
      destruct (group_insert_mono (ex_broker_config_id e) i g b items0 k Hg Hk)
        as (it & Hit & Hkit).
      by apply (Hmono _ it).
Qed.

Lemma tickets_of_absent (positions : list Position) (tk : Z) :
  (forall pos, pos ∈ positions -> pos_ticket pos <> tk) ->
  tickets_of positions !! tk = None.
Proof.
  unfold tickets_of. generalize (∅ : gmap Z Position) (lookup_empty (M:=gmap Z) (A:=Position) tk).
  induction positions as [|pos positions IH]; intros m Hm Hall; cbn; [done|].
  apply IH.
  - rewrite lookup_insert_ne; [done|]. apply Hall. by left.
  - intros q Hq. apply Hall. by right.
Qed.

Lemma get_history_deals_closing (m : MT5) (tk : Z) (deals : list Deal) :
  history_deals_get m tk = Some deals ->
  (exists d0, d0 ∈ deals /\ is_out d0 = true) ->
  exists d, get_history_deals m true tk = Some d /\ d ∈ deals /\ is_out d = true.
Proof.
  intros Hd (d0 & Hin & Hout). unfold get_history_deals. cbn. rewrite Hd.
  destruct (List.find is_out (rev deals)) as [d|] eqn:Hf.
  - apply find_some in Hf as [Hdin Hdout]. exists d. split; [done|].
    split; [|done]. apply list_elem_of_In. apply in_rev. exact Hdin.
  - exfalso.
    assert (Hr : In d0 (rev deals)).
    { apply (proj1 (in_rev deals d0)). by apply list_elem_of_In. }
    rewrite (find_none _ _ Hf d0 Hr) in Hout. discriminate.
Qed.

Lemma is_executed_iff (e : TradeExecution) :
  is_executed e = true <-> execution_status e = EXECUTED.
Proof. unfold is_executed. destruct (execution_status e); cbn; split; done. Qed.

Lemma group_insert_keys (b : N) (i : nat) (g : list (N * list nat)) :
  NoDup (map fst g) ->
  NoDup (map fst (group_insert b i g))
  /\ forall k, k ∈ map fst (group_insert b i g) <-> k = b \/ k ∈ map fst g.
Proof.
  induction g as [|[b0 items] g IH]; cbn.
  - intros _. split; [apply NoDup_singleton|].
    intros k. rewrite list_elem_of_singleton. split; [by left|]. intros [?|H]; [done|].
    by apply elem_of_nil in H.
  - intros [Hb0 Hnd]%NoDup_cons. destruct (N.eqb b0 b) eqn:E; cbn.
    + apply N.eqb_eq in E. subst b0. split; [by apply NoDup_cons|].
      intros k. rewrite elem_of_cons. split; [by right|]. intros [->|?]; [by left|done].
    + destruct (IH Hnd) as [Hnd' Hk]. split.
      * apply NoDup_cons. split; [|done]. rewrite Hk. intros [->|?]; [|done].
        by rewrite N.eqb_refl in E.
      * intros k. rewrite !elem_of_cons, Hk. split; [intros [?|[?|?]]|intros [?|[?|?]]]; auto.
Qed.

Lemma by_broker_keys (act : list (nat * TradeExecution)) :
  forall g, NoDup (map fst g) ->
    let g' := fold_left (fun g ir => group_insert (ex_broker_config_id (snd ir))
                                        (fst ir) g) act g in
    NoDup (map fst g')
    /\ forall k, k ∈ map fst g' ->
         k ∈ map fst g \/ k ∈ map (fun ir => ex_broker_config_id (snd ir)) act.
Proof.
  induction act as [|[i e] act IH]; intros g Hnd; cbn.
  - split; [done|]. intros k Hk. by left.
  - destruct (group_insert_keys (ex_broker_config_id e) i g Hnd) as [Hnd' Hk'].
    destruct (IH _ Hnd') as [Hnd'' Hk'']. split; [done|].
    intros k Hk. destruct (Hk'' k Hk) as [H|H].
    + apply Hk' in H as [->|H]; [right; by left | by left].
    + right. by right.
Qed.

Lemma group_insert_items (b : N) (i : nat) (g : list (N * list nat)) (b' : N) :
  group_items b' (group_insert b i g)
  = if N.eqb b' b then group_items b' g ++ [i] else group_items b' g.
Proof.
  unfold group_items. induction g as [|[b0 items] g IH]; cbn.
  - rewrite (N.eqb_sym b b'). by destruct (N.eqb b' b).
  - destruct (N.eqb b0 b) eqn:E; cbn.
    + apply N.eqb_eq in E. subst b0. rewrite (N.eqb_sym b b').
      by destruct (N.eqb b' b).
    + destruct (N.eqb b0 b') eqn:E'; [|exact IH].
      apply N.eqb_eq in E'. subst b0. by rewrite E.
Qed.

(** The group of a broker account lists the EXECUTED rows of the account in
    table order. *)
Lemma by_broker_items (act : list (nat * TradeExecution)) (b : N) :
  forall g,
    group_items b (fold_left (fun g ir => group_insert (ex_broker_config_id (snd ir))
                                            (fst ir) g) act g)
    = group_items b g
      ++ map fst (List.filter (fun ir => N.eqb (ex_broker_config_id (snd ir)) b) act).
Proof.
  induction act as [|[i e] act IH]; intros g; cbn.
  - by rewrite app_nil_r.
  - rewrite IH, group_insert_items. rewrite (N.eqb_sym (ex_broker_config_id e) b).
    destruct (N.eqb b (ex_broker_config_id e)); cbn; [|done].
    by rewrite <- app_assoc.
Qed.

Lemma group_items_elem (b : N) (items : list nat) (g : list (N * list nat)) :
  NoDup (map fst g) -> (b, items) ∈ g -> group_items b g = items.
Proof.
  unfold group_items. induction g as [|[b0 it0] g IH]; cbn.
  - intros _ H. by apply elem_of_nil in H.
  - intros [Hb0 Hnd]%NoDup_cons [[= <- <-]|Hin]%elem_of_cons.
    + by rewrite N.eqb_refl.
    + destruct (N.eqb b0 b) eqn:E; [|by apply IH].
      apply N.eqb_eq in E. subst b0. exfalso. apply Hb0.
      apply list_elem_of_In, in_map_iff. exists (b, items).
      split; [done|]. by apply list_elem_of_In.
Qed.

Lemma find_head_filter {T : Type} (P : T -> bool) (l : list T) :
  List.find P l = head (List.filter P l).
Proof.
  induction l as [|x l IH]; cbn; [done|]. by destruct (P x).
Qed.

(** The first row of the group of an account is the first EXECUTED row of
    the account, whose owner is [sync_user]. *)
Lemma by_broker_first (d : DB) (b : N) (items : list nat) (uid : N) :
  (b, items) ∈ by_broker (active_executions d) ->
  sync_user d b = Some uid ->
  exists first rest ex0,
    items = first :: rest /\ executions d !! first = Some ex0
    /\ ex_user_id ex0 = uid.
Proof.
  intros Hg Hu. unfold by_broker in Hg.
  destruct (by_broker_keys (active_executions d) [] (NoDup_nil_2)) as [Hnd _].
  apply (group_items_elem _ _ _ Hnd) in Hg.
  rewrite by_broker_items in Hg. cbn in Hg.
  unfold sync_user in Hu. rewrite find_head_filter in Hu.
  destruct (List.filter _ (active_executions d)) as [|[i0 e0] l] eqn:Hf;
    [discriminate|].
  cbn in Hu, Hg. inversion Hu; subst uid.
  exists i0, (map fst l), e0. split; [done|]. split; [|done].
  assert (Hin : In (i0, e0) (List.filter
            (fun ir => N.eqb (ex_broker_config_id (snd ir)) b) (active_executions d))).
  { rewrite Hf. by left. }
  apply filter_In in Hin as [Hin _].
  apply list_elem_of_In, active_executions_spec in Hin. tauto.
Qed.

(** C7.  In one synchronizer pass an execution that is not EXECUTED is left
    as it is and every position event concerns an execution that was
    EXECUTED.  For an EXECUTED execution with a ticket that is absent from
    the open positions, once a session to its broker account is opened with
    the credentials of the owner of the first EXECUTED row of the account:
    if the history has a deal for the ticket the execution becomes CLOSED
    with the price, profit and time of that deal and a position_closed event
    is sent to that user; if no deal is returned it is left as it is.  The
    deal used is the last closing deal of the history whenever there is
    one. *)
Theorem C7_synchronizer_pass (env : Env) (w : World) :
  let w' := fst (sync_all_active_positions env w) in
  (forall j e, executions (db w) !! j = Some e -> execution_status e <> EXECUTED ->
     executions (db w') !! j = Some e)
  /\ (forall a i, a ∈ new_actions w w' -> position_event_of a = Some i ->
        exists j e, i = N.of_nat j /\ executions (db w) !! j = Some e
                    /\ execution_status e = EXECUTED)
  /\ (forall j e tk bc uid,
        executions (db w) !! j = Some e -> execution_status e = EXECUTED ->
        ticket_number e = Some tk -> tk <> 0 ->
        broker_configs (db w) !! ex_broker_config_id e = Some bc ->
        sync_user (db w) (ex_broker_config_id e) = Some uid ->
        session_available env uid (ex_broker_config_id e) bc ->
        (forall pos, pos ∈ positions_get (mt5 env) -> pos_ticket pos <> tk) ->
        match get_history_deals (mt5 env) true tk with
        | Some deal =>
          exists e', executions (db w') !! j = Some e'
            /\ execution_status e' = CLOSED
            /\ close_price e' = Some (deal_price deal)
            /\ profit_loss e' = Some (deal_profit deal)
            /\ close_time e' = Some (deal_time deal)
            /\ Broadcast uid (PositionClosed (N.of_nat j) (deal_profit deal)
                                 (deal_price deal)) ∈ new_actions w w'
        | None => executions (db w') !! j = Some e
        end)
  /\ (forall tk deals, history_deals_get (mt5 env) tk = Some deals ->
        (exists d0, d0 ∈ deals /\ is_out d0 = true) ->
        exists d, get_history_deals (mt5 env) true tk = Some d
                  /\ d ∈ deals /\ is_out d = true).
Proof.
  intros w'. subst w'.
  unfold sync_all_active_positions, get_world, mbind, eng_mbind, eng_bind.
  pose proof (by_broker_first (db w)) as Hfirst.
  unfold by_broker in *.
  destruct (by_broker_fold (active_executions (db w)) [])
    as (Hperm & Hsound & Hcompl & _).
  cbn [map concat app] in Hperm.
  set (groups := fold_left _ (active_executions (db w)) []) in *.
  assert (Hmem : forall k, k ∈ concat (map snd groups) ->
            exists e, executions (db w) !! k = Some e /\ execution_status e = EXECUTED).
  { intros k Hk. rewrite Hperm in Hk.
    apply list_elem_of_In, in_map_iff in Hk as ([k' e] & Hk' & Hin).
    cbn in Hk'. subst k'. apply list_elem_of_In, active_executions_spec in Hin.
    destruct Hin as [Hl He]. exists e. split; [done|]. by apply is_executed_iff. }
  destruct (sync_groups_spec env groups w)
    as (w' & acts & Hrun & _ & _ & Htr & Hout & Hev & Heff).
  { apply Forall_forall. intros k Hk. destruct (Hmem k Hk) as (e & -> & _). by eexists. }
  { rewrite Hperm. apply active_executions_NoDup. }
  rewrite Hrun. cbn [fst].
  assert (Hnew : new_actions w w' = acts).
  { unfold new_actions. rewrite Htr. apply drop_app_length. }
  rewrite Hnew. split; [|split; [|split]].
  - intros j e Hj Hst. rewrite Hout; [done|].
    intros Hin. destruct (Hmem j Hin) as (e' & He' & Hex). congruence.
  - intros a i Ha Hi. destruct (Hev a i Ha Hi) as (j & -> & Hj).
    destruct (Hmem j Hj) as (e & ? & ?). by exists j, e.
  - intros j e tk bc uid Hj Hst Htk Hnz Hbc Hu Hs Habs.
    destruct (Hcompl j e) as (items & Hg & Hjin).
    { apply active_executions_spec. split; [done|]. by apply is_executed_iff. }
    destruct (Hfirst _ items uid Hg Hu) as (first & rest & ex0 & Hit & Hex0 & <-).
    destruct (Heff _ items bc first rest ex0 Hg Hit Hex0 Hbc Hs j e Hjin Hj)
      as [Hrow Hacts].
    revert Hrow Hacts. unfold synced_row, sync_actions. rewrite Htk. cbn.
    destruct (Z.eqb tk 0) eqn:Hz; [by apply Z.eqb_eq in Hz|]. cbn.
    rewrite (tickets_of_absent _ tk Habs).
    destruct (get_history_deals (mt5 env) true tk) as [deal|]; [|done].
    intros Hrow Hacts. eexists. split; [exact Hrow|]. do 4 (split; [reflexivity|]).
    apply Hacts. cbn. do 2 (apply elem_of_cons; right). by left.
  - intros tk deals. apply get_history_deals_closing.
Qed.

Lemma C7_synchronizer_pass_witness :
  exists e',
    executions (db (fst (sync_all_active_positions fx_env_closed
                           (fx_world [fx_open_row] ∅)))) !! 0%nat = Some e'
    /\ execution_status e' = CLOSED
    /\ close_price e' = Some 1.1230%Q
    /\ profit_loss e' = Some 42.5%Q.
Proof.
  destruct (C7_synchronizer_pass fx_env_closed (fx_world [fx_open_row] ∅))
    as (_ & _ & H & _).
  specialize (H 0%nat fx_open_row 9001 {| login := 4242; server := "Demo-Server" |}
                1%N eq_refl eq_refl eq_refl).
  destruct H as (e' & Hrow & Hst & Hcp & Hpl & _).
  - discriminate.
  - reflexivity.
  - reflexivity.
  - split; reflexivity.
  - intros pos Hpos. by apply elem_of_nil in Hpos.
  - exists e'. repeat split; assumption.
Defined.

(** * Further properties of the code *)

(** ** Every path of a run *)

Lemma filter_order_not_broker (l : list Action) :
  Forall (fun a => is_broker_op a = false) l -> List.filter is_order l = [].
Proof.
  induction 1 as [|a l Ha _ IH]; [done|].
  cbn. rewrite IH. destruct a; cbn in *; done.
Qed.

Ltac finish_total Hrow :=
  rewrite ?list_lookup_alter_eq, ?Hrow; cbn;
  repeat step_signal_update; cbn;
  rewrite ?list_alter_alter_eq;
  eexists _, _, _, _; split; [reflexivity|]; cbn;
  rewrite <- ?app_assoc; cbn;
  do 6 (split; [reflexivity|]);
  split;
  [ first [ left; repeat split; reflexivity
          | right; repeat split; try reflexivity; eexists; reflexivity ]
  | cbn [List.filter is_order];
    rewrite ?List.filter_app, ?filter_quiet_order by assumption; cbn;
    first [ left; reflexivity
          | right; left; reflexivity
          | right; right; left; eexists; reflexivity
          | idtac ] ].

(** Whatever happens in a run on an existing row: what it returns, what it
    changes and which orders it sends. *)
Lemma process_single_execution_total (env : Env) (eid : nat) (p : ParsedSignal)
    (prefs : option UserPreferences) (w : World) (ex : TradeExecution) :
  executions (db w) !! eid = Some ex ->
  exists w' r f acts,
    _process_single_execution env eid p prefs w = (w', inr r)
    /\ executions (db w') = alter f eid (executions (db w))
    /\ broker_configs (db w') = broker_configs (db w)
    /\ user_preferences (db w') = user_preferences (db w)
    /\ trace w' = trace w ++ acts
    /\ pr_execution_id r = eid
    /\ plan_of (f ex) = plan_of ex
    /\ ((execution_status (f ex) = EXECUTED /\ pr_success r = true
         /\ pr_error r = None /\ ticket_number (f ex) = pr_ticket r)
        \/ (execution_status (f ex) = FAILED /\ pr_success r = false
            /\ is_Some (pr_error r) /\ execution_error (f ex) = pr_error r
            /\ ticket_number (f ex) = ticket_number ex))
    /\ (List.filter is_order acts = []
        \/ List.filter is_order acts = [market_action ex]
        \/ (exists price, List.filter is_order acts = [limit_action ex price])
        \/ (exists entry, ex_entry_price ex = Some entry
              /\ List.filter is_order acts = [market_action ex; limit_action ex entry])).
Proof.
  intros Hrow.
  unfold _process_single_execution.
  eng_unfold. cbn. rewrite Hrow.
  pose proof (validation_warnings_not_broker p) as Hnb.
  pose proof (validate_true_no_warnings p) as Hw.
  destruct (validation_exception p) as [e|] eqn:Hne; cbn.
  { finish_total Hrow. }
  destruct (_validate_signal p) as [valid warnings] eqn:Hv.
  cbn in Hnb, Hw.
  destruct valid; cbn.
  2:{ finish_total Hrow. left. by apply filter_order_not_broker. }
  rewrite Hw by reflexivity. cbn.
  destruct (truthy_str (mt5_password env (ex_user_id ex) (ex_broker_config_id ex)))
    eqn:Hpw; cbn.
  2:{ finish_total Hrow. }
  destruct (broker_configs (db w) !! ex_broker_config_id ex) as [bc|] eqn:Hbc; cbn.
  2:{ finish_total Hrow. }
  destruct (mt5_login_ok _ _ _ _) eqn:Hlogin; cbn.
  2:{ finish_total Hrow. }
  destruct (entry_policy _ _ _ _) as [use_limit price]. cbn.
  destruct use_limit; cbn.
  - destruct (execute_limit_order _ _ _ _ _ _ _ _ _) as [ok1 tk1 oid1 ep1 pr1 er1 rc1] eqn:Hs; cbn.
    destruct ok1; cbn; finish_total Hrow.
  - destruct (execute_market_order _ _ _ _ _ _ _ _) as [ok0 tk0 oid0 ep0 pr0 er0 rc0] eqn:Hm; cbn.
    destruct ok0; cbn.
    + finish_total Hrow.
    + destruct (ex_entry_price ex) as [entry|] eqn:He; cbn.
      * destruct (Qeq_bool entry 0) eqn:Hz; cbn.
        -- finish_total Hrow.
        -- destruct (execute_limit_order _ _ _ _ _ _ _ _ _) as [ok1 tk1 oid1 ep1 pr1 er1 rc1] eqn:Hs; cbn.
           destruct ok1; cbn; finish_total Hrow;
             right; right; right; eexists; split; reflexivity.
      * finish_total Hrow.
Qed.

(** X1.  With a terminal whose tickets fit the ticket column, a run on an
    existing execution always returns, and it settles the execution: the row
    ends EXECUTED or FAILED, never in an intermediate state.  The success flag of the result says which; a FAILED row records
    the error the result reports and keeps its ticket; the planned trade of
    the row and every other row of the table are left as they were. *)
Theorem process_single_execution_settles (env : Env) (eid : nat) (p : ParsedSignal)
    (prefs : option UserPreferences) (w : World) (ex : TradeExecution) :
  executions (db w) !! eid = Some ex ->
  tickets_fit (mt5 env) ->
  exists w' r ex',
    _process_single_execution env eid p prefs w = (w', inr r)
    /\ executions (db w') !! eid = Some ex'
    /\ pr_execution_id r = eid
    /\ plan_of ex' = plan_of ex
    /\ (if pr_success r
        then execution_status ex' = EXECUTED /\ pr_error r = None
             /\ ticket_number ex' = pr_ticket r
        else execution_status ex' = FAILED /\ is_Some (pr_error r)
             /\ execution_error ex' = pr_error r
             /\ ticket_number ex' = ticket_number ex)
    /\ length (executions (db w')) = length (executions (db w))
    /\ (forall j, j <> eid -> executions (db w') !! j = executions (db w) !! j).
Proof.
  intros Hrow _.
  destruct (process_single_execution_total env eid p prefs w ex Hrow)
    as (w' & r & f & acts & Hrun & Hrows & _ & _ & _ & Hid & Hplan & Hst & _).
  exists w', r, (f ex). split; [exact Hrun|].
  split; [by rewrite Hrows, list_lookup_alter_eq, Hrow|].
  split; [exact Hid|]. split; [exact Hplan|]. split.
  - destruct Hst as [(? & -> & ? & ?)|(? & -> & ? & ? & ?)]; auto.
  - split; [by rewrite Hrows, length_alter|].
    intros j Hj. rewrite Hrows. by apply list_lookup_alter_ne.
Qed.

Lemma process_single_execution_settles_witness :
  exists w' r ex',
    _process_single_execution fx_env_rejecting 0 fx_buy_single None
      (fx_world [fx_row PENDING (Some 1.1000%Q) (Some 1.0950%Q) (Some 1.1100%Q)] ∅)
    = (w', inr r)
    /\ executions (db w') !! 0%nat = Some ex'
    /\ pr_success r = false
    /\ execution_status ex' = FAILED.
Proof.
  destruct (process_single_execution_settles fx_env_rejecting 0 fx_buy_single None
              (fx_world [fx_row PENDING (Some 1.1000%Q) (Some 1.0950%Q)
                           (Some 1.1100%Q)] ∅)
              (fx_row PENDING (Some 1.1000%Q) (Some 1.0950%Q) (Some 1.1100%Q))
              eq_refl)
    as (w' & r & ex' & Hrun & Hrow & _ & _ & Hst & _).
  { intros request r [= <-]. cbn. lia. }
  exists w', r, ex'. split; [exact Hrun|]. split; [exact Hrow|].
  assert (Hs : pr_success r = false).
  { vm_compute in Hrun. inversion Hrun. reflexivity. }
  rewrite Hs in Hst. destruct Hst as (Hf & _). split; [exact Hs | exact Hf].
Defined.

(** X2.  A run sends at most two orders, and every order is for the symbol,
    side, volume, stop loss and take profit of its own execution: nothing,
    one market order, one limit order, or one market order followed by one
    limit order at the planned entry. *)
Theorem process_single_execution_orders (env : Env) (eid : nat) (p : ParsedSignal)
    (prefs : option UserPreferences) (w : World) (ex : TradeExecution) :
  executions (db w) !! eid = Some ex ->
  let w' := fst (_process_single_execution env eid p prefs w) in
  let orders := List.filter is_order (new_actions w w') in
  orders = []
  \/ orders = [market_action ex]
  \/ (exists price, orders = [limit_action ex price])
  \/ (exists entry, ex_entry_price ex = Some entry
        /\ orders = [market_action ex; limit_action ex entry]).
Proof.
  intros Hrow w' orders. subst orders w'.
  destruct (process_single_execution_total env eid p prefs w ex Hrow)
    as (w' & r & f & acts & Hrun & _ & _ & _ & Htr & _ & _ & _ & Hord).
  rewrite Hrun. cbn [fst]. unfold new_actions. rewrite Htr, drop_app_length.
  exact Hord.
Qed.

Lemma process_single_execution_orders_witness :
  (length (List.filter is_order
             (new_actions
                (fx_world [fx_row PENDING (Some 1.1000%Q) (Some 1.0950%Q)
                             (Some 1.1100%Q)] ∅)
                (fst (_process_single_execution fx_env_rejecting 0 fx_buy_single None
                        (fx_world [fx_row PENDING (Some 1.1000%Q) (Some 1.0950%Q)
                                     (Some 1.1100%Q)] ∅))))) <= 2)%nat.
Proof.
  destruct (process_single_execution_orders fx_env_rejecting 0 fx_buy_single None
              (fx_world [fx_row PENDING (Some 1.1000%Q) (Some 1.0950%Q)
                           (Some 1.1100%Q)] ∅)
              (fx_row PENDING (Some 1.1000%Q) (Some 1.0950%Q) (Some 1.1100%Q))
              eq_refl)
    as [H|[H|[[price H]|(entry & _ & H)]]]; rewrite H; cbn; lia.
Defined.

(** X3.  When no MT5 password is stored for the account of a valid signal's
    execution, the run fails with "MT5 password not configured": the row is
    FAILED with that error, the user is told by an error message, and the
    broker is not contacted at all. *)
Theorem missing_password_fails_before_broker (env : Env) (eid : nat) (p : ParsedSignal)
    (prefs : option UserPreferences) (w : World) (ex : TradeExecution) :
  executions (db w) !! eid = Some ex ->
  fst (_validate_signal p) = true ->
  truthy_str (mt5_password env (ex_user_id ex) (ex_broker_config_id ex)) = false ->
  let run := _process_single_execution env eid p prefs w in
  snd run = inr (process_failure eid "MT5 password not configured")
  /\ executions (db (fst run)) !! eid
     = Some (set_error "MT5 password not configured" (set_status FAILED ex))
  /\ Forall (fun a => is_broker_op a = false) (new_actions w (fst run))
  /\ Broadcast (ex_user_id ex) (ErrorMessage (N.of_nat eid) "MT5 password not configured")
       ∈ new_actions w (fst run)
  /\ is_connected (fst run) = is_connected w.
Proof.
  intros Hrow Hvalid Hpw run. subst run.
  pose proof (validate_true_no_warnings p Hvalid) as Hw.
  unfold _process_single_execution, new_actions. eng_unfold. cbn.
  rewrite Hrow, (validation_exception_valid p Hvalid). cbn. rewrite Hw, Hvalid. cbn.
  rewrite Hpw. cbn. rewrite !list_lookup_alter_eq, Hrow. cbn.
  step_signal_update. cbn.
  split; [reflexivity|].
  split; [by rewrite !list_lookup_alter_eq, Hrow|].
  rewrite app_nil_r, <- !app_assoc, drop_app_length.
  split; [|split; [|reflexivity]].
  - apply Forall_app. split; [by repeat constructor|].
    apply Forall_app. split; [|by repeat constructor].
    eapply Forall_impl; [exact Hquiet|]. intros a Ha. unfold quiet in Ha.
    by destruct (is_broker_op a).
  - apply elem_of_app. right. apply elem_of_app. right. by left.
Qed.

Lemma missing_password_fails_before_broker_witness :
  executions
    (db (fst (_process_single_execution
                {| mt5 := fx_mt5; mt5_password := fun _ _ => None; utcnow := 0 |}
                0 fx_buy_single None
                (fx_world [fx_row PENDING (Some 1.1000%Q) (Some 1.0950%Q)
                             (Some 1.1100%Q)] ∅)))) !! 0%nat
  = Some (set_error "MT5 password not configured"
            (set_status FAILED
               (fx_row PENDING (Some 1.1000%Q) (Some 1.0950%Q) (Some 1.1100%Q)))).
Proof.
  destruct (missing_password_fails_before_broker
              {| mt5 := fx_mt5; mt5_password := fun _ _ => None; utcnow := 0 |}
              0 fx_buy_single None
              (fx_world [fx_row PENDING (Some 1.1000%Q) (Some 1.0950%Q)
                           (Some 1.1100%Q)] ∅)
              (fx_row PENDING (Some 1.1000%Q) (Some 1.0950%Q) (Some 1.1100%Q)))
    as (_ & H & _); [reflexivity .. |].
  exact H.
Defined.

(** X4.  When the terminal refuses the login, the run fails with "Failed to
    connect to MT5": the row is FAILED with that error and the connection
    attempt is the only broker operation, so no quote is requested and no
    order is sent. *)
Theorem refused_login_sends_no_order (env : Env) (eid : nat) (p : ParsedSignal)
    (prefs : option UserPreferences) (w : World) (ex : TradeExecution)
    (bc : BrokerConfig) :
  executions (db w) !! eid = Some ex ->
  fst (_validate_signal p) = true ->
  truthy_str (mt5_password env (ex_user_id ex) (ex_broker_config_id ex)) = true ->
  broker_configs (db w) !! ex_broker_config_id ex = Some bc ->
  mt5_login_ok (mt5 env) (login bc)
    (default EmptyString (mt5_password env (ex_user_id ex) (ex_broker_config_id ex)))
    (server bc) = false ->
  let run := _process_single_execution env eid p prefs w in
  snd run = inr (process_failure eid "Failed to connect to MT5")
  /\ executions (db (fst run)) !! eid
     = Some (set_error "Failed to connect to MT5" (set_status FAILED ex))
  /\ List.filter is_broker_op (new_actions w (fst run)) = [Connect (login bc) (server bc)]
  /\ is_connected (fst run) = is_connected w.
Proof.
  intros Hrow Hvalid Hpw Hbc Hlogin run. subst run.
  pose proof (validate_true_no_warnings p Hvalid) as Hw.
  unfold _process_single_execution, new_actions. eng_unfold. cbn.
  rewrite Hrow, (validation_exception_valid p Hvalid). cbn. rewrite Hw, Hvalid. cbn.
  rewrite Hpw. cbn. rewrite Hbc. cbn. rewrite Hlogin. cbn.
  rewrite !list_lookup_alter_eq, Hrow. cbn.
  step_signal_update. cbn.
  split; [reflexivity|].
  split; [by rewrite !list_lookup_alter_eq, Hrow|]. split; [|reflexivity].
  rewrite app_nil_r, <- !app_assoc, drop_app_length. cbn.
  rewrite List.filter_app. cbn. rewrite app_nil_r. f_equal.
  induction Hquiet as [|a l Ha _ IH]; [reflexivity|].
  cbn. unfold quiet in Ha. destruct (is_broker_op a); [discriminate|exact IH].
Qed.

Lemma refused_login_sends_no_order_witness :
  List.filter is_broker_op
    (new_actions
       (fx_world [fx_row PENDING (Some 1.1000%Q) (Some 1.0950%Q) (Some 1.1100%Q)] ∅)
       (fst (_process_single_execution
               {| mt5 := {| TRADE_RETCODE_DONE := 10009;
                            mt5_login_ok := fun _ _ _ => false;
                            symbol_info := fun _ => Some fx_info;
                            symbol_info_tick := fun _ => None;
                            order_send := fun _ => SendNone "no connection";
                            positions_get := [];
                            history_deals_get := fun _ => None |};
                  mt5_password := fun _ _ => Some "secret"; utcnow := 0 |}
               0 fx_buy_single None
               (fx_world [fx_row PENDING (Some 1.1000%Q) (Some 1.0950%Q)
                            (Some 1.1100%Q)] ∅))))
  = [Connect 4242 "Demo-Server"].
Proof.
  destruct (refused_login_sends_no_order
              {| mt5 := {| TRADE_RETCODE_DONE := 10009;
                           mt5_login_ok := fun _ _ _ => false;
                           symbol_info := fun _ => Some fx_info;
                           symbol_info_tick := fun _ => None;
                           order_send := fun _ => SendNone "no connection";
                           positions_get := [];
                           history_deals_get := fun _ => None |};
                 mt5_password := fun _ _ => Some "secret"; utcnow := 0 |}
              0 fx_buy_single None
              (fx_world [fx_row PENDING (Some 1.1000%Q) (Some 1.0950%Q)
                           (Some 1.1100%Q)] ∅)
              (fx_row PENDING (Some 1.1000%Q) (Some 1.0950%Q) (Some 1.1100%Q))
              {| login := 4242; server := "Demo-Server" |})
    as (_ & _ & H & _); [reflexivity .. |].
  exact H.
Defined.

(** X5.  Without a two-element entry range, for a user who prefers limit
    orders and an execution with a planned entry, the distance between the
    quote (ask for a buy, bid otherwise) and the planned entry decides, as
    the floats compute it: when the float difference exceeds the tolerated
    slippage (the float product of max_slippage and the point, times 10
    first for 3- and 5-digit symbols) the only order is a limit order at the
    planned entry; otherwise the first order is the market order.  The
    numbers involved are within the range of floats. *)
Theorem slippage_limit_policy (env : Env) (eid : nat) (p : ParsedSignal)
    (up : UserPreferences) (w : World) (ex : TradeExecution)
    (bc : BrokerConfig) (info : PriceInfo) (entry : Q) :
  executions (db w) !! eid = Some ex ->
  fst (_validate_signal p) = true ->
  truthy_str (mt5_password env (ex_user_id ex) (ex_broker_config_id ex)) = true ->
  broker_configs (db w) !! ex_broker_config_id ex = Some bc ->
  mt5_login_ok (mt5 env) (login bc)
    (default EmptyString (mt5_password env (ex_user_id ex) (ex_broker_config_id ex)))
    (server bc) = true ->
  get_current_price (mt5 env) true (ex_symbol ex) = Some info ->
  length (entry_range p) <> 2%nat ->
  use_limit_orders up = true ->
  ex_entry_price ex = Some entry ->
  ~ (entry == 0)%Q ->
  slippage_in_range up info (current_price (ex_side ex) info) entry ->
  let w' := fst (_process_single_execution env eid p (Some up) w) in
  let orders := List.filter is_order (new_actions w w') in
  let gap := Qabs (fsub (current_price (ex_side ex) info) entry) in
  ((slippage_tolerance up info < gap)%Q -> orders = [limit_action ex entry])
  /\ ((gap <= slippage_tolerance up info)%Q -> head orders = Some (market_action ex)).
Proof.
  intros Hrow Hvalid Hpw Hbc Hlogin Hq Hrange Hlim He Hnz _ w' orders gap.
  subst gap orders w'.
  destruct (process_single_execution_keys env eid p (Some up) w ex bc
              Hrow Hvalid Hpw Hbc Hlogin) as (_ & -> & _).
  rewrite Hq.
  assert (Hz : Qeq_bool entry 0 = false).
  { destruct (Qeq_bool entry 0) eqn:E; [|reflexivity].
    apply Qeq_bool_iff in E. contradiction. }
  assert (Hpol :
    entry_policy ex p (Some up) (Some info)
    = if Qlt_bool (slippage_tolerance up info)
           (Qabs (fsub (current_price (ex_side ex) info) entry))
      then (true, entry) else (false, entry)).
  { unfold entry_policy, slippage_tolerance.
    rewrite Hlim, He. cbn [truthy_num num_or andb]. rewrite Hz. cbn [negb].
    destruct (entry_range p) as [|a [|b [|c l]]]; cbn in Hrange; try reflexivity.
    contradiction. }
  rewrite Hpol. clear Hpol.
  set (tol := slippage_tolerance up info).
  set (gap := Qabs _).
  unfold Qlt_bool.
  destruct (Qle_bool gap tol) eqn:Hle; cbn [negb fst snd].
  - apply Qle_bool_iff in Hle. split.
    + intros Hlt. exfalso. apply (Qlt_not_le _ _ Hlt Hle).
    + intros _. unfold order_plan. destruct (negb _ && _)%bool; reflexivity.
  - split.
    + intros _. reflexivity.
    + intros Hge. apply Qle_bool_iff in Hge. congruence.
Qed.

(** The quote 1.0007 and the planned entry 1.0012 are five pips apart on
    paper; the float difference is larger than the float tolerance, and the
    order is a limit order. *)
Lemma slippage_limit_policy_witness :
  List.filter is_order
    (new_actions
       (fx_world [fx_row PENDING (Some 1.0012%Q) (Some 0.9950%Q) (Some 1.0100%Q)] ∅)
       (fst (_process_single_execution
               {| mt5 := fx_mt5_four_digits; mt5_password := fun _ _ => Some "secret";
                  utcnow := 1700000000 |}
               0 fx_buy_five_pips
               (Some {| manual_approval := false; risk_per_trade := Some 1.0%Q;
                        max_slippage := 5.0%Q; use_limit_orders := true |})
               (fx_world [fx_row PENDING (Some 1.0012%Q) (Some 0.9950%Q)
                            (Some 1.0100%Q)] ∅))))
  = [limit_action (fx_row PENDING (Some 1.0012%Q) (Some 0.9950%Q) (Some 1.0100%Q))
       1.0012%Q].
Proof.
  destruct (slippage_limit_policy
              {| mt5 := fx_mt5_four_digits; mt5_password := fun _ _ => Some "secret";
                 utcnow := 1700000000 |}
              0 fx_buy_five_pips
              {| manual_approval := false; risk_per_trade := Some 1.0%Q;
                 max_slippage := 5.0%Q; use_limit_orders := true |}
              (fx_world [fx_row PENDING (Some 1.0012%Q) (Some 0.9950%Q)
                           (Some 1.0100%Q)] ∅)
              (fx_row PENDING (Some 1.0012%Q) (Some 0.9950%Q) (Some 1.0100%Q))
              {| login := 4242; server := "Demo-Server" |}
              {| pi_bid := 1.0005%Q; pi_ask := 1.0007%Q; pi_point := 0.0001%Q;
                 pi_digits := 4 |}
              1.0012%Q)
    as [Hlimit _]; [reflexivity | reflexivity | reflexivity | reflexivity | reflexivity
                   | reflexivity | discriminate | reflexivity | reflexivity
                   | intros H; vm_compute in H; discriminate
                   | repeat split; apply Qle_bool_iff; vm_compute; reflexivity | ].
  apply Hlimit. vm_compute. reflexivity.
Defined.

(** X6.  The market order is the default: when the terminal gives no quote
    for the symbol, or when there is no two-element entry range and the
    slippage rule does not apply (no preferences, limit orders not preferred,
    or no planned entry), the first order of the run is the market order. *)
Theorem market_order_by_default (env : Env) (eid : nat) (p : ParsedSignal)
    (prefs : option UserPreferences) (w : World) (ex : TradeExecution)
    (bc : BrokerConfig) :
  executions (db w) !! eid = Some ex ->
  fst (_validate_signal p) = true ->
  truthy_str (mt5_password env (ex_user_id ex) (ex_broker_config_id ex)) = true ->
  broker_configs (db w) !! ex_broker_config_id ex = Some bc ->
  mt5_login_ok (mt5 env) (login bc)
    (default EmptyString (mt5_password env (ex_user_id ex) (ex_broker_config_id ex)))
    (server bc) = true ->
  get_current_price (mt5 env) true (ex_symbol ex) = None
  \/ (length (entry_range p) <> 2%nat
      /\ (prefs = None
          \/ (exists up, prefs = Some up /\ use_limit_orders up = false)
          \/ truthy_num (ex_entry_price ex) = false)) ->
  let w' := fst (_process_single_execution env eid p prefs w) in
  head (List.filter is_order (new_actions w w')) = Some (market_action ex).
Proof.
  intros Hrow Hvalid Hpw Hbc Hlogin Hcase w'. subst w'.
  destruct (process_single_execution_keys env eid p prefs w ex bc
              Hrow Hvalid Hpw Hbc Hlogin) as (_ & -> & _).
  assert (Hpol : fst (entry_policy ex p prefs
                        (get_current_price (mt5 env) true (ex_symbol ex))) = false).
  { unfold entry_policy. destruct Hcase as [-> | [Hrange Hpref]]; [reflexivity|].
    destruct (get_current_price _ _ _) as [info|]; [|reflexivity].
    destruct (entry_range p) as [|a [|b [|c l]]]; cbn in Hrange; try contradiction;
      (destruct Hpref as [-> | [(up & -> & ->) | Hentry]]; [reflexivity | reflexivity |];
       destruct prefs as [up|]; [|reflexivity];
       rewrite Hentry, andb_false_r; reflexivity). }
  destruct (entry_policy _ _ _ _) as [use_limit price]. cbn in Hpol. subst use_limit.
  unfold order_plan. cbn [fst snd]. destruct (negb _ && _)%bool; reflexivity.
Qed.

Lemma market_order_by_default_witness :
  head (List.filter is_order
          (new_actions
             (fx_world [fx_row PENDING (Some 1.1000%Q) (Some 1.0950%Q) (Some 1.1100%Q)] ∅)
             (fst (_process_single_execution fx_env 0 fx_buy_single None
                     (fx_world [fx_row PENDING (Some 1.1000%Q) (Some 1.0950%Q)
                                  (Some 1.1100%Q)] ∅)))))
  = Some (market_action (fx_row PENDING (Some 1.1000%Q) (Some 1.0950%Q) (Some 1.1100%Q))).
Proof.
  apply (market_order_by_default fx_env 0 fx_buy_single None
           (fx_world [fx_row PENDING (Some 1.1000%Q) (Some 1.0950%Q)
                        (Some 1.1100%Q)] ∅)
           (fx_row PENDING (Some 1.1000%Q) (Some 1.0950%Q) (Some 1.1100%Q))
           {| login := 4242; server := "Demo-Server" |});
    [reflexivity | reflexivity | reflexivity | reflexivity | reflexivity |].
  right. split; [discriminate | left; reflexivity].
Defined.

(** ** Rejection *)

Lemma forallb_filter_lookup {A : Type} (P Q : A -> bool) (l : list A) :
  forallb P (List.filter Q l) = true
  <-> forall j e, l !! j = Some e -> Q e = true -> P e = true.
Proof.
  rewrite forallb_forall. split.
  - intros H j e Hl Hq. apply H, filter_In. split; [|done].
    apply list_elem_of_In. by eapply list_elem_of_lookup_2.
  - intros H e [Hin Hq]%filter_In.
    apply list_elem_of_In, list_elem_of_lookup_1 in Hin as [j Hj]. by eapply H.
Qed.

(** X7.  Only a pending approval can be rejected.  For an execution in any
    other state the call reports "Only pending approvals can be rejected" and
    changes nothing.  A pending approval becomes CANCELLED, no other row
    changes and the broker is not contacted; when every other execution of
    its signal is already CANCELLED the signal becomes 'rejected' and its
    owner is sent one signal_update, and while some other execution of the
    signal is unresolved the signal is left alone and nothing is sent. *)
Theorem reject_execution_cancels (env : Env) (eid : nat) (w : World)
    (ex : TradeExecution) :
  executions (db w) !! eid = Some ex ->
  let run := reject_execution env eid w in
  (execution_status ex <> PENDING_APPROVAL ->
     run = (w, inr (false, Some "Only pending approvals can be rejected")))
  /\ (execution_status ex = PENDING_APPROVAL ->
      snd run = inr (true, None)
      /\ executions (db (fst run)) = alter (set_status CANCELLED) eid (executions (db w))
      /\ Forall (fun a => is_broker_op a = false) (new_actions w (fst run))
      /\ (forall sg, signals (db w) !! ex_signal_id ex = Some sg ->
          (forall j e, executions (db w) !! j = Some e -> j <> eid ->
                       ex_signal_id e = ex_signal_id ex ->
                       execution_status e = CANCELLED) ->
          signals (db (fst run)) !! ex_signal_id ex
            = Some {| sig_user_id := sig_user_id sg; status := "rejected";
                      processed_at := Some (utcnow env) |}
          /\ new_actions w (fst run)
             = [Broadcast (sig_user_id sg) (SignalUpdate (ex_signal_id ex) "rejected")])
      /\ ((exists j e, executions (db w) !! j = Some e /\ j <> eid
                       /\ ex_signal_id e = ex_signal_id ex
                       /\ terminal (execution_status e) = false) ->
          signals (db (fst run)) = signals (db w)
          /\ new_actions w (fst run) = [])).
Proof.
  intros Hrow run. subst run. split.
  - intros Hst. unfold reject_execution. eng_unfold. cbn. rewrite Hrow.
    destruct (execution_status ex); cbn; try reflexivity. contradiction.
  - intros Hst. unfold reject_execution, _update_signal_status, new_actions.
    eng_unfold. cbn. rewrite Hrow, Hst. cbn.
    set (rows := alter (set_status CANCELLED) eid (executions (db w))).
    assert (Hrows : forall j e, rows !! j = Some e ->
              (j = eid /\ e = set_status CANCELLED ex)
              \/ (j <> eid /\ executions (db w) !! j = Some e)).
    { intros j e He. subst rows. destruct (decide (j = eid)) as [->|Hne].
      - rewrite list_lookup_alter_eq, Hrow in He. left. by inversion He.
      - rewrite list_lookup_alter_ne in He by done. by right. }
    assert (Hmine : rows !! eid = Some (set_status CANCELLED ex)).
    { subst rows. by rewrite list_lookup_alter_eq, Hrow. }
    unfold executions_of. cbn [executions with_executions].
    destruct (signals (db w) !! ex_signal_id ex) as [sg|] eqn:Hsg; cbn.
    2:{ split; [reflexivity|]. split; [reflexivity|].
        rewrite drop_all. split; [constructor|]. split; [intros ? [=]|].
        intros _. split; reflexivity. }
    destruct (List.filter _ rows) as [|e0 l0] eqn:Hfil.
    { exfalso. assert (Hin : In (set_status CANCELLED ex) (List.filter
                 (fun e => N.eqb (ex_signal_id e) (ex_signal_id ex)) rows)).
      { apply filter_In. split.
        - apply list_elem_of_In. by eapply list_elem_of_lookup_2.
        - cbn. apply N.eqb_refl. }
      rewrite Hfil in Hin. destruct Hin. }
    rewrite <- Hfil. clear Hfil e0 l0.
    destruct (forallb resolved _) eqn:Hres; cbn -[forallb].
    + split; [reflexivity|]. split; [reflexivity|].
      rewrite drop_app_length. split; [by repeat constructor|]. split.
      * intros sg' [= <-] Hothers.
        assert (Hc : forallb cancelled (List.filter
                       (fun e => N.eqb (ex_signal_id e) (ex_signal_id ex)) rows) = true).
        { apply forallb_filter_lookup. intros j e He Hs. apply N.eqb_eq in Hs.
          unfold cancelled. destruct (Hrows j e He) as [[_ ->]|[Hne Hj]]; [reflexivity|].
          by rewrite (Hothers j e Hj Hne Hs). }
        rewrite Hc. rewrite lookup_insert_eq. split; reflexivity.
      * intros (j & e & Hj & Hne & Hs & Hterm). exfalso.
        assert (Hr : resolved e = true).
        { rewrite forallb_filter_lookup in Hres. apply (Hres j).
          - subst rows. by rewrite list_lookup_alter_ne.
          - by apply N.eqb_eq. }
        unfold resolved in Hr. destruct (execution_status e); cbn in *; congruence.
    + split; [reflexivity|]. split; [reflexivity|].
      rewrite drop_all. split; [constructor|]. split.
      * intros sg' [= <-] Hothers. exfalso.
        assert (Hr : forallb resolved (List.filter
                       (fun e => N.eqb (ex_signal_id e) (ex_signal_id ex)) rows) = true).
        { apply forallb_filter_lookup. intros j e He Hs. apply N.eqb_eq in Hs.
          unfold resolved. destruct (Hrows j e He) as [[_ ->]|[Hne Hj]]; [reflexivity|].
          by rewrite (Hothers j e Hj Hne Hs). }
        congruence.
      * intros _. split; reflexivity.
Qed.

Lemma reject_execution_cancels_witness :
  signals (db (fst (reject_execution fx_env 1
                      (fx_world [fx_row CANCELLED None None None;
                                 fx_row PENDING_APPROVAL None None None] ∅)))) !! 7%N
  = Some {| sig_user_id := 1; status := "rejected"; processed_at := Some 1700000000 |}.
Proof.
  destruct (reject_execution_cancels fx_env 1
              (fx_world [fx_row CANCELLED None None None;
                         fx_row PENDING_APPROVAL None None None] ∅)
              (fx_row PENDING_APPROVAL None None None) eq_refl) as [_ H].
  destruct (H eq_refl) as (_ & _ & _ & Hsig & _).
  destruct (Hsig {| sig_user_id := 1; status := "pending"; processed_at := None |}
              eq_refl) as [Hs _].
  - intros [|[|j]] e He Hne _; cbn in He.
    + by inversion He.
    + contradiction.
    + discriminate.
  - exact Hs.
Defined.

(** ** The three branches of [execute_signal] *)

Section Branches.
Variables (env : Env) (uid sid bid : N) (p : ParsedSignal) (volume : Q)
          (sym side : string).
Hypothesis Hsym : symbol p = Some sym.
Hypothesis Hside : signal_type p = Some side.

Lemma approval_loop_full (tps : list (option Q)) :
  forall w, exists w',
    approval_loop uid sid bid p volume tps w
      = (w', inr (List.seq (length (executions (db w))) (length tps)))
    /\ executions (db w')
       = executions (db w)
         ++ map (fun tp => new_execution uid sid bid sym side p volume tp
                             PENDING_APPROVAL) tps
    /\ signals (db w') = signals (db w)
    /\ is_connected w' = is_connected w
    /\ trace w'
       = trace w ++ zip_with (approval_request uid sid p sym side)
                      (List.seq (length (executions (db w))) (length tps)) tps.
Proof.
  induction tps as [|tp tps IH]; intros w.
  - cbn. exists w. rewrite !app_nil_r. done.
  - cbn [approval_loop]. unfold add_execution. rewrite Hsym, Hside.
    unfold broadcast, emit, set_db, get_world, mbind, eng_mbind, eng_bind, mret,
      eng_mret, eng_ret.
    cbn.
    match goal with
    | |- context [approval_loop _ _ _ _ _ _ ?w0] =>
      destruct (IH w0) as (w2 & Hloop & Hrows & Hsigs & Hconn & Htr); rewrite Hloop
    end.
    cbn in *. rewrite length_app in *. cbn in *.
    rewrite Nat.add_1_r in *.
    exists w2. split; [reflexivity|].
    rewrite Hrows, Hsigs, Hconn, Htr, <- !app_assoc. done.
Qed.

Lemma auto_loop_settles (prefs : option UserPreferences) (tps : list (option Q)) :
  forall w, exists w' results news,
    auto_loop env uid sid bid p prefs volume tps w = (w', inr results)
    /\ executions (db w') = executions (db w) ++ news
    /\ Forall2 settled_as results news
    /\ map plan_of news
       = map (fun tp => plan_of (new_execution uid sid bid sym side p volume tp PENDING))
           tps
    /\ map pr_execution_id results = List.seq (length (executions (db w))) (length tps).
Proof.
  induction tps as [|tp tps IH]; intros w.
  - cbn. exists w, [], []. rewrite app_nil_r. repeat split; constructor.
  - cbn [auto_loop]. unfold add_execution. rewrite Hsym, Hside.
    unfold set_db, get_world, mbind, eng_mbind, eng_bind, mret, eng_mret, eng_ret.
    cbn.
    set (new := new_execution uid sid bid sym side p volume tp PENDING).
    match goal with
    | |- context [_process_single_execution ?e ?i ?q ?pf ?w0] =>
      destruct (process_single_execution_total e i q pf w0 new)
        as (w1 & r & f & acts & Hrun & Hrows & _ & _ & _ & Hid & Hplan & Hst & _);
        [cbn; by apply list_lookup_middle | rewrite Hrun]
    end.
    cbn in Hrows.
    rewrite alter_app_r_alt, Nat.sub_diag in Hrows by lia. cbn in Hrows.
    destruct (IH w1) as (w2 & results & news & Hloop & Hrows2 & Hset & Hplans & Hids).
    rewrite Hloop. exists w2, (r :: results), (f new :: news).
    split; [reflexivity|]. rewrite Hrows2, Hrows, <- app_assoc.
    split; [reflexivity|]. split; [|split].
    + constructor; [|exact Hset]. unfold settled_as.
      destruct Hst as [(? & -> & _ & ?)|(? & -> & _ & ? & _)]; done.
    + cbn. by rewrite Hplan, Hplans.
    + cbn. rewrite Hid, Hids, Hrows, length_app. cbn. by rewrite Nat.add_1_r.
Qed.
End Branches.

Lemma valid_signal_named (p : ParsedSignal) :
  fst (_validate_signal p) = true ->
  exists sym side, symbol p = Some sym /\ signal_type p = Some side.
Proof.
  unfold _validate_signal.
  destruct (symbol p) as [sym|]; [|discriminate].
  destruct (negb (truthy_str (Some sym))); [discriminate|].
  destruct (signal_type p) as [side|]; [|discriminate].
  intros _. by exists sym, side.
Qed.

(** X8.  With manual approval on and a risk setting within the range of
    floats, a fresh valid signal is parked: one execution per take profit is
    created in state PENDING_APPROVAL, without ticket and with the volume of
    the fan-out; the result lists their identifiers in TP order; the user gets one
    signal_approval_required message per execution, carrying its identifier
    and take profit; nothing else happens, so the broker is not contacted and
    the signal row keeps its status. *)
Theorem manual_approval_parks_the_signal (env : Env) (sid bid uid : N)
    (p : ParsedSignal) (w : World) (sg : Signal) (bc : BrokerConfig)
    (up : UserPreferences) :
  signals (db w) !! sid = Some sg ->
  broker_configs (db w) !! bid = Some bc ->
  user_preferences (db w) !! uid = Some up ->
  manual_approval up = true ->
  fst (_validate_signal p) = true ->
  risk_in_range (Some up) ->
  let run := execute_signal env sid bid uid p None w in
  let ids := List.seq (length (executions (db w))) (length (tp_list p)) in
  exists sym side,
    symbol p = Some sym /\ signal_type p = Some side
    /\ snd run = inr (ExecPendingApproval ids)
    /\ created w (fst run)
       = map (fun tp => new_execution uid sid bid sym side p
                          (pos_volume (Some up) (tp_list p)) tp PENDING_APPROVAL)
           (tp_list p)
    /\ Forall (fun e => execution_status e = PENDING_APPROVAL /\ ticket_number e = None)
         (created w (fst run))
    /\ new_actions w (fst run)
       = zip_with (approval_request uid sid p sym side) ids (tp_list p)
    /\ Forall (fun a => is_broker_op a = false) (new_actions w (fst run))
    /\ signals (db (fst run)) = signals (db w).
Proof.
  intros Hsg Hbc Hup Hman Hvalid _ run ids. subst run ids.
  destruct (valid_signal_named p Hvalid) as (sym & side & Hsym & Hside).
  exists sym, side. split; [exact Hsym|]. split; [exact Hside|].
  pose proof (validate_true_no_warnings p Hvalid) as Hw.
  unfold execute_signal, execute_signal_body, try_except.
  unfold call_validate_signal, emit_all.
  unfold get_world, mbind, eng_mbind, eng_bind, mret, eng_mret, eng_ret.
  cbn. rewrite Hsg, Hbc, Hup, Hman, (validation_exception_valid p Hvalid), Hw, Hvalid.
  cbn.
  match goal with
  | |- context [approval_loop ?a ?b ?c ?d ?v ?t ?w0] =>
    destruct (approval_loop_full a b c d v sym side Hsym Hside t w0)
      as (w2 & Hloop & Hrows & Hsigs & _ & Htr); rewrite Hloop
  end.
  cbn in *. rewrite app_nil_r in Htr.
  unfold created, new_actions. rewrite Hrows, Htr, !drop_app_length.
  split; [reflexivity|]. split; [reflexivity|]. split; [|split; [reflexivity|split]].
  - apply Forall_forall. intros e [tp [-> _]]%list_elem_of_fmap. done.
  - apply Forall_forall. intros a Ha.
    apply list_elem_of_lookup in Ha as [i Hi].
    apply lookup_zip_with_Some in Hi as (j & tp & -> & _ & _). reflexivity.
  - exact Hsigs.
Qed.

(** Risk 0.1 over four take profits: the float quotient lies just above
    0.025 and every position gets volume 0.03. *)
Lemma manual_approval_parks_the_signal_witness :
  map ex_volume
    (created (fx_world [] (fx_prefs true 0.1%Q))
       (fst (execute_signal fx_env 7 3 1 fx_buy_four None
               (fx_world [] (fx_prefs true 0.1%Q)))))
  = [0.03%Q; 0.03%Q; 0.03%Q; 0.03%Q].
Proof.
  destruct (manual_approval_parks_the_signal fx_env 7 3 1 fx_buy_four
              (fx_world [] (fx_prefs true 0.1%Q))
              {| sig_user_id := 1; status := "pending"; processed_at := None |}
              {| login := 4242; server := "Demo-Server" |}
              {| manual_approval := true; risk_per_trade := Some 0.1%Q;
                 max_slippage := 5.0%Q; use_limit_orders := true |})
    as (sym & side & _ & _ & _ & H & _);
    [reflexivity | reflexivity | reflexivity | reflexivity | reflexivity
    | apply Qle_bool_iff; vm_compute; reflexivity |].
  rewrite H. vm_compute. reflexivity.
Defined.

(** X9.  With a terminal whose tickets fit the ticket column and a risk
    setting within the range of floats: without manual approval (no
    preferences, or the flag off) a fresh signal with symbol and side is
    executed at once: one execution per take
    profit is created and processed in TP order, one result each.  Every
    created execution ends EXECUTED or FAILED, as its result says, with the
    planned symbol, side, volume, entry, stop loss and its own take profit;
    the rows that existed before are still in place. *)
Theorem auto_execution_settles_every_position (env : Env) (sid bid uid : N)
    (p : ParsedSignal) (w : World) (sg : Signal) (bc : BrokerConfig)
    (sym side : string) :
  signals (db w) !! sid = Some sg ->
  broker_configs (db w) !! bid = Some bc ->
  symbol p = Some sym ->
  signal_type p = Some side ->
  (forall up, user_preferences (db w) !! uid = Some up -> manual_approval up = false) ->
  tickets_fit (mt5 env) ->
  risk_in_range (user_preferences (db w) !! uid) ->
  let run := execute_signal env sid bid uid p None w in
  let prefs := user_preferences (db w) !! uid in
  exists results,
    snd run = inr (ExecResults results)
    /\ map pr_execution_id results
       = List.seq (length (executions (db w))) (length (tp_list p))
    /\ Forall2 settled_as results (created w (fst run))
    /\ map plan_of (created w (fst run))
       = map (fun tp => plan_of (new_execution uid sid bid sym side p
                                   (pos_volume prefs (tp_list p)) tp PENDING))
           (tp_list p)
    /\ take (length (executions (db w))) (executions (db (fst run)))
       = executions (db w).
Proof.
  intros Hsg Hbc Hsym Hside Hman _ _ run prefs. subst run prefs.
  unfold execute_signal, execute_signal_body, try_except.
  unfold get_world, mbind, eng_mbind, eng_bind, mret, eng_mret, eng_ret.
  cbn. rewrite Hsg, Hbc.
  assert (Hloop : forall w0, w0 = w ->
    exists w2 results,
      auto_loop env uid sid bid p (user_preferences (db w) !! uid)
        (pos_volume (user_preferences (db w) !! uid) (tp_list p)) (tp_list p) w0
      = (w2, inr results)
      /\ map pr_execution_id results
         = List.seq (length (executions (db w))) (length (tp_list p))
      /\ Forall2 settled_as results (created w w2)
      /\ map plan_of (created w w2)
         = map (fun tp => plan_of (new_execution uid sid bid sym side p
                 (pos_volume (user_preferences (db w) !! uid) (tp_list p)) tp PENDING))
             (tp_list p)
      /\ take (length (executions (db w))) (executions (db w2)) = executions (db w)).
  { intros w0 ->.
    destruct (auto_loop_settles env uid sid bid p
                (pos_volume (user_preferences (db w) !! uid) (tp_list p))
                sym side Hsym Hside (user_preferences (db w) !! uid) (tp_list p) w)
      as (w2 & results & news & Hrun & Hrows & Hset & Hplans & Hids).
    exists w2, results. split; [exact Hrun|]. split; [exact Hids|].
    unfold created. rewrite Hrows, drop_app_length, take_app_length. done. }
  destruct (user_preferences (db w) !! uid) as [up|] eqn:Hup.
  - rewrite (Hman up eq_refl).
    destruct (Hloop w eq_refl) as (w2 & results & -> & ? & ? & ? & ?).
    exists results. done.
  - destruct (Hloop w eq_refl) as (w2 & results & -> & ? & ? & ? & ?).
    exists results. done.
Qed.

Lemma auto_execution_settles_every_position_witness :
  exists results,
    snd (execute_signal fx_env 7 3 1 fx_gold None (fx_world [] (fx_prefs false 1.0%Q)))
    = inr (ExecResults results)
    /\ map pr_execution_id results = [0; 1; 2; 3; 4; 5; 6]%nat.
Proof.
  destruct (auto_execution_settles_every_position fx_env 7 3 1 fx_gold
              (fx_world [] (fx_prefs false 1.0%Q))
              {| sig_user_id := 1; status := "pending"; processed_at := None |}
              {| login := 4242; server := "Demo-Server" |} "XAUUSD" "sell")
    as (results & H & Hids & _);
    [reflexivity | reflexivity | reflexivity | reflexivity | | | | ].
  - intros up Hup. vm_compute in Hup. inversion Hup. reflexivity.
  - intros request r [= <-]. cbn. lia.
  - apply Qle_bool_iff. vm_compute. reflexivity.
  - exists results. split; [exact H | exact Hids].
Defined.

(** X10.  With a terminal whose tickets fit the ticket column, resuming an
    execution never creates a row.  When the execution
    does not exist the call fails with "Execution ... not found" and leaves
    the database as it was.  When it exists, its planned entry, stop loss and
    take profit are first overwritten with those of the signal handed in, the
    execution is then processed once, whatever the manual-approval setting,
    and it ends EXECUTED or FAILED as the result says. *)
Theorem resume_processes_the_given_execution (env : Env) (sid bid uid : N)
    (p : ParsedSignal) (eid : nat) (w : World) (sg : Signal) (bc : BrokerConfig) :
  signals (db w) !! sid = Some sg ->
  broker_configs (db w) !! bid = Some bc ->
  tickets_fit (mt5 env) ->
  let run := execute_signal env sid bid uid p (Some eid) w in
  length (executions (db (fst run))) = length (executions (db w))
  /\ (executions (db w) !! eid = None ->
      snd run = inr (ExecFailure ("Execution " +:+ pretty eid +:+ " not found"))
      /\ db (fst run) = db w
      /\ Forall (fun a => is_broker_op a = false) (new_actions w (fst run)))
  /\ (forall ex, executions (db w) !! eid = Some ex ->
      exists r ex',
        snd run = inr (ExecResumed r)
        /\ executions (db (fst run)) !! eid = Some ex'
        /\ plan_of ex'
           = plan_of (set_planned (entry_price p) (stop_loss p) (take_profit p) ex)
        /\ settled_as r ex'
        /\ forall j, j <> eid -> executions (db (fst run)) !! j = executions (db w) !! j).
Proof.
  intros Hsg Hbc _ run. subst run.
  unfold execute_signal, execute_signal_body, try_except, update_execution, raise, emit,
    set_db.
  unfold get_world, mbind, eng_mbind, eng_bind, mret, eng_mret, eng_ret.
  cbn. rewrite Hsg, Hbc.
  destruct (executions (db w) !! eid) as [ex|] eqn:Hrow.
  - set (w0 := {| db := _; is_connected := _; trace := _ |}).
    destruct (process_single_execution_total env eid p (user_preferences (db w) !! uid)
                w0 (set_planned (entry_price p) (stop_loss p) (take_profit p) ex))
      as (w1 & r & f & acts & Hrun & Hrows & _ & _ & _ & _ & Hplan & Hst & _).
    { subst w0. cbn. by rewrite list_lookup_alter_eq, Hrow. }
    rewrite Hrun. cbn [fst snd]. subst w0. cbn in Hrows.
    rewrite list_alter_alter_eq in Hrows.
    split; [by rewrite Hrows, length_alter|]. split; [discriminate|].
    intros ex0 [= <-]. eexists r, _. split; [reflexivity|].
    split; [by rewrite Hrows, list_lookup_alter_eq, Hrow|].
    split; [exact Hplan|]. split.
    + unfold settled_as. cbn.
      destruct Hst as [(? & -> & _ & ?)|(? & -> & _ & ? & _)]; done.
    + intros j Hj. rewrite Hrows. by apply list_lookup_alter_ne.
  - cbn. split; [reflexivity|]. split; [|discriminate].
    intros _. split; [reflexivity|]. split; [reflexivity|].
    unfold new_actions. cbn. rewrite drop_app_length. by repeat constructor.
Qed.

Lemma resume_processes_the_given_execution_witness :
  exists r ex',
    snd (execute_signal fx_env 7 3 1 fx_buy_single (Some 0%nat)
           (fx_world [fx_row PENDING_APPROVAL (Some 1.2000%Q) None None]
              (fx_prefs true 1.0%Q)))
    = inr (ExecResumed r)
    /\ executions
         (db (fst (execute_signal fx_env 7 3 1 fx_buy_single (Some 0%nat)
                     (fx_world [fx_row PENDING_APPROVAL (Some 1.2000%Q) None None]
                        (fx_prefs true 1.0%Q))))) !! 0%nat = Some ex'
    /\ ex_entry_price ex' = Some 1.1000%Q.
Proof.
  destruct (resume_processes_the_given_execution fx_env 7 3 1 fx_buy_single 0
              (fx_world [fx_row PENDING_APPROVAL (Some 1.2000%Q) None None]
                 (fx_prefs true 1.0%Q))
              {| sig_user_id := 1; status := "pending"; processed_at := None |}
              {| login := 4242; server := "Demo-Server" |} eq_refl eq_refl)
    as (_ & _ & H).
  { intros request r [= <-]. cbn. lia. }
  destruct (H (fx_row PENDING_APPROVAL (Some 1.2000%Q) None None) eq_refl)
    as (r & ex' & Hr & Hrow & Hplan & _).
  exists r, ex'. split; [exact Hr|]. split; [exact Hrow|].
  inversion Hplan. reflexivity.
Defined.

(** X11.  The engine does nothing for a signal or a broker configuration it
    cannot find: the call returns the failure "Signal or broker config not
    found" before anything else, for a fresh signal and for a resumed
    execution alike, and the database and the trace are left as they were. *)
Theorem execute_signal_needs_signal_and_broker (env : Env) (sid bid uid : N)
    (p : ParsedSignal) (execution_id : option nat) (w : World) :
  signals (db w) !! sid = None \/ broker_configs (db w) !! bid = None ->
  execute_signal env sid bid uid p execution_id w
  = (w, inr (ExecFailure "Signal or broker config not found")).
Proof.
  intros Hmissing.
  unfold execute_signal, execute_signal_body, try_except.
  unfold get_world, mbind, eng_mbind, eng_bind, mret, eng_mret, eng_ret.
  cbn. destruct Hmissing as [-> | Hb].
  - reflexivity.
  - rewrite Hb. destruct (signals (db w) !! sid); reflexivity.
Qed.

Lemma execute_signal_needs_signal_and_broker_witness :
  execute_signal fx_env 8 3 1 fx_gold None (fx_world [] ∅)
  = (fx_world [] ∅, inr (ExecFailure "Signal or broker config not found")).
Proof.
  apply (execute_signal_needs_signal_and_broker fx_env 8 3 1 fx_gold None
           (fx_world [] ∅)).
  left. reflexivity.
Defined.

(** ** Confirmation route *)

(** X12.  A confirmation is refused unless the execution exists, belongs to
    the caller and is PENDING_APPROVAL or FAILED.  Every refusal is answered
    with status 400 (the "not found" answer too, whose detail starts with
    404); it changes no row and does not reach the engine or the broker. *)
Theorem confirm_execution_refusals (env : Env) (eid : nat) (rq : TradeModifyRequest)
    (uid : N) (w : World) :
  let run := confirm_execution env eid rq uid w in
  ((executions (db w) !! eid = None
    \/ exists ex, executions (db w) !! eid = Some ex /\ ex_user_id ex <> uid) ->
   run = (w, inr (HttpError 400 "404: Execution not found")))
  /\ (forall ex, executions (db w) !! eid = Some ex -> ex_user_id ex = uid ->
      execution_status ex <> PENDING_APPROVAL -> execution_status ex <> FAILED ->
      run = (w, inr (HttpError 400
                       ("400: Execution is in " +:+ state_value (execution_status ex)
                        +:+ " state, not pending_approval or failed")))).
Proof.
  intros run. subst run. unfold confirm_execution.
  unfold get_world, mbind, eng_mbind, eng_bind, mret, eng_mret, eng_ret. cbn.
  split.
  - intros [-> | (ex & -> & Hne)]; [reflexivity|].
    destruct (N.eqb (ex_user_id ex) uid) eqn:E; [|reflexivity].
    apply N.eqb_eq in E. contradiction.
  - intros ex -> <- Hpa Hf. rewrite N.eqb_refl. cbn.
    destruct (execution_status ex); cbn; try reflexivity; contradiction.
Qed.

Lemma confirm_execution_refusals_witness :
  confirm_execution fx_env 0 {| rq_stop_loss := None; rq_take_profit := None |} 1
    (fx_world [fx_open_row] ∅)
  = (fx_world [fx_open_row] ∅,
     inr (HttpError 400
            "400: Execution is in executed state, not pending_approval or failed")).
Proof.
  destruct (confirm_execution_refusals fx_env 0
              {| rq_stop_loss := None; rq_take_profit := None |} 1
              (fx_world [fx_open_row] ∅)) as [_ H].
  apply (H fx_open_row); [reflexivity | reflexivity | discriminate | discriminate].
Defined.

(** X13.  An accepted confirmation answers with success exactly when the
    execution is EXECUTED afterwards; otherwise the answer is an error with
    status 400.  In either case the row keeps its symbol, side, volume and
    planned entry, and its stop loss and take profit are those of the
    request where the request gives them and the stored ones where it does
    not; no row is created. *)
Theorem confirm_execution_outcome (env : Env) (eid : nat) (rq : TradeModifyRequest)
    (uid : N) (w : World) (ex : TradeExecution) :
  executions (db w) !! eid = Some ex ->
  ex_user_id ex = uid ->
  execution_status ex = PENDING_APPROVAL \/ execution_status ex = FAILED ->
  let run := confirm_execution env eid rq uid w in
  exists ex' answer,
    snd run = inr answer
    /\ executions (db (fst run)) !! eid = Some ex'
    /\ ((exists result, answer = HttpOk result) <-> execution_status ex' = EXECUTED)
    /\ (forall code detail, answer = HttpError code detail -> code = 400)
    /\ plan_of ex' = plan_of (apply_overrides rq ex)
    /\ length (executions (db (fst run))) = length (executions (db w)).
Proof.
  intros Hrow Huid Hst run. subst run.
  unfold confirm_execution, update_execution, set_db.
  unfold get_world, mbind, eng_mbind, eng_bind, mret, eng_mret, eng_ret. cbn.
  rewrite Hrow, Huid, N.eqb_refl. cbn.
  assert (Hok : negb (state_eqb (execution_status ex) PENDING_APPROVAL
                      || state_eqb (execution_status ex) FAILED) = false)
    by (destruct Hst as [-> | ->]; reflexivity).
  rewrite Hok. clear Hok.
  assert (Hrow0 : alter (apply_overrides rq) eid (executions (db w)) !! eid
                  = Some (apply_overrides rq ex)).
  { by rewrite list_lookup_alter_eq, Hrow. }
  assert (Hpending : execution_status (apply_overrides rq ex) <> EXECUTED).
  { cbn. destruct Hst as [-> | ->]; discriminate. }
  unfold execute_signal, execute_signal_body, try_except.
  unfold update_execution, set_db, raise, emit.
  unfold get_world, mbind, eng_mbind, eng_bind, mret, eng_mret, eng_ret. cbn.
  destruct (signals (db w) !! ex_signal_id ex) as [sg|].
  2:{ cbn. eexists _, _. split; [reflexivity|]. split; [exact Hrow0|].
      split; [split; [intros [? [=]] | intros H; contradiction]|].
      split; [by intros ? ? [= <- _]|]. split; [reflexivity|]. by rewrite length_alter. }
  destruct (broker_configs (db w) !! ex_broker_config_id ex) as [bc|].
  2:{ cbn. eexists _, _. split; [reflexivity|]. split; [exact Hrow0|].
      split; [split; [intros [? [=]] | intros H; contradiction]|].
      split; [by intros ? ? [= <- _]|]. split; [reflexivity|]. by rewrite length_alter. }
  rewrite Hrow0.
  set (sd := signal_data (apply_overrides rq ex)).
  match goal with
  | |- context [_process_single_execution ?e ?i ?q ?pf ?w1] =>
    destruct (process_single_execution_total e i q pf w1
                (set_planned (entry_price sd) (stop_loss sd) (take_profit sd)
                   (apply_overrides rq ex)))
      as (w2 & r & f & acts & Hrun & Hrows & _ & _ & _ & _ & Hplan & Hres & _);
      [cbn; by rewrite list_lookup_alter_eq, Hrow0 | rewrite Hrun]
  end.
  cbn [fst snd]. cbn in Hrows.
  rewrite !list_alter_alter_eq in Hrows.
  assert (Hrow2 : executions (db w2) !! eid
                  = Some (f (set_planned (entry_price sd) (stop_loss sd) (take_profit sd)
                               (apply_overrides rq ex)))).
  { by rewrite Hrows, list_lookup_alter_eq, Hrow. }
  assert (Hlen2 : length (executions (db w2)) = length (executions (db w))).
  { by rewrite Hrows, length_alter. }
  unfold confirm_response. cbn.
  destruct Hres as [(He & Hs & _)|(He & Hs & _)]; rewrite Hs; cbn;
    eexists _, _; (split; [reflexivity|]); (split; [exact Hrow2|]).
  - split; [split; [done | by eexists]|].
    split; [intros ? ? [=]|]. split; [exact Hplan | exact Hlen2].
  - split; [split; [intros [? [=]] | intros H; congruence]|].
    split; [by intros ? ? [= <- _]|]. split; [exact Hplan | exact Hlen2].
Qed.

Lemma confirm_execution_outcome_witness :
  exists ex',
    executions
      (db (fst (confirm_execution fx_env 0
                  {| rq_stop_loss := Some 1.0940%Q; rq_take_profit := None |} 1
                  (fx_world [fx_row PENDING_APPROVAL (Some 1.1000%Q) (Some 1.0950%Q)
                               (Some 1.1100%Q)] ∅)))) !! 0%nat = Some ex'
    /\ ex_stop_loss ex' = Some 1.0940%Q
    /\ ex_take_profit ex' = Some 1.1100%Q.
Proof.
  destruct (confirm_execution_outcome fx_env 0
              {| rq_stop_loss := Some 1.0940%Q; rq_take_profit := None |} 1
              (fx_world [fx_row PENDING_APPROVAL (Some 1.1000%Q) (Some 1.0950%Q)
                           (Some 1.1100%Q)] ∅)
              (fx_row PENDING_APPROVAL (Some 1.1000%Q) (Some 1.0950%Q) (Some 1.1100%Q)))
    as (ex' & answer & _ & Hrow & _ & _ & Hplan & _);
    [reflexivity | reflexivity | left; reflexivity |].
  exists ex'. split; [exact Hrow|]. inversion Hplan. split; reflexivity.
Defined.

(** ** Order results and deal history *)

(** X14.  The dictionaries returned by the two order functions are well
    formed.  A successful result carries the ticket, the order id that is the
    ticket in decimal and no error, and is only returned by a connected
    executor for side buy or sell (in any letter case); a failed result
    carries an error message and no ticket, so the engine, which reads the
    error with a default text, always finds the terminal's own message. *)
Theorem order_results_are_well_formed (m : MT5) (connected : bool)
    (sym side : string) (price volume : Q) (sl tp : option Q) (comment : string) :
  well_formed_result connected side
    (execute_market_order m connected sym side volume sl tp comment)
  /\ well_formed_result connected side
       (execute_limit_order m connected sym side price volume sl tp comment).
Proof.
  unfold well_formed_result. split.
  - unfold execute_market_order, order_failure.
    destruct connected; cbn; [|by eauto].
    destruct (is_buy_or_sell side); cbn; [|by eauto].
    destruct (symbol_info m sym) as [info|]; cbn; [|by eauto].
    destruct (order_send m _) as [msg|last|res]; cbn; [by eauto|by eauto|].
    destruct (Z.eqb (retcode res) (TRADE_RETCODE_DONE m)); cbn; by eauto.
  - unfold execute_limit_order, order_failure.
    destruct connected; cbn; [|by eauto].
    destruct (is_buy_or_sell side); cbn; [|by eauto].
    destruct (order_send m _) as [msg|last|res]; cbn; [by eauto|by eauto|].
    destruct (Z.eqb (retcode res) (TRADE_RETCODE_DONE m)); cbn; by eauto.
Qed.

Lemma find_rev_split {A : Type} (P : A -> bool) (l : list A) :
  match List.find P (rev l) with
  | Some d => exists before after,
                l = before ++ d :: after /\ P d = true
                /\ Forall (fun x => P x = false) after
  | None => Forall (fun x => P x = false) l
  end.
Proof.
  induction l as [|x l IH] using rev_ind; [by constructor|].
  rewrite rev_unit. cbn. destruct (P x) eqn:Hx.
  - exists l, []. repeat split; [done|constructor].
  - destruct (List.find P (rev l)) as [d|].
    + destruct IH as (before & after & -> & Hd & Hafter).
      exists before, (after ++ [x]). rewrite <- app_assoc. split; [done|].
      split; [done|]. apply Forall_app. split; [done|]. by repeat constructor.
    + apply Forall_app. split; [done|]. by repeat constructor.
Qed.

(** X15.  The deal reported for a ticket is chosen from the history the
    terminal returns for that position: it is the last deal whose entry is
    DEAL_ENTRY_OUT, and the last deal of the history when none is.  Nothing
    is reported exactly when the executor is not connected or the terminal
    has no deal for the ticket. *)
Theorem get_history_deals_picks_last_closing_deal (m : MT5) (connected : bool) (tk : Z) :
  (get_history_deals m connected tk = None
   <-> connected = false \/ history_deals_get m tk = None
       \/ history_deals_get m tk = Some [])
  /\ (forall d, get_history_deals m connected tk = Some d ->
      exists before after,
        history_deals_get m tk = Some (before ++ d :: after)
        /\ Forall (fun x => is_out x = false) after
        /\ (is_out d = true \/ after = [])).
Proof.
  unfold get_history_deals.
  destruct connected; cbn; [|split; [split; auto | discriminate]].
  destruct (history_deals_get m tk) as [deals|]; [|split; [split; auto | discriminate]].
  pose proof (find_rev_split is_out deals) as Hfind.
  destruct (List.find is_out (rev deals)) as [d0|].
  - destruct Hfind as (before & after & -> & Hd & Hafter). split.
    + split; [discriminate|].
      intros [? | [? | [= H]]]; try discriminate. by destruct before.
    + intros d [= <-]. exists before, after. auto.
  - split.
    + split.
      * destruct deals as [|x l] using rev_ind; [by auto|].
        rewrite last_snoc. discriminate.
      * intros [? | [? | [= ->]]]; try discriminate. reflexivity.
    + intros d Hlast. destruct deals as [|x l _] using rev_ind; [discriminate|].
      rewrite last_snoc in Hlast. inversion Hlast; subst x.
      exists l, []. split; [done|]. split; [constructor | by right].
Qed.

(** ** Registry of the notification hub *)

Lemma remove_first_absent (ws : ConnectionManager.WebSocket)
    (l : list ConnectionManager.WebSocket) :
  ws ∉ l -> ConnectionManager.remove_first ws l = l.
Proof.
  induction l as [|x l IH]; cbn; [done|].
  intros Hn. apply not_elem_of_cons in Hn as [Hne Hn].
  destruct (N.eqb x ws) eqn:E; [apply N.eqb_eq in E; congruence|].
  by rewrite IH.
Qed.

Lemma remove_first_snoc (ws : ConnectionManager.WebSocket)
    (l : list ConnectionManager.WebSocket) :
  ws ∉ l -> ConnectionManager.remove_first ws (l ++ [ws]) = l.
Proof.
  induction l as [|x l IH]; cbn.
  - intros _. by rewrite N.eqb_refl.
  - intros Hn. apply not_elem_of_cons in Hn as [Hne Hn].
    destruct (N.eqb x ws) eqn:E; [apply N.eqb_eq in E; congruence|].
    by rewrite IH.
Qed.

Lemma remove_first_count (ws x : ConnectionManager.WebSocket)
    (l : list ConnectionManager.WebSocket) :
  length (List.filter (N.eqb x) (ConnectionManager.remove_first ws l))
  = (length (List.filter (N.eqb x) l)
     - (if bool_decide (x = ws /\ ws ∈ l) then 1 else 0))%nat.
Proof.
  induction l as [|y l IH]; cbn.
  - rewrite bool_decide_eq_false_2; [done|]. intros [_ H]. by apply elem_of_nil in H.
  - destruct (N.eqb y ws) eqn:E.
    + apply N.eqb_eq in E. subst y. destruct (N.eqb x ws) eqn:E2; cbn.
      * apply N.eqb_eq in E2. subst x.
        rewrite bool_decide_eq_true_2; [lia|]. split; [done|by left].
      * rewrite bool_decide_eq_false_2; [lia|].
        intros [-> _]. by rewrite N.eqb_refl in E2.
    + cbn. destruct (N.eqb x y) eqn:E2; cbn; rewrite IH.
      * apply N.eqb_eq in E2. subst y.
        rewrite !bool_decide_eq_false_2; [lia| |].
        -- intros [-> _]. by rewrite N.eqb_refl in E.
        -- intros [-> _]. by rewrite N.eqb_refl in E.
      * destruct (bool_decide (x = ws /\ ws ∈ l)) eqn:B.
        -- apply bool_decide_eq_true in B as [-> Hin].
           rewrite bool_decide_eq_true_2; [done|]. split; [done|by right].
        -- apply bool_decide_eq_false in B.
           rewrite bool_decide_eq_false_2; [done|].
           intros [-> Hin]. apply B. split; [done|].
           apply elem_of_cons in Hin as [->|Hin]; [|done].
           by rewrite N.eqb_refl in E.
Qed.

(** X16.  Registering a session and then unregistering it restores the
    registry, provided the session was not already registered for the user
    and no user is listed with an empty session list. *)
Theorem hub_disconnect_undoes_connect (ws : ConnectionManager.WebSocket) (uid : N)
    (active : gmap N (list ConnectionManager.WebSocket)) :
  no_empty_entry active ->
  ws ∉ default [] (active !! uid) ->
  ConnectionManager.disconnect ws uid (ConnectionManager.connect ws uid active) = active.
Proof.
  intros Hok Hfresh. unfold ConnectionManager.disconnect, ConnectionManager.connect.
  rewrite lookup_insert_eq.
  destruct (active !! uid) as [l|] eqn:Hl; cbn in *.
  - rewrite remove_first_snoc by done.
    destruct l as [|x l]; [by destruct (Hok uid [] Hl)|].
    rewrite insert_insert_eq. by apply insert_id.
  - rewrite N.eqb_refl. by apply delete_insert_id.
Qed.

Lemma hub_disconnect_undoes_connect_witness :
  ConnectionManager.disconnect 12%N 1%N (ConnectionManager.connect 12%N 1%N fx_registry)
  = fx_registry.
Proof.
  apply (hub_disconnect_undoes_connect 12%N 1%N fx_registry).
  - intros uid conns H.
    destruct (decide (uid = 1%N)) as [->|Hne].
    + vm_compute in H. inversion H. discriminate.
    + unfold fx_registry in H. rewrite lookup_singleton_ne in H by done. discriminate.
  - apply (bool_decide_unpack _). vm_compute. exact I.
Defined.

(** X17.  The registry never lists a user with an empty session list: the
    empty registry has the property, and connect and disconnect keep it, so
    a user is a key of the registry exactly while a session is registered. *)
Theorem hub_registry_keeps_no_empty_entry (ws : ConnectionManager.WebSocket) (uid : N)
    (active : gmap N (list ConnectionManager.WebSocket)) :
  no_empty_entry ∅
  /\ (no_empty_entry active ->
      no_empty_entry (ConnectionManager.connect ws uid active)
      /\ no_empty_entry (ConnectionManager.disconnect ws uid active)).
Proof.
  split; [intros u l H; by rewrite lookup_empty in H|].
  intros Hok. split.
  - unfold ConnectionManager.connect. intros u l.
    destruct (decide (u = uid)) as [->|Hne].
    + rewrite lookup_insert_eq. intros [= <-]. by destruct (default [] (active !! uid)).
    + rewrite lookup_insert_ne by done. apply Hok.
  - unfold ConnectionManager.disconnect.
    destruct (active !! uid) as [l0|] eqn:Hl; [|done].
    destruct (ConnectionManager.remove_first ws l0) as [|y l1] eqn:Hr.
    + intros u l. destruct (decide (u = uid)) as [->|Hne].
      * by rewrite lookup_delete_eq.
      * rewrite lookup_delete_ne by done. apply Hok.
    + intros u l. destruct (decide (u = uid)) as [->|Hne].
      * rewrite lookup_insert_eq. by intros [= <-].
      * rewrite lookup_insert_ne by done. apply Hok.
Qed.

Lemma hub_registry_keeps_no_empty_entry_witness :
  no_empty_entry (ConnectionManager.disconnect 10%N 1%N {[ 1%N := [10%N] ]}).
Proof.
  destruct (hub_registry_keeps_no_empty_entry 10%N 1%N {[ 1%N := [10%N] ]}) as [_ H].
  apply H. intros uid conns Hc.
  destruct (decide (uid = 1%N)) as [->|Hne].
  - rewrite lookup_singleton_eq in Hc. inversion Hc. discriminate.
  - rewrite lookup_singleton_ne in Hc by done. discriminate.
Defined.

(** X18.  Unregistering a session removes one registration of that session
    for that user and nothing else: its registration count for the user
    drops by one when it was registered and stays zero otherwise, the counts
    of the other sessions of the user are unchanged, and so are the entries
    of the other users. *)
Theorem hub_disconnect_removes_one_registration (ws : ConnectionManager.WebSocket)
    (uid : N) (active : gmap N (list ConnectionManager.WebSocket)) :
  let active' := ConnectionManager.disconnect ws uid active in
  registrations ws uid active' = (registrations ws uid active - 1)%nat
  /\ (forall x, x <> ws -> registrations x uid active' = registrations x uid active)
  /\ (forall u, u <> uid -> active' !! u = active !! u).
Proof.
  intros active'. subst active'.
  assert (Hlist : default [] (ConnectionManager.disconnect ws uid active !! uid)
                  = ConnectionManager.remove_first ws (default [] (active !! uid))).
  { unfold ConnectionManager.disconnect. unfold ConnectionManager.WebSocket in *.
    destruct (active !! uid) as [l|] eqn:Hl; [|by rewrite Hl].
    destruct (ConnectionManager.remove_first ws l) as [|y l1] eqn:Hr.
    - by rewrite lookup_delete_eq.
    - by rewrite lookup_insert_eq. }
  unfold registrations. unfold ConnectionManager.WebSocket in *.
  rewrite Hlist. split; [|split].
  - rewrite remove_first_count.
    match goal with
    | |- context [bool_decide ?P] => destruct (bool_decide P) eqn:B; [done|]
    end.
    apply bool_decide_eq_false in B.
    assert (Hz : List.filter (N.eqb ws) (default [] (active !! uid)) = []).
    { destruct (List.filter _ _) as [|y l] eqn:Hf; [done|]. exfalso. apply B.
      split; [done|]. assert (Hin : In y (List.filter (N.eqb ws) (default [] (active !! uid))))
        by (rewrite Hf; by left).
      apply filter_In in Hin as [Hin Heq]. apply N.eqb_eq in Heq. subst y.
      by apply list_elem_of_In. }
    rewrite Hz. reflexivity.
  - intros x Hx. rewrite remove_first_count.
    rewrite bool_decide_eq_false_2; [lia|]. by intros [? _].
  - intros u Hu. unfold ConnectionManager.disconnect.
    unfold ConnectionManager.WebSocket in *.
    destruct (active !! uid) as [l|]; [|done].
    destruct (ConnectionManager.remove_first ws l).
    + by rewrite lookup_delete_ne.
    + by rewrite lookup_insert_ne.
Qed.

Lemma broadcast_events_length send prefix msg
    (conns : list ConnectionManager.WebSocket) :
  length (concat (map (ConnectionManager.send_to send prefix msg) conns)) = length conns.
Proof.
  induction conns as [|x conns IH]; [done|].
  cbn. rewrite length_app, IH. unfold ConnectionManager.send_to.
  by destruct (send x msg).
Qed.

(** X19.  A broadcast without a user (system events, the keep-alive ping)
    attempts every registered session of every user once: there is one event
    per registration, each session of each user is either sent the message
    or has its send error logged, the message is sent to registered sessions
    only, and the registry is left as it was. *)
Theorem hub_broadcast_to_all (send_text : ConnectionManager.WebSocket -> string -> option string)
    (active : gmap N (list ConnectionManager.WebSocket)) (json_message : string) :
  let result := ConnectionManager.broadcast send_text active json_message None in
  fst result = active
  /\ length (snd result) = length (concat (map snd (map_to_list active)))
  /\ (forall uid conns ws, active !! uid = Some conns -> ws ∈ conns ->
      match send_text ws json_message with
      | None => ConnectionManager.Sent ws json_message ∈ snd result
      | Some e =>
        ConnectionManager.HubLogError ("Error broadcasting WS message: " +:+ e)
          ∈ snd result
      end)
  /\ (forall ws m, ConnectionManager.Sent ws m ∈ snd result ->
      m = json_message /\ exists uid conns, active !! uid = Some conns /\ ws ∈ conns).
Proof.
  intros result. subst result. unfold ConnectionManager.broadcast. cbn [fst snd].
  split; [reflexivity|]. split; [|split].
  - induction (map_to_list active) as [|[u l] rest IH]; [done|].
    cbn. rewrite !length_app, IH, broadcast_events_length. reflexivity.
  - intros uid conns ws Hc Hin.
    assert (Hsub : forall ev,
              ev ∈ ConnectionManager.send_to send_text "Error broadcasting WS message: "
                     json_message ws ->
              ev ∈ concat (map (fun kv => concat (map (ConnectionManager.send_to send_text
                                           "Error broadcasting WS message: "
                                           json_message) (snd kv)))
                             (map_to_list active))).
    { intros ev Hev. apply list_elem_of_In, in_concat. eexists. split.
      - apply in_map_iff. exists (uid, conns). split; [reflexivity|].
        apply list_elem_of_In, elem_of_map_to_list. exact Hc.
      - cbn. apply in_concat. eexists. split.
        + apply in_map, list_elem_of_In, Hin.
        + apply list_elem_of_In, Hev. }
    unfold ConnectionManager.send_to in Hsub.
    destruct (send_text ws json_message); apply Hsub; left.
  - intros ws m Hin. apply list_elem_of_In, in_concat in Hin as (evs & Hevs & Hin).
    apply in_map_iff in Hevs as ([uid conns] & <- & Hkv). cbn in Hin.
    apply in_concat in Hin as (evs' & Hevs' & Hin).
    apply in_map_iff in Hevs' as (x & <- & Hx). unfold ConnectionManager.send_to in Hin.
    destruct (send_text x json_message); cbn in Hin.
    + destruct Hin as [Hin|[]]. discriminate.
    + destruct Hin as [Hin|[]]. inversion Hin; subst.
      split; [reflexivity|]. exists uid, conns.
      split; [by apply elem_of_map_to_list, list_elem_of_In | by apply list_elem_of_In].
Qed.

(** ** More on the synchronizer *)

(** A pass brings every EXECUTED row with an available session up to date. *)
Lemma sync_pass_spec (env : Env) (w : World) :
  exists w' acts,
    sync_all_active_positions env w = (w', inr tt)
    /\ trace w' = trace w ++ acts
    /\ forall j e bc uid,
         executions (db w) !! j = Some e -> execution_status e = EXECUTED ->
         broker_configs (db w) !! ex_broker_config_id e = Some bc ->
         sync_user (db w) (ex_broker_config_id e) = Some uid ->
         session_available env uid (ex_broker_config_id e) bc ->
         executions (db w') !! j
           = Some (synced_row env (tickets_of (positions_get (mt5 env))) e)
         /\ forall a,
              a ∈ sync_actions env uid (tickets_of (positions_get (mt5 env))) j e ->
              a ∈ acts.
Proof.
  unfold sync_all_active_positions, get_world, mbind, eng_mbind, eng_bind.
  pose proof (by_broker_first (db w)) as Hfirst.
  unfold by_broker in *.
  destruct (by_broker_fold (active_executions (db w)) [])
    as (Hperm & Hsound & Hcompl & _).
  cbn [map concat app] in Hperm.
  set (groups := fold_left _ (active_executions (db w)) []) in *.
  assert (Hmem : forall k, k ∈ concat (map snd groups) ->
            exists e, executions (db w) !! k = Some e /\ execution_status e = EXECUTED).
  { intros k Hk. rewrite Hperm in Hk.
    apply list_elem_of_In, in_map_iff in Hk as ([k' e] & Hk' & Hin).
    cbn in Hk'. subst k'. apply list_elem_of_In, active_executions_spec in Hin.
    destruct Hin as [Hl He]. exists e. split; [done|]. by apply is_executed_iff. }
  destruct (sync_groups_spec env groups w)
    as (w' & acts & Hrun & _ & _ & Htr & _ & _ & Heff).
  { apply Forall_forall. intros k Hk. destruct (Hmem k Hk) as (e & -> & _). by eexists. }
  { rewrite Hperm. apply active_executions_NoDup. }
  exists w', acts. split; [exact Hrun|]. split; [exact Htr|].
  intros j e bc uid Hj Hst Hbc Hu Hs.
  destruct (Hcompl j e) as (items & Hg & Hjin).
  { apply active_executions_spec. split; [done|]. by apply is_executed_iff. }
  destruct (Hfirst _ items uid Hg Hu) as (first & rest & ex0 & Hit & Hex0 & <-).
  exact (Heff _ items bc first rest ex0 Hg Hit Hex0 Hbc Hs j e Hjin Hj).
Qed.

Lemma tickets_of_present (positions : list Position) (tk : Z) :
  (exists pos0, pos0 ∈ positions /\ pos_ticket pos0 = tk) ->
  exists pos, tickets_of positions !! tk = Some pos
              /\ pos ∈ positions /\ pos_ticket pos = tk.
Proof.
  unfold tickets_of.
  assert (Hgen : forall (m : gmap Z Position),
            (forall pos, m !! tk = Some pos -> pos_ticket pos = tk) ->
            ((exists pos, m !! tk = Some pos)
             \/ exists pos0, pos0 ∈ positions /\ pos_ticket pos0 = tk) ->
            exists pos, fold_left (fun m p => <[pos_ticket p := p]> m) positions m !! tk
                        = Some pos
                        /\ (m !! tk = Some pos \/ pos ∈ positions)
                        /\ pos_ticket pos = tk).
  { induction positions as [|p positions IH]; intros m Hm Hex; cbn.
    - destruct Hex as [[pos Hpos]|(pos0 & Hin & _)]; [|by apply elem_of_nil in Hin].
      exists pos. split; [done|]. split; [by left|by apply Hm].
    - destruct (IH (<[pos_ticket p := p]> m)) as (pos & Hl & Hor & Htk).
      + intros pos. destruct (decide (pos_ticket p = tk)) as [<-|Hne].
        * rewrite lookup_insert_eq. by intros [= <-].
        * rewrite lookup_insert_ne by done. apply Hm.
      + destruct (decide (pos_ticket p = tk)) as [<-|Hne].
        * left. exists p. by rewrite lookup_insert_eq.
        * destruct Hex as [[pos Hpos]|(pos0 & Hin & Htk0)].
          -- left. exists pos. by rewrite lookup_insert_ne.
          -- apply elem_of_cons in Hin as [->|Hin]; [contradiction|].
             right. by exists pos0.
      + exists pos. split; [done|]. split; [|done].
        destruct Hor as [Hor|Hin]; [|right; by right].
        destruct (decide (pos_ticket p = tk)) as [<-|Hne].
        * rewrite lookup_insert_eq in Hor. inversion Hor; subst. right. by left.
        * rewrite lookup_insert_ne in Hor by done. by left. }
  intros Hex. destruct (Hgen ∅) as (pos & Hl & Hor & Htk).
  - intros pos. by rewrite lookup_empty.
  - by right.
  - exists pos. split; [done|]. split; [|done].
    destruct Hor as [Hor|Hin]; [by rewrite lookup_empty in Hor | done].
Qed.

(** X20.  In a synchronizer pass, an EXECUTED execution whose ticket is
    among the open positions of its account stays EXECUTED, once a session
    is opened with the credentials of the owner of the first EXECUTED row of
    the account: only its profit_loss is replaced by the profit of that
    position, and one position_update with that profit and the position's
    current price is sent to that user. *)
Theorem sync_refreshes_open_positions (env : Env) (w : World) (j : nat)
    (e : TradeExecution) (tk : Z) (bc : BrokerConfig) (uid : N) :
  executions (db w) !! j = Some e ->
  execution_status e = EXECUTED ->
  ticket_number e = Some tk -> tk <> 0 ->
  broker_configs (db w) !! ex_broker_config_id e = Some bc ->
  sync_user (db w) (ex_broker_config_id e) = Some uid ->
  session_available env uid (ex_broker_config_id e) bc ->
  (exists pos0, pos0 ∈ positions_get (mt5 env) /\ pos_ticket pos0 = tk) ->
  let w' := fst (sync_all_active_positions env w) in
  exists pos,
    pos ∈ positions_get (mt5 env) /\ pos_ticket pos = tk
    /\ executions (db w') !! j = Some (set_profit_loss (pos_profit pos) e)
    /\ Broadcast uid (PositionUpdate (N.of_nat j) (pos_profit pos)
                        (pos_price_current pos)) ∈ new_actions w w'.
Proof.
  intros Hj Hst Htk Hnz Hbc Hu Hs Hopen w'. subst w'.
  destruct (sync_pass_spec env w) as (w' & acts & Hrun & Htr & Hrows).
  rewrite Hrun. cbn [fst].
  destruct (tickets_of_present _ tk Hopen) as (pos & Hl & Hin & Hpt).
  destruct (Hrows j e bc uid Hj Hst Hbc Hu Hs) as [Hrow Hacts].
  revert Hrow Hacts. unfold synced_row, sync_actions. rewrite Htk. cbn.
  destruct (Z.eqb tk 0) eqn:Hz; [by apply Z.eqb_eq in Hz|]. cbn. rewrite Hl.
  intros Hrow Hacts. exists pos. split; [exact Hin|]. split; [exact Hpt|].
  split; [exact Hrow|].
  unfold new_actions. rewrite Htr, drop_app_length. apply Hacts. by left.
Qed.

Lemma sync_refreshes_open_positions_witness :
  exists pos,
    executions
      (db (fst (sync_all_active_positions
                  {| mt5 := {| TRADE_RETCODE_DONE := 10009;
                               mt5_login_ok := fun _ _ _ => true;
                               symbol_info := fun _ => Some fx_info;
                               symbol_info_tick := fun _ => None;
                               order_send := fun _ => SendNone "no connection";
                               positions_get :=
                                 [{| pos_ticket := 9001; pos_profit := 12.5%Q;
                                     pos_price_current := 1.1050%Q |}];
                               history_deals_get := fun _ => None |};
                     mt5_password := fun uid bid =>
                       if (N.eqb uid 1 && N.eqb bid 3)%bool then Some "secret"
                       else None;
                     utcnow := 0 |}
                  (fx_world [fx_open_row] ∅)))) !! 0%nat
    = Some (set_profit_loss (pos_profit pos) fx_open_row).
Proof.
  destruct (sync_refreshes_open_positions
              {| mt5 := {| TRADE_RETCODE_DONE := 10009;
                           mt5_login_ok := fun _ _ _ => true;
                           symbol_info := fun _ => Some fx_info;
                           symbol_info_tick := fun _ => None;
                           order_send := fun _ => SendNone "no connection";
                           positions_get :=
                             [{| pos_ticket := 9001; pos_profit := 12.5%Q;
                                 pos_price_current := 1.1050%Q |}];
                           history_deals_get := fun _ => None |};
                 mt5_password := fun uid bid =>
                   if (N.eqb uid 1 && N.eqb bid 3)%bool then Some "secret"
                   else None;
                 utcnow := 0 |}
              (fx_world [fx_open_row] ∅) 0%nat fx_open_row 9001
              {| login := 4242; server := "Demo-Server" |} 1%N)
    as (pos & _ & _ & Hrow & _).
  - reflexivity.
  - reflexivity.
  - reflexivity.
  - discriminate.
  - reflexivity.
  - reflexivity.
  - split; reflexivity.
  - eexists. split; [by left | reflexivity].
  - exists pos. exact Hrow.
Defined.

(** X21.  A pass over a table without EXECUTED executions does nothing: no
    connection is opened, no row changes and nothing is broadcast. *)
Theorem sync_is_idle_without_executed_rows (env : Env) (w : World) :
  Forall (fun e => execution_status e <> EXECUTED) (executions (db w)) ->
  sync_all_active_positions env w = (w, inr tt).
Proof.
  intros Hnone.
  assert (Hact : active_executions (db w) = []).
  { destruct (active_executions (db w)) as [|[i e] l] eqn:Ha; [done|]. exfalso.
    assert (Hin : (i, e) ∈ active_executions (db w)) by (rewrite Ha; by left).
    apply active_executions_spec in Hin as [Hl He].
    apply is_executed_iff in He. rewrite Forall_forall in Hnone.
    apply (Hnone e); [|done]. by eapply list_elem_of_lookup_2. }
  unfold sync_all_active_positions, get_world, mbind, eng_mbind, eng_bind.
  rewrite Hact. reflexivity.
Qed.

Lemma sync_is_idle_without_executed_rows_witness :
  sync_all_active_positions fx_env_closed
    (fx_world [fx_row PENDING_APPROVAL None None None] ∅)
  = (fx_world [fx_row PENDING_APPROVAL None None None] ∅, inr tt).
Proof.
  apply (sync_is_idle_without_executed_rows fx_env_closed
           (fx_world [fx_row PENDING_APPROVAL None None None] ∅)).
  repeat constructor. discriminate.
Defined.

Lemma sync_actions_no_connect (env : Env) (uid : N) (tks : gmap Z Position)
    (eid : nat) (e : TradeExecution) :
  List.filter is_connect (sync_actions env uid tks eid e) = [].
Proof.
  unfold sync_actions. destruct (negb _); [done|].
  destruct (tks !! _); [done|]. cbn. by destruct (get_history_deals _ _ _).
Qed.

Lemma sync_each_no_connect (env : Env) (uid : N) (tks : gmap Z Position)
    (items : list nat) :
  forall w,
    is_connected w = true ->
    Forall (fun i => is_Some (executions (db w) !! i)) items ->
    exists w' acts,
      sync_each env uid tks items w = (w', inr tt)
      /\ length (executions (db w')) = length (executions (db w))
      /\ trace w' = trace w ++ acts
      /\ List.filter is_connect acts = [].
Proof.
  induction items as [|i rest IH]; intros w Hc Hvalid.
  - exists w, []. cbn. by rewrite app_nil_r.
  - apply Forall_cons in Hvalid as [[e He] Hvalid].
    unfold sync_each. fold sync_each. unfold mbind, eng_mbind, eng_bind.
    rewrite (sync_execution_step env uid tks i w e Hc He).
    set (w1 := {| db := _; is_connected := true; trace := _ |}).
    destruct (IH w1) as (w' & acts & Hrun & Hlen & Htr & Hno).
    { reflexivity. }
    { eapply Forall_impl; [exact Hvalid|]. intros j Hj. cbn.
      apply lookup_lt_is_Some. rewrite length_alter. by apply lookup_lt_is_Some. }
    exists w', (sync_actions env uid tks i e ++ acts).
    rewrite Hrun. split; [reflexivity|].
    split; [by rewrite Hlen; cbn; rewrite length_alter|].
    split; [by rewrite Htr; cbn; rewrite app_assoc|].
    by rewrite List.filter_app, sync_actions_no_connect, Hno.
Qed.

Lemma sync_broker_connects_once (env : Env) (bid : N) (items : list nat) (w : World) :
  Forall (fun i => is_Some (executions (db w) !! i)) items ->
  exists w' acts,
    _sync_broker_positions env bid items w = (w', inr tt)
    /\ length (executions (db w')) = length (executions (db w))
    /\ trace w' = trace w ++ acts
    /\ (length (List.filter is_connect acts) <= 1)%nat.
Proof.
  intros Hvalid.
  unfold _sync_broker_positions, sync_broker_body, try_except.
  destruct items as [|first rest].
  { unfold raise, emit. cbn. eexists _, _. split; [reflexivity|]. cbn.
    split; [done|]. split; [done|]. cbn. lia. }
  pose proof Hvalid as Hvalid'.
  apply Forall_cons in Hvalid' as [[ex0 Hex0] _].
  unfold read_execution, connect, emit, set_connected, get_world.
  unfold mbind, eng_mbind, eng_bind, mret, eng_mret, eng_ret.
  rewrite Hex0.
  destruct (broker_configs (db w) !! bid) as [bc|] eqn:Hbc.
  2:{ exists w, []. rewrite app_nil_r. cbn. repeat split; try reflexivity; cbn; lia. }
  destruct (truthy_str (mt5_password env (ex_user_id ex0) bid)) eqn:Hpw; cbn [negb].
  2:{ exists w, []. rewrite app_nil_r. cbn. repeat split; try reflexivity; cbn; lia. }
  destruct (mt5_login_ok (mt5 env) (login bc)
              (default EmptyString (mt5_password env (ex_user_id ex0) bid)) (server bc))
    eqn:Hlogin; cbn.
  2:{ eexists _, _. split; [reflexivity|]. cbn. repeat split; try reflexivity; cbn; lia. }
  match goal with
  | |- context [sync_each ?e ?u ?t ?it ?w0] =>
    destruct (sync_each_no_connect e u t it w0)
      as (w' & acts & Hrun & Hlen & Htr & Hno);
      [reflexivity | exact Hvalid | rewrite Hrun]
  end.
  eexists w', (_ :: _ :: acts). split; [reflexivity|].
  split; [exact Hlen|].
  split; [rewrite Htr; cbn; by rewrite <- !app_assoc|].
  cbn. rewrite Hno. cbn. lia.
Qed.

Lemma sync_groups_connects (env : Env) (groups : list (N * list nat)) :
  forall w,
    Forall (fun i => is_Some (executions (db w) !! i)) (concat (map snd groups)) ->
    exists w' acts,
      sync_groups env groups w = (w', inr tt)
      /\ length (executions (db w')) = length (executions (db w))
      /\ trace w' = trace w ++ acts
      /\ (length (List.filter is_connect acts) <= length groups)%nat.
Proof.
  induction groups as [|[b0 items0] rest IH]; intros w Hvalid.
  - exists w, []. cbn. rewrite app_nil_r. repeat split; try reflexivity; cbn; lia.
  - cbn [map concat snd] in Hvalid.
    apply Forall_app in Hvalid as [Hv0 Hvr].
    cbn [sync_groups]. unfold mbind, eng_mbind, eng_bind.
    destruct (sync_broker_connects_once env b0 items0 w Hv0)
      as (w1 & acts1 & Hrun1 & Hlen1 & Htr1 & Hc1).
    rewrite Hrun1.
    destruct (IH w1) as (w' & acts & Hrun & Hlen & Htr & Hc).
    { eapply Forall_impl; [exact Hvr|]. intros j Hj. cbn in Hj.
      apply lookup_lt_is_Some. rewrite Hlen1. by apply lookup_lt_is_Some. }
    exists w', (acts1 ++ acts). rewrite Hrun. split; [reflexivity|].
    split; [by rewrite Hlen, Hlen1|].
    split; [by rewrite Htr, Htr1, app_assoc|].
    rewrite List.filter_app, length_app. cbn. lia.
Qed.

(** X22.  A pass logs in at most once per broker account: the number of
    connection attempts is bounded by the number of distinct broker
    configurations among the EXECUTED executions, however many executions
    share an account. *)
Theorem sync_connects_once_per_account (env : Env) (w : World) :
  let w' := fst (sync_all_active_positions env w) in
  let accounts :=
    remove_dups (map (fun ir => ex_broker_config_id (snd ir))
                   (active_executions (db w))) in
  (length (List.filter is_connect (new_actions w w')) <= length accounts)%nat.
Proof.
  intros w' accounts. subst w' accounts.
  unfold sync_all_active_positions, get_world, mbind, eng_mbind, eng_bind.
  unfold by_broker.
  destruct (by_broker_fold (active_executions (db w)) []) as (Hperm & _).
  destruct (by_broker_keys (active_executions (db w)) []) as [Hnd Hkeys];
    [cbn; constructor|].
  cbn [map concat app] in Hperm.
  set (groups := fold_left _ (active_executions (db w)) []) in *.
  destruct (sync_groups_connects env groups w) as (w' & acts & Hrun & _ & Htr & Hc).
  { apply Forall_forall. intros k Hk. rewrite Hperm in Hk.
    apply list_elem_of_In, in_map_iff in Hk as ([k' e] & Hk' & Hin).
    cbn in Hk'. subst k'. apply list_elem_of_In, active_executions_spec in Hin.
    destruct Hin as [-> _]. by eexists. }
  rewrite Hrun. cbn [fst]. unfold new_actions. rewrite Htr, drop_app_length.
  etrans; [exact Hc|]. rewrite <- (length_map fst groups).
  apply submseteq_length, NoDup_submseteq; [exact Hnd|].
  intros k Hk. apply elem_of_remove_dups.
  destruct (Hkeys k Hk) as [H|H]; [by apply elem_of_nil in H | exact H].
Qed.

(** ** The parser's validator and confidence score *)

(** X23.  The validator of the parser module and the validator of the
    engine give the same verdict on every parsed signal. *)
Theorem validators_agree (p : ParsedSignal) :
  validate_signal p = fst (_validate_signal p).
Proof.
  unfold validate_signal, _validate_signal, confidence_ok, orientation_ok.
  destruct (truthy_str (symbol p)); cbn; [|reflexivity].
  destruct (truthy_str (signal_type p)); cbn; [|reflexivity].
  destruct (Qlt_bool _ _); cbn; [reflexivity|].
  destruct (truthy_num (entry_price p) && truthy_num (stop_loss p)
            && truthy_num (take_profit p))%bool; cbn; [|reflexivity].
  destruct (bool_decide (signal_type p = Some "buy")).
  - destruct (chain_lt _ _ _); reflexivity.
  - destruct (bool_decide (signal_type p = Some "sell")); [|reflexivity].
    destruct (chain_lt _ _ _); reflexivity.
Qed.

Lemma validate_signal_confident (p : ParsedSignal) :
  Qlt_bool (default 0%Q (confidence_score p)) 0.5%Q = false ->
  validate_signal p
  = (truthy_str (symbol p) && truthy_str (signal_type p) && orientation_ok p)%bool.
Proof.
  intros Hc. unfold validate_signal, orientation_ok. rewrite Hc.
  destruct (truthy_str (symbol p)); cbn; [|reflexivity].
  destruct (truthy_str (signal_type p)); cbn; [|reflexivity].
  destruct (truthy_num (entry_price p) && truthy_num (stop_loss p)
            && truthy_num (take_profit p))%bool; cbn; [|reflexivity].
  destruct (bool_decide (signal_type p = Some "buy")).
  - destruct (chain_lt _ _ _); reflexivity.
  - destruct (bool_decide (signal_type p = Some "sell")); [|reflexivity].
    destruct (chain_lt _ _ _); reflexivity.
Qed.

(** X24.  The heuristic confidence score lies between 0 and 1, and it is at
    least 0.6 when both a signal type and a symbol were found, whatever else
    is missing and however short the message: a record with that score
    always passes the confidence threshold, and the validator decides on
    symbol, side and price orientation alone. *)
Theorem heuristic_confidence_bounds (stype sym : option string)
    (entry0 sl tp : option Q) (message_text : string) :
  let c := _calculate_confidence stype sym entry0 sl tp message_text in
  (0 <= c <= 1)%Q
  /\ (truthy_str stype = true -> truthy_str sym = true ->
      (0.6 <= c)%Q
      /\ forall p, confidence_score p = Some c ->
           confidence_ok p = true
           /\ validate_signal p
              = (truthy_str (symbol p) && truthy_str (signal_type p)
                 && orientation_ok p)%bool).
Proof.
  intros c. subst c. unfold _calculate_confidence.
  destruct (truthy_str stype), (truthy_str sym), (truthy_num entry0), (truthy_num sl),
    (truthy_num tp), (Nat.ltb 50 (py_len message_text)),
    (Nat.ltb (py_len message_text) 10);
    cbn [negb orb andb];
    (split; [split; vm_compute; discriminate|]);
    intros Ht Hs; try discriminate;
    (split; [vm_compute; discriminate|]);
    intros p Hp;
    (assert (Hc : Qlt_bool (default 0%Q (confidence_score p)) 0.5%Q = false)
       by (rewrite Hp; vm_compute; reflexivity));
    (split; [unfold confidence_ok; by rewrite Hc | by apply validate_signal_confident]).
Qed.

Lemma heuristic_confidence_bounds_witness :
  (0.6 <= _calculate_confidence (Some "buy") (Some "BTC") None None None "buy BTC")%Q.
Proof.
  destruct (heuristic_confidence_bounds (Some "buy") (Some "BTC") None None None
              "buy BTC") as (_ & H).
  destruct (H eq_refl eq_refl) as [Hc _]. exact Hc.
Defined.

(** ** Price extraction *)

Lemma num_in_app (x : Q) (a b : list Q) :
  num_in x (a ++ b) = (num_in x a || num_in x b)%bool.
Proof. unfold num_in. apply existsb_app. Qed.

Lemma num_in_spec (x : Q) (l : list Q) :
  num_in x l = true <-> exists y, y ∈ l /\ (x == y)%Q.
Proof.
  unfold num_in. rewrite existsb_exists. split.
  - intros (y & Hin & Heq). exists y. split; [by apply list_elem_of_In|].
    by apply Qeq_bool_iff.
  - intros (y & Hin & Heq). exists y. split; [by apply list_elem_of_In|].
    by apply Qeq_bool_iff.
Qed.

Lemma append_new_step (acc : list Q) (v : Q) (vs : list Q) :
  append_new acc (v :: vs)
  = append_new (if num_in v acc then acc else acc ++ [v]) vs.
Proof. reflexivity. Qed.

Lemma append_new_prefix (vs acc : list Q) :
  exists extra, append_new acc vs = acc ++ extra.
Proof.
  revert acc. induction vs as [|v vs IH]; intros acc.
  - exists []. by rewrite app_nil_r.
  - rewrite append_new_step. destruct (num_in v acc).
    + apply IH.
    + destruct (IH (acc ++ [v])) as [extra ->]. exists (v :: extra).
      by rewrite <- app_assoc.
Qed.

Lemma distinct_numbers_snoc (l : list Q) (v : Q) :
  distinct_numbers l -> num_in v l = false -> distinct_numbers (l ++ [v]).
Proof.
  intros Hd Hv i j x y Hi Hj Hne Heq.
  assert (Hnot : forall z, z ∈ l -> ~ (v == z)%Q).
  { intros z Hz Hvz.
    assert (num_in v l = true) by (apply num_in_spec; by exists z). congruence. }
  destruct (decide (i < length l)%nat) as [Hil|Hil];
    destruct (decide (j < length l)%nat) as [Hjl|Hjl].
  - rewrite lookup_app_l in Hi, Hj by done. by apply (Hd i j x y).
  - rewrite lookup_app_l in Hi by done. rewrite lookup_app_r in Hj by lia.
    apply list_lookup_singleton_Some in Hj as [_ <-].
    apply (Hnot x); [by eapply list_elem_of_lookup_2 | by symmetry].
  - rewrite lookup_app_l in Hj by done. rewrite lookup_app_r in Hi by lia.
    apply list_lookup_singleton_Some in Hi as [_ <-].
    apply (Hnot y); [by eapply list_elem_of_lookup_2 | done].
  - rewrite lookup_app_r in Hi, Hj by lia.
    apply list_lookup_singleton_Some in Hi as [Hi _].
    apply list_lookup_singleton_Some in Hj as [Hj _]. lia.
Qed.

Lemma append_new_distinct (vs acc : list Q) :
  distinct_numbers acc -> distinct_numbers (append_new acc vs).
Proof.
  revert acc. induction vs as [|v vs IH]; intros acc Hd; [done|].
  rewrite append_new_step. destruct (num_in v acc) eqn:Hv.
  - by apply IH.
  - apply IH. by apply distinct_numbers_snoc.
Qed.

Lemma distinct_numbers_nil : distinct_numbers [].
Proof. intros i j x y Hi. by rewrite lookup_nil in Hi. Qed.

Lemma labelled_take_profits_distinct (message_lower : string) :
  distinct_numbers (labelled_take_profits message_lower).
Proof.
  unfold labelled_take_profits.
  generalize (append_new_distinct
                (map group1_float (re_finditer tp_label_pattern message_lower)) []
                distinct_numbers_nil).
  generalize (append_new [] (map group1_float (re_finditer tp_label_pattern message_lower))).
  induction list_patterns as [|r rs IH]; intros acc Hd; cbn; [done|].
  apply IH. destruct (re_search r message_lower); [|done].
  by apply append_new_distinct.
Qed.

Lemma append_new_single_in (acc : list Q) (v : Q) :
  num_in v (append_new acc [v]) = true.
Proof.
  rewrite append_new_step. destruct (num_in v acc) eqn:Hv;
    unfold append_new; cbn [fold_left]; [done|].
  rewrite num_in_app, Hv. cbn. rewrite orb_false_r. by apply Qeq_bool_iff.
Qed.

Lemma num_in_head (x : Q) (l : list Q) : head l = Some x -> num_in x l = true.
Proof.
  destruct l as [|y l]; [discriminate|]. intros [= ->]. cbn.
  assert (Qeq_bool x x = true) as -> by (by apply Qeq_bool_iff). reflexivity.
Qed.

Lemma num_in_append_new (x : Q) (acc vs : list Q) :
  num_in x acc = true -> num_in x (append_new acc vs) = true.
Proof.
  intros H. destruct (append_new_prefix vs acc) as [extra ->].
  by rewrite num_in_app, H.
Qed.

(** What [_extract_prices] returns, field by field. *)
Lemma extract_prices_inv (message_text : string) (pr : Prices) :
  _extract_prices message_text = Returned pr ->
  exists range tps2 rem2 tp2,
    extract_range (lower message_text) = Returned range
    /\ p_entry_range pr = range
    /\ (truthy_num (head range) = true -> entry pr = head range)
    /\ (tps2 = labelled_take_profits (lower message_text)
        \/ exists v, tps2 = append_new (labelled_take_profits (lower message_text)) [v])
    /\ p_take_profits pr = append_new tps2 rem2
    /\ (match tp2 with
        | Some x => num_in x tps2 = true
        | None => tps2 = []
        end)
    /\ p_take_profit pr
       = if truthy_num tp2 then tp2
         else match p_take_profits pr with v :: _ => Some v | [] => tp2 end.
Proof.
  unfold _extract_prices.
  destruct (extract_range (lower message_text)) as [range|] eqn:Hrange; [|discriminate].
  set (lab := labelled_take_profits (lower message_text)).
  set (fb := first_group1 [tp_fallback_pattern] (lower message_text)).
  set (e2 := if truthy_num (head range) then head range
             else match first_group1 entry_patterns (lower message_text) with
                  | Some v => Some v
                  | None => head range
                  end).
  set (sl1 := first_group1 [sl_pattern] (lower message_text)).
  set (nums := map float_of (re_findall price_pattern message_text)).
  cbv zeta.
  set (sig := significant_numbers e2 nums).
  assert (Htp : exists tp2 tps2,
            (if truthy_num (head lab) then (head lab, lab)
             else match fb with
                  | Some v => (Some v, append_new lab [v])
                  | None => (head lab, lab)
                  end) = (tp2, tps2)
            /\ (tps2 = lab \/ exists v, tps2 = append_new lab [v])
            /\ match tp2 with
               | Some x => num_in x tps2 = true
               | None => tps2 = []
               end).
  { destruct (truthy_num (head lab)) eqn:Ht.
    - exists (head lab), lab. split; [done|]. split; [by left|].
      destruct (head lab) as [x|] eqn:Hh; [by apply num_in_head | discriminate].
    - destruct fb as [v|].
      + exists (Some v), (append_new lab [v]). split; [done|].
        split; [right; by exists v | apply append_new_single_in].
      + exists (head lab), lab. split; [done|]. split; [by left|].
        destruct (head lab) as [x|] eqn:Hh; [by apply num_in_head|].
        by destruct lab. }
  destruct Htp as (tp2 & tps2 & -> & Htps2 & Htp2).
  set (remaining := List.filter _ sig).
  assert (Hentry : exists entry3 remaining1,
            match sig with
            | [] => (e2, remaining)
            | first :: _ =>
              if truthy_num e2 then (e2, remaining)
              else (Some first, if num_in first remaining
                                then num_remove first remaining else remaining)
            end = (entry3, remaining1)
            /\ (truthy_num e2 = true -> entry3 = e2)).
  { destruct sig as [|first rest]; [by eexists _, _|].
    destruct (truthy_num e2); eexists _, _; (split; [reflexivity|]); done. }
  destruct Hentry as (entry3 & remaining1 & -> & Hentry).
  assert (Hsl : exists sl2 remaining2,
            match remaining1 with
            | [] => (sl1, remaining1)
            | first :: others =>
              if truthy_num sl1 then (sl1, remaining1) else (Some first, others)
            end = (sl2, remaining2)).
  { destruct remaining1; [by eexists _, _|]. destruct (truthy_num sl1); by eexists _, _. }
  destruct Hsl as (sl2 & remaining2 & ->).
  intros [= <-]. cbn.
  exists range, tps2, remaining2, tp2. split; [done|]. split; [done|].
  split; [|done].
  intros Hhead. rewrite Hentry; subst e2; by rewrite Hhead.
Qed.

Lemma float_digits_nonneg (l : list ascii) (num : Z) (den : positive) (frac : bool) :
  (0 <= num)%Z -> (0 <= float_digits l num den frac)%Q.
Proof.
  revert num den frac. induction l as [|c l IH]; intros num den frac Hn; cbn.
  - unfold Qle. cbn. lia.
  - destruct (is_digit c); apply IH; lia.
Qed.

Lemma float_of_nonneg (s : string) : (0 <= float_of s)%Q.
Proof. apply float_digits_nonneg. lia. Qed.

Lemma ratio_ok_bounds (a b : Q) :
  (0 <= a)%Q -> (0 <= b)%Q -> Qeq_bool b 0 = false -> ratio_ok a b = true ->
  (0 < a)%Q /\ (0 < b)%Q /\ (b < 2 * a)%Q /\ (a < 2 * b)%Q.
Proof.
  intros Ha Hb Hz Hr. unfold ratio_ok in Hr. apply andb_true_iff in Hr as [H1 H2].
  apply Qlt_bool_true in H1, H2.
  assert (Hb0 : ~ (b == 0)%Q).
  { intros E. apply Qeq_bool_iff in E. congruence. }
  assert (Hbpos : (0 < b)%Q).
  { apply Qle_lt_or_eq in Hb as [?|E]; [done|]. exfalso. apply Hb0. by symmetry. }
  assert (Hab : (a == (a / b) * b)%Q) by (field; exact Hb0).
  set (r := (a / b)%Q) in *.
  assert (H1' : (0.5 * b < r * b)%Q) by (apply Qmult_lt_compat_r; assumption).
  assert (H2' : (r * b < 2.0 * b)%Q) by (apply Qmult_lt_compat_r; assumption).
  rewrite <- Hab in H1', H2'.
  repeat split; lra.
Qed.

Lemma parse_with_heuristics_prices (message_text : string) (r : ParsedSignal) :
  _parse_with_heuristics message_text = Returned r ->
  exists pr,
    _extract_prices message_text = Returned pr
    /\ entry_price r = entry pr /\ entry_range r = p_entry_range pr
    /\ stop_loss r = p_stop_loss pr
    /\ take_profit r = p_take_profit pr /\ take_profits r = p_take_profits pr.
Proof.
  unfold _parse_with_heuristics.
  destruct (_extract_prices message_text) as [pr|]; [|discriminate].
  intros [= <-]. by exists pr.
Qed.

(** X25.  The entry range of a heuristically parsed signal is empty or a
    pair [low, high] of positive prices with low <= high < 2 * low (the two
    prices of the message pass the ratio test), and then the entry price of
    the record is the low end of the range. *)
Theorem heuristic_entry_range_is_ordered (message_text : string) (r : ParsedSignal) :
  _parse_with_heuristics message_text = Returned r ->
  entry_range r = []
  \/ exists low high,
       entry_range r = [low; high]
       /\ (0 < low)%Q /\ (low <= high)%Q /\ (high < 2 * low)%Q
       /\ entry_price r = Some low.
Proof.
  intros Hr.
  destruct (parse_with_heuristics_prices message_text r Hr)
    as (pr & Hpr & -> & -> & _).
  destruct (extract_prices_inv message_text pr Hpr)
    as (range & tps2 & rem2 & tp2 & Hrange & -> & Hentry & _).
  revert Hrange. unfold extract_range.
  destruct (re_search range_pattern (lower message_text)) as [m|];
    [|intros [= <-]; by left].
  set (p1 := float_of (default EmptyString (group_of 1 m))).
  set (p2 := float_of (default EmptyString (group_of 2 m))).
  destruct (Qeq_bool p2 0) eqn:Hz; [discriminate|].
  destruct (ratio_ok p1 p2) eqn:Hok; [|intros [= <-]; by left].
  intros [= <-]. right.
  destruct (ratio_ok_bounds p1 p2 (float_of_nonneg _) (float_of_nonneg _) Hz Hok)
    as (Hp1 & Hp2 & H21 & H12).
  assert (Hlow : (0 < Qmin p1 p2)%Q).
  { destruct (Q.min_spec p1 p2) as [[_ ->]|[_ ->]]; assumption. }
  exists (Qmin p1 p2), (Qmax p1 p2). split; [reflexivity|].
  split; [exact Hlow|]. split; [|split].
  - apply (Qle_trans _ p1); [apply Q.le_min_l | apply Q.le_max_l].
  - destruct (Q.min_spec p1 p2) as [[Hlt ->]|[Hle ->]].
    + rewrite (Q.max_r p1 p2) by lra. exact H21.
    + rewrite (Q.max_l p1 p2) by lra. exact H12.
  - apply Hentry. cbn.
    destruct (Qeq_bool (Qmin p1 p2) 0) eqn:E; [|reflexivity].
    apply Qeq_bool_iff in E. lra.
Qed.

Lemma heuristic_entry_range_is_ordered_witness :
  exists r,
    _parse_with_heuristics "SELL GOLD 4601.5 - 4605.5 SL 4609.5 TP 4600" = Returned r
    /\ entry_price r = Some 4601.5%Q.
Proof.
  destruct (_parse_with_heuristics "SELL GOLD 4601.5 - 4605.5 SL 4609.5 TP 4600")
    as [r|] eqn:Hr; [|vm_compute in Hr; discriminate].
  exists r. split; [reflexivity|].
  destruct (heuristic_entry_range_is_ordered _ r Hr)
    as [Hnil|(low & high & Hrange & _ & _ & _ & He)].
  - exfalso. vm_compute in Hr. inversion Hr; subst r. discriminate.
  - rewrite He. f_equal.
    vm_compute in Hr. inversion Hr; subst r. cbn in Hrange.
    inversion Hrange. reflexivity.
Defined.

(** X26.  The take-profit list of a heuristically parsed signal never holds
    the same price twice, so the fan-out never opens two executions for one
    take-profit level of such a signal. *)
Theorem heuristic_take_profits_are_distinct (message_text : string) (r : ParsedSignal) :
  _parse_with_heuristics message_text = Returned r ->
  distinct_numbers (take_profits r).
Proof.
  intros Hr.
  destruct (parse_with_heuristics_prices message_text r Hr)
    as (pr & Hpr & _ & _ & _ & _ & ->).
  destruct (extract_prices_inv message_text pr Hpr)
    as (range & tps2 & rem2 & tp2 & _ & _ & _ & Htps2 & -> & _).
  apply append_new_distinct.
  destruct Htps2 as [-> | [v ->]].
  - apply labelled_take_profits_distinct.
  - apply append_new_distinct, labelled_take_profits_distinct.
Qed.

Lemma heuristic_take_profits_are_distinct_witness :
  exists r,
    _parse_with_heuristics "SELL GOLD 4601.5 - 4605.5 SL 4609.5 TP 4600" = Returned r
    /\ distinct_numbers (take_profits r).
Proof.
  destruct (_parse_with_heuristics "SELL GOLD 4601.5 - 4605.5 SL 4609.5 TP 4600")
    as [r|] eqn:Hr; [|vm_compute in Hr; discriminate].
  exists r. split; [reflexivity|].
  exact (heuristic_take_profits_are_distinct _ r Hr).
Defined.

(** X27.  In a heuristically parsed signal the single take profit and the
    list go together: take_profit is null exactly when take_profits is empty,
    and otherwise it is one of the prices of the list.  The engine's fallback
    to the single take profit is therefore never used for such a signal: its
    TP list is take_profits, or one null TP when that is empty. *)
Theorem heuristic_take_profit_is_listed (message_text : string) (r : ParsedSignal) :
  _parse_with_heuristics message_text = Returned r ->
  (take_profit r = None <-> take_profits r = [])
  /\ (forall x, take_profit r = Some x -> num_in x (take_profits r) = true)
  /\ tp_list r = match take_profits r with
                 | [] => [None]
                 | _ :: _ => map Some (take_profits r)
                 end.
Proof.
  intros Hr.
  destruct (parse_with_heuristics_prices message_text r Hr)
    as (pr & Hpr & _ & _ & _ & Hp & Hps).
  destruct (extract_prices_inv message_text pr Hpr)
    as (range & tps2 & rem2 & tp2 & _ & _ & _ & _ & Htps & Htp2 & Htp).
  rewrite <- Hp, <- Hps in *. clear Hp Hps.
  assert (Hiff : take_profit r = None <-> take_profits r = []).
  { rewrite Htp, Htps.
    destruct (append_new_prefix rem2 tps2) as [extra Hex]. rewrite Hex.
    destruct tp2 as [x|].
    - destruct tps2 as [|y tps2]; [discriminate|]. cbn.
      destruct (negb (Qeq_bool x 0)); split; discriminate.
    - subst tps2. cbn. destruct extra; split; (discriminate || reflexivity). }
  split; [exact Hiff|]. split.
  - intros x Hx. rewrite Htp in Hx.
    destruct (truthy_num tp2) eqn:Ht.
    + rewrite Hx in Htp2. rewrite Htps. by apply num_in_append_new.
    + destruct (take_profits r) as [|v l] eqn:Hl.
      * rewrite Hx in Htp2. exfalso.
        destruct (append_new_prefix rem2 tps2) as [extra Hex]. rewrite Hex in Htps.
        destruct tps2; [discriminate Htp2 | discriminate Htps].
      * inversion Hx; subst v. by apply num_in_head.
  - unfold tp_list.
    destruct (take_profits r) as [|v l]; [|reflexivity].
    rewrite (proj2 Hiff eq_refl). reflexivity.
Qed.

Lemma heuristic_take_profit_is_listed_witness :
  exists r,
    _parse_with_heuristics "SELL GOLD 4601.5 - 4605.5 SL 4609.5 TP 4600" = Returned r
    /\ (forall x, take_profit r = Some x -> num_in x (take_profits r) = true).
Proof.
  destruct (_parse_with_heuristics "SELL GOLD 4601.5 - 4605.5 SL 4609.5 TP 4600")
    as [r|] eqn:Hr; [|vm_compute in Hr; discriminate].
  exists r. split; [reflexivity|].
  destruct (heuristic_take_profit_is_listed _ r Hr) as (_ & H & _). exact H.
Defined.

(** ** Classification and the error record *)

Lemma rmatch_lit_chars (l : list ascii) :
  forall st k tail, rest st = l ++ tail ->
    exists st', rmatch (lit_chars l) st k = k st'.
Proof.
  induction l as [|c cs IH]; intros st k tail Hrest; cbn.
  - by exists st.
  - rewrite Hrest. cbn. rewrite Ascii.eqb_refl.
    apply (IH (advance c (cs ++ tail) st) k tail). reflexivity.
Qed.

Lemma search_from_unfold (r : regex) (p : nat) (pv : option ascii) (l : list ascii) :
  search_from r p pv l
  = match rmatch r {| pos := p; prev := pv; rest := l; caps := [] |} Some with
    | Some st' => Some ({| pos := p; prev := pv; rest := l; caps := [] |}, st')
    | None =>
      match l with
      | [] => None
      | c :: cs => search_from r (S p) (Some c) cs
      end
    end.
Proof. destruct l; reflexivity. Qed.

Lemma search_from_lit_chars (l tail pre : list ascii) :
  forall p pv, search_from (lit_chars l) p pv (pre ++ l ++ tail) <> None.
Proof.
  induction pre as [|c pre IH]; intros p pv; rewrite search_from_unfold.
  - cbn [app].
    destruct (rmatch_lit_chars l {| pos := p; prev := pv; rest := l ++ tail; caps := [] |}
                Some tail eq_refl) as [st' ->].
    discriminate.
  - destruct (rmatch _ _ _); [discriminate|]. cbn [app]. apply IH.
Qed.

Lemma prefix_split (s t : string) :
  String.prefix s t = true ->
  exists tail, list_ascii_of_string t = list_ascii_of_string s ++ tail.
Proof.
  revert t. induction s as [|a s IH]; intros t.
  - intros _. by eexists.
  - destruct t as [|b t]; cbn; [discriminate|].
    destruct (ascii_dec a b) as [->|]; [|discriminate].
    intros H. destruct (IH t H) as [tail ->]. by exists tail.
Qed.

Lemma contains_split (s t : string) :
  contains s t = true ->
  exists pre tail,
    list_ascii_of_string t = pre ++ list_ascii_of_string s ++ tail.
Proof.
  induction t as [|c t IH]; cbn [contains].
  - destruct (String.prefix s EmptyString) eqn:Hp; [|discriminate].
    intros _. destruct (prefix_split _ _ Hp) as [tail Ht]. by exists [], tail.
  - destruct (String.prefix s (String c t)) eqn:Hp.
    + intros _. destruct (prefix_split _ _ Hp) as [tail Ht]. by exists [], tail.
    + intros H. destruct (IH H) as (pre & tail & Ht). exists (c :: pre), tail.
      cbn. by rewrite Ht.
Qed.

(** A literal pattern is found wherever the text contains the literal. *)
Lemma re_test_lit (s t : string) : contains s t = true -> re_test (lit s) t = true.
Proof.
  intros H. destruct (contains_split s t H) as (pre & tail & Ht).
  unfold re_test, re_search, lit. rewrite Ht.
  pose proof (search_from_lit_chars (list_ascii_of_string s) tail pre 0 None) as Hs.
  by destruct (search_from _ _ _ _).
Qed.

(** X28.  Commentary is recognised first.  A message that contains one of
    the phrases "my analysis", "patience is key", "you guys know" or "this is
    not financial advice", in any letter case, is classified as commentary
    whatever else it contains, a complete signal included; no parse of it is
    marked actionable. *)
Theorem commentary_phrases_win (phrase message_text : string) :
  phrase ∈ ["my analysis"; "patience is key"; "you guys know";
            "this is not financial advice"] ->
  contains phrase (lower message_text) = true ->
  classify_message message_text = (COMMENTARY, None)
  /\ forall llm,
       message_category (parse_signal llm message_text) <> Some ACTIONABLE_SIGNAL
       /\ is_actionable (parse_signal llm message_text) <> Some true.
Proof.
  intros Hphrase Hc.
  assert (Hcls : classify_message message_text = (COMMENTARY, None)).
  { unfold classify_message.
    assert (He : existsb (fun r => re_test r (lower message_text)) commentary_patterns
                 = true).
    { apply existsb_exists. exists (lit phrase). split; [|by apply re_test_lit].
      repeat (apply elem_of_cons in Hphrase as [->|Hphrase]; [cbn; tauto|]).
      by apply elem_of_nil in Hphrase. }
    by rewrite He. }
  split; [exact Hcls|]. intros llm. unfold parse_signal. rewrite Hcls.
  destruct (match llm with Some ask => ask message_text | None => None end).
  - cbn. split; discriminate.
  - destruct (_parse_with_heuristics message_text); cbn; split; discriminate.
Qed.

Lemma commentary_phrases_win_witness :
  classify_message "BUY EURUSD 1.1000 SL 1.0950 TP 1.1100. This is NOT financial advice"
  = (COMMENTARY, None).
Proof.
  destruct (commentary_phrases_win "this is not financial advice"
              "BUY EURUSD 1.1000 SL 1.0950 TP 1.1100. This is NOT financial advice")
    as [H _].
  - apply (bool_decide_unpack _). vm_compute. exact I.
  - vm_compute. reflexivity.
  - exact H.
Defined.

(** X29.  A price range whose second price is zero makes the parse fail.
    When the range pattern matches the lower-cased message and its second
    number is 0, the quotient of the two prices cannot be computed; without
    an answer of the language model the parser then returns the error
    record, which has confidence 0, no symbol and no category, so the
    message is not actionable. *)
Theorem zero_range_price_gives_error_record (message_text : string)
    (m : MState * MState) (llm : option (string -> option ParsedSignal)) :
  re_search range_pattern (lower message_text) = Some m ->
  (float_of (default EmptyString (group_of 2 m)) == 0)%Q ->
  (forall ask, llm = Some ask -> ask message_text = None) ->
  parse_signal llm message_text = _error_response
  /\ message_category _error_response = None
  /\ is_actionable _error_response = None
  /\ validate_signal (parsed _error_response) = false.
Proof.
  intros Hm Hz Hllm.
  split; [|split; [reflexivity|split; reflexivity]].
  unfold parse_signal.
  assert (Hnone : match llm with Some ask => ask message_text | None => None end = None).
  { destruct llm as [ask|]; [by apply Hllm | reflexivity]. }
  rewrite Hnone.
  unfold _parse_with_heuristics, _extract_prices, extract_range. rewrite Hm.
  apply Qeq_bool_iff in Hz. rewrite Hz. reflexivity.
Qed.

Lemma zero_range_price_gives_error_record_witness :
  parse_signal None "buy gold 4600 - 0 sl 4590 tp 4620" = _error_response.
Proof.
  destruct (re_search range_pattern (lower "buy gold 4600 - 0 sl 4590 tp 4620"))
    as [m|] eqn:Hm; [|vm_compute in Hm; discriminate].
  destruct (zero_range_price_gives_error_record "buy gold 4600 - 0 sl 4590 tp 4620" m None
              Hm) as [H _].
  - vm_compute in Hm. inversion Hm; subst m. vm_compute. reflexivity.
  - intros ask [=].
  - exact H.
Defined.
